(** * Ehiring-MCP: name resolution and the read-through cache

    A shallow embedding of the helper layer shared by [server.py] (the MCP
    server) and [app.py] (the FastAPI backend): the process-wide cache
    [_cache], the three read-through fetchers, the name resolvers built on
    TF-IDF cosine similarity, and the candidate listing with its stage
    filter.  The two files agree on these helpers line by line, except that
    [app.py] raises [HTTPException] where [server.py] raises [Exception],
    that only [server.py] filters a long listing by last update, and that
    only [app.py] has the spreadsheet resolvers.

    Conventions.
    - A Python string is the [string] of its UTF-8 bytes: [py_len] counts
      its characters and [strip] removes the white space of Unicode.
    - A key that the code reads with [.get(key)] is an [option]: the
      value [None] and a missing key are both [None].  The content of an
      opening and the cells of a spreadsheet row, where a default stands
      in for the missing key only and [None] goes on to [BeautifulSoup],
      to [str] and to [==], are [Key]s: absent, [null], or a value; the
      [last_update] of a candidate is a [LastUpdate].  The fields [id]
      and [name] of an opening, which the code indexes, are always
      present.
    - Python floats (scores, thresholds, clock readings) are rationals [Q];
      the literals [1.0], [0.0] and [0.5] are [1], [0] and [1#2], and the
      literal [0.3] is the binary64 number that Python reads,
      [stage_threshold], a little below [3#10].
    - The module-level dictionary [_cache] and the network are threaded
      explicitly: a computation is a function from a [World] to an outcome
      and a new [World]; a raised exception is the outcome [Raised].  The
      clock reading of a call ([time()], [datetime.now()]) is a parameter.
    - [sklearn] and [BeautifulSoup] are libraries outside the repository;
      the functions below take them as section variables.

    The file has the model first, then the statements and the sample data,
    then the properties, and last the properties on sample runs; the
    properties of the further functions and their sample runs close the
    file. *)

From Stdlib Require Import Ascii String ZArith QArith Qround Lqa Floats.
From stdpp Require Import gmap strings list.

Set Default Proof Using "Type".
Local Open Scope Q_scope.

(** ** Upstream records *)

Inductive Exn : Type :=
| ConfigError        (* "BASE_API_KEY chưa được cấu hình" *)
| ConnectivityError  (* "Lỗi kết nối đến Base API", HTTP 503 in app.py *)
| JSONDecodeError    (* from [response.json()] *)
| AttributeError     (* [.get] on a value that is not a dictionary *)
| VectorizerError    (* raised inside sklearn *)
| ValueError         (* [np.argmax] of an empty array *)
| IndexError
| TypeError.         (* an operation on [None] or on a value of the wrong type *)

(** A key of a JSON object: absent, [null], or with a value. *)
Inductive Key (A : Type) : Type :=
| KeyAbsent
| KeyNull
| KeyValue (a : A).
Arguments KeyAbsent {A}.
Arguments KeyNull {A}.
Arguments KeyValue {A} a.

(** [d.get(key, default)]; [None] is the value [None] of Python. *)
Definition get_or {A} (default : A) (k : Key A) : option A :=
  match k with
  | KeyAbsent => Some default
  | KeyNull => None
  | KeyValue a => Some a
  end.

(** One element of the [openings] array of [opening/list]. *)
Record RawOpening := {
  ro_id : string;
  ro_name : string;
  ro_status : option string;
  ro_content : Key string
}.

(** What [get_base_openings] keeps of an opening: [{"id": .., "name": ..}]. *)
Record Opening := { op_id : string; op_name : string }.

(** An entry of the job-description list. *)
Record JobDescription := {
  jd_id : string;
  jd_name : string;
  job_description : string;
  html_content : string
}.

(** One element of the [users] array of the account API; an element that is
    not a JSON object is [None] at its position in the array. *)
Record RawUser := {
  ru_username : option string;
  ru_name : option string;
  ru_title : option string
}.

Record UserInfo := { ui_name : string; ui_title : string }.

(** The key [last_update] of a candidate as [int(..)] meets it: no key; a
    value of which [int] makes [timestamp] (a number, or a string that
    spells one); a value on which [int] raises ([TypeError] on [null], on
    a list and on an object, [ValueError] on a string that spells no
    number). *)
Inductive LastUpdate : Type :=
| NoUpdate
| UpdatedAt (timestamp : Z)
| UpdateRefused (e : Exn).

(** One element of the [candidates] array of [candidate/list], with the
    fields the listing and the resolvers read. *)
Record Candidate := {
  c_id : option string;
  c_name : option string;
  c_stage_name : option string;
  c_last_update : LastUpdate
}.

(** One row of the assessment spreadsheet ([app.py] only); the value of
    [candidate_id] is given by the text that [str(..)] makes of it. *)
Record SheetRow := {
  row_candidate_id : Key string;   (* [candidate_id] *)
  row_ten_ung_vien : Key string;   (* ["Tên ứng viên"] *)
  row_cong_viec : Key string       (* ["Công việc ứng tuyển"] *)
}.

(** The JSON answer of the spreadsheet script: [success] and [data]. *)
Record SheetResult := {
  sheet_success : bool;
  sheet_data : option (list SheetRow)
}.

(** One entry of a candidate's [test_results] ([app.py] only). *)
Record TestRecord := {
  test_name : option string;
  test_score : string
}.

(** ** The network *)

(** The outcome of [requests.post(..)], [raise_for_status()] and
    [response.json()] on one request. *)
Inductive Response (A : Type) : Type :=
| RequestError            (* [requests.exceptions.RequestException] *)
| BadBody                 (* [response.json()] raises *)
| Body (a : A).
Arguments RequestError {A}.
Arguments BadBody {A}.
Arguments Body {A} a.

Inductive Endpoint : Type :=
| OpeningList (access_token : string)
| CandidateList (access_token opening_id : string)
    (start_date end_date : option string)
| UserDirectory (access_token : string)
| SheetReadAll.

(** What the upstream answers to a request, given how many events the
    process has gone through before ([nat]); [None] in a body says that the
    key ([openings], [candidates], [users]) is absent or, for [users], not
    a list. *)
Record Upstream := {
  opening_list : string -> nat -> Response (option (list RawOpening));
  candidate_list : string -> string -> option string -> option string ->
                   nat -> Response (option (list Candidate));
  user_list : string -> nat -> Response (option (list (option RawUser)));
  sheet_read_all : nat -> Response SheetResult
}.

(** ** The process state *)

(** [{'data': .., 'timestamp': ..}] *)
Record CacheEntry (T : Type) := { data : option T; timestamp : Q }.
Arguments data {T} c.
Arguments timestamp {T} c.

(** [_cache], one entry per kind. *)
Record Cache := {
  openings : CacheEntry (list Opening);
  job_descriptions : CacheEntry (list JobDescription);
  users_info : CacheEntry (gmap string UserInfo)
}.

(** [CACHE_TTL = 300] *)
Definition CACHE_TTL : Q := 300.

(** [_cache] at import time. *)
Definition empty_cache : Cache :=
  {| openings := {| data := None; timestamp := 0 |};
     job_descriptions := {| data := None; timestamp := 0 |};
     users_info := {| data := None; timestamp := 0 |} |}.

(** What the process did, newest first: the requests it sent and the calls
    of the similarity scorer. *)
Inductive Event : Type :=
| Request (e : Endpoint)
| Vectorize (query : string) (pool : list string).

Record World := { cache : Cache; trace : list Event }.

Definition initial_world : World := {| cache := empty_cache; trace := [] |}.

Definition is_request (e : Event) : bool :=
  match e with Request _ => true | Vectorize _ _ => false end.

Definition is_vectorize (e : Event) : bool :=
  match e with Vectorize _ _ => true | Request _ => false end.

(** How many requests were sent and how often the scorer ran. *)
Definition fetch_count (w : World) : nat := length (List.filter is_request (trace w)).
Definition scorer_calls (w : World) : nat := length (List.filter is_vectorize (trace w)).

(** ** Exceptions and the computation monad *)

Inductive Outcome (A : Type) : Type :=
| Returned (a : A)
| Raised (e : Exn).
Arguments Returned {A} a.
Arguments Raised {A} e.

Definition M (A : Type) : Type := World -> Outcome A * World.

Definition ret {A} (a : A) : M A := fun w => (Returned a, w).
Definition raise {A} (e : Exn) : M A := fun w => (Raised e, w).
Definition bind {A B} (m : M A) (k : A -> M B) : M B :=
  fun w => match m w with
           | (Returned a, w') => k a w'
           | (Raised e, w') => (Raised e, w')
           end.

(** [try: m except Exception: h] *)
Definition try_except {A} (m : M A) (h : M A) : M A :=
  fun w => match m w with
           | (Returned a, w') => (Returned a, w')
           | (Raised _, w') => h w'
           end.

#[export] Instance M_ret : MRet M := @ret.
#[export] Instance M_bind : MBind M := fun A B k m => bind m k.

Definition get_cache : M Cache := fun w => (Returned (cache w), w).
Definition put_cache (c : Cache) : M unit :=
  fun w => (Returned tt, {| cache := c; trace := trace w |}).
Definition log (e : Event) : M unit :=
  fun w => (Returned tt, {| cache := cache w; trace := e :: trace w |}).
Definition events_so_far : M nat := fun w => (Returned (length (trace w)), w).
Definition lift_outcome {A} (o : Outcome A) : M A := fun w => (o, w).

(** [if not s] on a string. *)
Definition falsy (s : string) : bool := String.eqb s "".

(** ** Numbers and strings as Python has them *)

(** [x < y] on floats. *)
Definition Qltb (x y : Q) : bool := negb (Qle_bool y x).


(** [len(s)]: the number of characters of [s], that is, of the bytes that
    do not continue a character. *)
Fixpoint py_len (s : string) : nat :=
  match s with
  | EmptyString => 0%nat
  | String a s' =>
      let n := nat_of_ascii a in
      if (128 <=? n)%nat && (n <=? 191)%nat then py_len s'
      else S (py_len s')
  end.

(** [str.isspace] on an ASCII character. *)
Definition py_isspace (a : ascii) : bool :=
  let n := nat_of_ascii a in
  ((9 <=? n)%nat && (n <=? 13)%nat) || ((28 <=? n)%nat && (n <=? 32)%nat).

(** The number of bytes of the white space character at the start of [s],
    and [0] when [s] starts with none.  White space is what [str.isspace]
    and the [\s] of [re] accept: the ASCII one, U+0085, U+00A0, U+1680,
    U+2000 to U+200A, U+2028, U+2029, U+202F, U+205F and U+3000. *)
Definition space_width (s : string) : nat :=
  match s with
  | EmptyString => 0%nat
  | String a s' =>
      if py_isspace a then 1%nat
      else
        match s' with
        | EmptyString => 0%nat
        | String b s'' =>
            if Ascii.eqb a "194" then
              if Ascii.eqb b "133" || Ascii.eqb b "160" then 2%nat else 0%nat
            else
              match s'' with
              | EmptyString => 0%nat
              | String c _ =>
                  let n := nat_of_ascii c in
                  if Ascii.eqb a "225" then
                    if Ascii.eqb b "154" && Ascii.eqb c "128"
                    then 3%nat else 0%nat
                  else if Ascii.eqb a "226" then
                    if Ascii.eqb b "128"
                       && (((128 <=? n)%nat && (n <=? 138)%nat)
                           || Ascii.eqb c "168" || Ascii.eqb c "169"
                           || Ascii.eqb c "175")
                       || Ascii.eqb b "129" && Ascii.eqb c "159"
                    then 3%nat else 0%nat
                  else if Ascii.eqb a "227" then
                    if Ascii.eqb b "128" && Ascii.eqb c "128"
                    then 3%nat else 0%nat
                  else 0%nat
              end
        end
  end.

(** [s.lstrip()], after the [n] bytes that end a white space character. *)
Fixpoint lstrip_from (n : nat) (s : string) : string :=
  match s with
  | EmptyString => EmptyString
  | String a s' =>
      match n with
      | S k => lstrip_from k s'
      | O =>
          match space_width s with
          | S k => lstrip_from k s'
          | O => s
          end
      end
  end.

Definition lstrip (s : string) : string := lstrip_from 0 s.

(** After [n] bytes that end a white space character, [s] is white space
    only. *)
Fixpoint blank_from (n : nat) (s : string) : bool :=
  match s with
  | EmptyString => true
  | String a s' =>
      match n with
      | S k => blank_from k s'
      | O =>
          match space_width s with
          | S k => blank_from k s'
          | O => false
          end
      end
  end.

(** [s.rstrip()] *)
Fixpoint rstrip (s : string) : string :=
  match s with
  | EmptyString => EmptyString
  | String a s' => if blank_from 0 s then EmptyString else String a (rstrip s')
  end.

(** [s.strip()] *)
Definition strip (s : string) : string := rstrip (lstrip s).

(** ** The read-through fetchers *)

Section Fetchers.

Variable upstream : Upstream.

(** [BeautifulSoup(html, "html.parser").get_text()] *)
Variable get_text : string -> string.

(** [os.getenv('ACCOUNT_API_KEY', None)] *)
Variable ACCOUNT_API_KEY : option string.

(** [requests.post(url, ..)], [raise_for_status()] and [.json()], for the
    three endpoints. *)
Definition post_opening_list (api_key : string)
  : M (Response (option (list RawOpening))) :=
  n ← events_so_far;
  log (Request (OpeningList api_key));;
  mret (opening_list upstream api_key n).

Definition post_candidate_list (api_key opening_id : string)
    (start_date end_date : option string)
  : M (Response (option (list Candidate))) :=
  n ← events_so_far;
  log (Request (CandidateList api_key opening_id start_date end_date));;
  mret (candidate_list upstream api_key opening_id start_date end_date n).

Definition post_users (key : string)
  : M (Response (option (list (option RawUser)))) :=
  n ← events_so_far;
  log (Request (UserDirectory key));;
  mret (user_list upstream key n).

(** [use_cache and entry['data'] is not None and
    current_time - entry['timestamp'] < CACHE_TTL] gives the cached data. *)
Definition cached {T} (use_cache : bool) (current_time : Q) (e : CacheEntry T)
  : option T :=
  match data e with
  | Some d =>
      if use_cache && Qltb (current_time - timestamp e) CACHE_TTL
      then Some d else None
  | None => None
  end.

(** [opening.get('status') == '10'] *)
Definition is_active (o : RawOpening) : bool :=
  match ro_status o with
  | Some s => String.eqb s "10"
  | None => false
  end.

Definition filtered_openings (l : list RawOpening) : list Opening :=
  List.map (fun o => {| op_id := ro_id o; op_name := ro_name o |})
           (List.filter is_active l).

Definition set_openings (c : Cache) (e : CacheEntry (list Opening)) : Cache :=
  {| openings := e; job_descriptions := job_descriptions c;
     users_info := users_info c |}.

Definition set_job_descriptions (c : Cache)
    (e : CacheEntry (list JobDescription)) : Cache :=
  {| openings := openings c; job_descriptions := e;
     users_info := users_info c |}.

Definition set_users_info (c : Cache)
    (e : CacheEntry (gmap string UserInfo)) : Cache :=
  {| openings := openings c; job_descriptions := job_descriptions c;
     users_info := e |}.

Definition get_base_openings (current_time : Q) (api_key : string)
    (use_cache : bool) : M (list Opening) :=
  if falsy api_key then raise ConfigError else
  c ← get_cache;
  match cached use_cache current_time (openings c) with
  | Some d => mret d
  | None =>
      r ← post_opening_list api_key;
      match r with
      | RequestError => raise ConnectivityError
      | BadBody => raise JSONDecodeError
      | Body b =>
          let result := filtered_openings (default [] b) in
          (if use_cache
           then put_cache (set_openings c {| data := Some result;
                                             timestamp := current_time |})
           else mret tt);;
          mret result
      end
  end.

(** The body of the loop of [get_job_descriptions]: what one opening adds
    to [results].  The content is [opening.get('content', '')], and
    [BeautifulSoup] raises on the content [None]. *)
Definition jd_entry (o : RawOpening) : Outcome (list JobDescription) :=
  if is_active o then
    match get_or "" (ro_content o) with
    | None => Raised TypeError
    | Some html =>
        let text_content := get_text html in
        if (10 <=? py_len text_content)%nat then
          Returned [ {| jd_id := ro_id o; jd_name := ro_name o;
                        job_description := strip text_content;
                        html_content := html |} ]
        else Returned []
    end
  else Returned [].

(** The loop: the entries in the order of the openings, up to the first
    opening on which the body raises. *)
Fixpoint jd_results (l : list RawOpening) : Outcome (list JobDescription) :=
  match l with
  | [] => Returned []
  | o :: l' =>
      match jd_entry o with
      | Raised e => Raised e
      | Returned entry =>
          match jd_results l' with
          | Raised e => Raised e
          | Returned rest => Returned (entry ++ rest)
          end
      end
  end.

Definition get_job_descriptions (current_time : Q) (api_key : string)
    (use_cache : bool) : M (list JobDescription) :=
  if falsy api_key then raise ConfigError else
  c ← get_cache;
  match cached use_cache current_time (job_descriptions c) with
  | Some d => mret d
  | None =>
      r ← post_opening_list api_key;
      match r with
      | RequestError => raise ConnectivityError
      | BadBody => raise JSONDecodeError
      | Body (Some l) =>
          results ← lift_outcome (jd_results l);
          (if use_cache
           then put_cache (set_job_descriptions c
                  {| data := Some results; timestamp := current_time |})
           else mret tt);;
          mret results
      | Body None => mret []
      end
  end.

(** One round of the loop over [users_data['users']]. *)
Definition add_user (acc : gmap string UserInfo) (u : RawUser)
  : gmap string UserInfo :=
  let name := default "" (ru_name u) in
  let title := default "" (ru_title u) in
  match ru_username u with
  | Some username =>
      if falsy username then acc else
      let title := if String.eqb name "Hoang Tran" then "CEO" else title in
      if falsy title
      then <[username := {| ui_name := name; ui_title := "" |}]> acc
      else <[username := {| ui_name := name; ui_title := title |}]> acc
  | None => acc
  end.

(** The loop; an element that is not a dictionary makes [user.get] raise. *)
Fixpoint build_directory (acc : gmap string UserInfo)
    (l : list (option RawUser)) : Outcome (gmap string UserInfo) :=
  match l with
  | [] => Returned acc
  | Some u :: l' => build_directory (add_user acc u) l'
  | None :: _ => Raised AttributeError
  end.

Definition get_users_info (current_time : Q) (use_cache : bool)
  : M (gmap string UserInfo) :=
  match ACCOUNT_API_KEY with
  | None => mret ∅
  | Some key =>
      if falsy key then mret ∅ else
      c ← get_cache;
      match cached use_cache current_time (users_info c) with
      | Some d => mret d
      | None =>
          try_except
            (r ← post_users key;
             match r with
             | RequestError => raise ConnectivityError
             | BadBody => raise JSONDecodeError
             | Body b =>
                 username_to_info ←
                   lift_outcome (build_directory ∅ (default [] b));
                 (if use_cache
                  then put_cache (set_users_info c
                         {| data := Some username_to_info;
                            timestamp := current_time |})
                  else mret tt);;
                 mret username_to_info
             end)
            (mret ∅)
      end
  end.

End Fetchers.

(** ** The similarity scorer and [np.argmax] *)

(** [np.argmax]: the position of the first maximal element, scanning from
    the left with the best position and value seen so far. *)
Fixpoint argmax_from (best_idx : nat) (best : Q) (i : nat) (l : list Q) : nat :=
  match l with
  | [] => best_idx
  | x :: l' =>
      if Qltb best x then argmax_from i x (S i) l'
      else argmax_from best_idx best (S i) l'
  end.

(** [np.argmax] raises [ValueError] on an empty array. *)
Definition argmax (l : list Q) : Outcome nat :=
  match l with
  | [] => Raised ValueError
  | x :: l' => Returned (argmax_from 0 x 1 l')
  end.

(** [l[i]] on a list or an array. *)
Definition index {A} (l : list A) (i : nat) : Outcome A :=
  match l !! i with
  | Some a => Returned a
  | None => Raised IndexError
  end.

(** [if o] on an optional string: present and not empty. *)
Definition truthy (o : option string) : bool :=
  match o with
  | Some s => negb (falsy s)
  | None => false
  end.

(** [x in l] on a list of strings. *)
Definition str_in (x : string) (l : list string) : bool :=
  List.existsb (String.eqb x) l.

Definition is_empty {A} (l : list A) : bool :=
  match l with [] => true | _ => false end.

Section Resolvers.

Variable upstream : Upstream.

(** [TfidfVectorizer().fit_transform(pool)], [.transform([query])] and
    [cosine_similarity(..).flatten()]: the similarities of the query to
    each pool entry, or [None] when sklearn raises. *)
Variable scorer : string -> list string -> option (list Q).

(** [GOOGLE_SHEET_SCRIPT_URL] is set. *)
Variable sheet_configured : bool.

Definition vectorize (query : string) (pool : list string) : M (list Q) :=
  log (Vectorize query pool);;
  match scorer query pool with
  | Some similarities => mret similarities
  | None => raise VectorizerError
  end.

(** The three lines shared by every resolver: the similarities, the
    position of the best one and its value. *)
Definition best_match (query : string) (pool : list string) : M (nat * Q) :=
  similarities ← vectorize query pool;
  best_idx ← lift_outcome (argmax similarities);
  best_similarity ← lift_outcome (index similarities best_idx);
  mret (best_idx, best_similarity).

Definition exact_opening (query_name : string) (op : Opening) : bool :=
  String.eqb (op_id op) query_name || String.eqb (op_name op) query_name.

Definition find_opening_id_by_name (current_time : Q)
    (query_name api_key : string) (similarity_threshold : Q)
  : M (option string * option string * Q) :=
  openings ← get_base_openings upstream current_time api_key true;
  if is_empty openings then mret (None, None, 0) else
  match List.find (exact_opening query_name) openings with
  | Some exact_match =>
      mret (Some (op_id exact_match), Some (op_name exact_match), 1)
  | None =>
      let opening_names := List.map op_name openings in
      if is_empty opening_names then mret (None, None, 0) else
      try_except
        ('(best_idx, best_similarity) ← best_match query_name opening_names;
         if Qle_bool similarity_threshold best_similarity then
           best_opening ← lift_outcome (index openings best_idx);
           mret (Some (op_id best_opening), Some (op_name best_opening),
                 best_similarity)
         else mret (None, None, best_similarity))
        (mret (None, None, 0))
  end.

(** [stage_name and stage_name in filter_stages] *)
Definition in_stages (filter_stages : list string) (c : Candidate) : bool :=
  truthy (c_stage_name c) && str_in (default "" (c_stage_name c)) filter_stages.

Definition has_name (c : Candidate) : bool := truthy (c_name c).

(** [c.get('name') == candidate_name] *)
Definition named (candidate_name : string) (c : Candidate) : bool :=
  match c_name c with
  | Some n => String.eqb n candidate_name
  | None => false
  end.

(** The search among the candidates that passed the stage filter: the
    lines of [find_candidate_by_name_in_opening] after the filter. *)
Definition search_candidates (candidate_name : string)
    (similarity_threshold : Q) (filtered_candidates : list Candidate)
  : M (option string * Q) :=
  let candidate_names :=
    List.map (fun c => default "" (c_name c))
             (List.filter has_name filtered_candidates) in
  if is_empty candidate_names then mret (None, 0) else
  match List.find (named candidate_name) filtered_candidates with
  | Some exact_match => mret (c_id exact_match, 1)
  | None =>
      try_except
        ('(best_idx, best_similarity) ←
            best_match candidate_name candidate_names;
         if Qle_bool similarity_threshold best_similarity then
           let candidates_with_names :=
             List.filter has_name filtered_candidates in
           match candidates_with_names !! best_idx with
           | Some best_candidate =>
               mret (c_id best_candidate, best_similarity)
           | None => mret (None, best_similarity)
           end
         else mret (None, best_similarity))
        (mret (None, 0))
  end.

Definition find_candidate_by_name_in_opening (candidate_name opening_id
    api_key : string) (similarity_threshold : Q)
    (filter_stages : option (list string)) : M (option string * Q) :=
  if falsy candidate_name || falsy opening_id then mret (None, 0) else
  r ← post_candidate_list upstream api_key opening_id None None;
  match r with
  | RequestError => mret (None, 0)
  | BadBody => raise JSONDecodeError
  | Body None | Body (Some []) => mret (None, 0)
  | Body (Some candidates) =>
      match filter_stages with
      | Some (s :: ss) =>
          let filtered_candidates :=
            List.filter (in_stages (s :: ss)) candidates in
          if is_empty filtered_candidates then mret (None, 0)
          else search_candidates candidate_name similarity_threshold
                 filtered_candidates
      | _ => search_candidates candidate_name similarity_threshold candidates
      end
  end.

(** *** Stage names and the candidate listing *)

(** [list(set(names))]: the order of a Python set is not specified. *)
Variable set_order : list string -> list string.

(** The stage names of the candidates that carry one, with repetitions. *)
Definition carried_stage_names (candidates : list Candidate) : list string :=
  List.map (fun c => default "" (c_stage_name c))
           (List.filter (fun c => truthy (c_stage_name c)) candidates).

(** The distinct stage names of the candidates that carry one. *)
Definition all_stage_names (candidates : list Candidate) : list string :=
  set_order (carried_stage_names candidates).

(** The float that the literal [0.3] of [best_similarity >= 0.3] denotes:
    the binary64 number nearest to 3/10. *)
Definition stage_threshold : Q := 5404319552844595 # 18014398509481984.

(** [matching_stage_names] for a stage name that is not [None]. *)
Definition resolve_stage (stage_name : string) (candidates : list Candidate)
  : M (option (list string)) :=
  let names := all_stage_names candidates in
  if is_empty names then mret None
  else if str_in stage_name names then mret (Some [stage_name])
  else
    try_except
      ('(best_idx, best_similarity) ← best_match stage_name names;
       if Qle_bool stage_threshold best_similarity then
         best_name ← lift_outcome (index names best_idx);
         mret (Some [best_name])
       else mret None)
      (mret None).

(** Step 1 of [get_candidates_for_opening]: the loop that keeps the
    candidates of the matching stages, or all of them when
    [matching_stage_names] is [None]. *)
Definition filter_by_stage (matching_stage_names : option (list string))
    (candidates : list Candidate) : list Candidate :=
  match matching_stage_names with
  | Some names =>
      List.filter (fun c => str_in (default "" (c_stage_name c)) names)
                  candidates
  | None => candidates
  end.

(** [int(c.get('last_update', 0))] *)
Definition last_update (c : Candidate) : Outcome Z :=
  match c_last_update c with
  | NoUpdate => Returned 0%Z
  | UpdatedAt timestamp => Returned timestamp
  | UpdateRefused e => Raised e
  end.

(** [[c for c in filtered_candidates
      if int(c.get('last_update', 0)) >= seven_days_ago_ts]]: the
    comprehension raises when [int] raises on one of the candidates. *)
Fixpoint updated_since (seven_days_ago_ts : Z)
    (filtered_candidates : list Candidate) : Outcome (list Candidate) :=
  match filtered_candidates with
  | [] => Returned []
  | c :: l =>
      match last_update c with
      | Raised e => Raised e
      | Returned t =>
          match updated_since seven_days_ago_ts l with
          | Raised e => Raised e
          | Returned kept =>
              Returned (if (seven_days_ago_ts <=? t)%Z then c :: kept
                        else kept)
          end
      end
  end.


(** The stage filter of both implementations: the candidates handed on
    after step 1. *)
Definition stage_filtered (stage_name : option string)
    (candidates : list Candidate) : M (list Candidate) :=
  matching_stage_names ←
    match stage_name with
    | Some s => resolve_stage s candidates
    | None => mret None
    end;
  mret (filter_by_stage matching_stage_names candidates).

(** *** The spreadsheet resolvers of [app.py] *)

Definition find_test_by_name (test_results : option (list TestRecord))
    (test_name_query : string) (similarity_threshold : Q)
  : M (option TestRecord * Q) :=
  match test_results with
  | None | Some [] => mret (None, 0)
  | Some tests =>
      if falsy test_name_query then mret (None, 0) else
      match List.find (fun t => match test_name t with
                                | Some n => String.eqb n test_name_query
                                | None => false
                                end) tests with
      | Some exact_match => mret (Some exact_match, 1)
      | None =>
          let tests_with_names :=
            List.filter (fun t => truthy (test_name t)) tests in
          let test_names :=
            List.map (fun t => default "" (test_name t)) tests_with_names in
          if is_empty test_names then mret (None, 0) else
          try_except
            ('(best_idx, best_similarity) ←
                best_match test_name_query test_names;
             if Qle_bool similarity_threshold best_similarity then
               match tests_with_names !! best_idx with
               | Some best_test => mret (Some best_test, best_similarity)
               | None => mret (None, best_similarity)
               end
             else mret (None, best_similarity))
            (mret (None, 0))
      end
  end.

(** [get_all_test_results_from_google_sheet]: [None] without a script
    URL or on any exception, the rows on success, [[]] otherwise. *)
Definition get_all_test_results_from_google_sheet
  : M (option (list SheetRow)) :=
  if negb sheet_configured then mret None else
  n ← events_so_far;
  log (Request SheetReadAll);;
  match sheet_read_all upstream n with
  | Body result =>
      match sheet_data result with
      | Some (r :: rows) =>
          if sheet_success result then mret (Some (r :: rows))
          else mret (Some [])
      | _ => mret (Some [])
      end
  | _ => mret None
  end.

(** [str(x)] on a string or [None]. *)
Definition str (x : option string) : string := default "None" x.

(** [x == s] for a string [s]. *)
Definition equals (x : option string) (s : string) : bool :=
  match x with
  | Some x' => String.eqb x' s
  | None => false
  end.

(** [str(item.get('candidate_id', ''))]: the id ["None"] for [null]. *)
Definition candidate_id_of (item : SheetRow) : string :=
  str (get_or "" (row_candidate_id item)).

(** The loop that fills [candidate_map]: the first row of each
    non-empty [candidate_id], in the order of first appearance, with the
    row's name and job ([None] when [null]). *)
Definition add_row
    (candidate_map : list (string * (option string * option string)))
    (item : SheetRow) : list (string * (option string * option string)) :=
  let candidate_id := candidate_id_of item in
  if falsy candidate_id then candidate_map
  else if str_in candidate_id (List.map fst candidate_map) then candidate_map
  else candidate_map ++
         [(candidate_id, (get_or "" (row_ten_ung_vien item),
                          get_or "" (row_cong_viec item)))].

Definition find_candidate_id_in_google_sheet (candidate_name opening_name
    : string) (similarity_threshold : Q) : M (option string * Q * Q) :=
  if negb sheet_configured || falsy candidate_name || falsy opening_name
  then mret (None, 0, 0) else
  all_data ← get_all_test_results_from_google_sheet;
  match all_data with
  | None | Some [] => mret (None, 0, 0)
  | Some rows =>
      let candidate_map := List.fold_left add_row rows [] in
      if is_empty candidate_map then mret (None, 0, 0) else
      match List.find (fun c => equals (fst (snd c)) candidate_name
                                && equals (snd (snd c)) opening_name)
                      candidate_map with
      | Some exact_match => mret (Some (fst exact_match), 1, 1)
      | None =>
          try_except
            (let combined_texts :=
               List.map (fun c => str (fst (snd c)) +:+ " "
                                  +:+ str (snd (snd c)))
                        candidate_map in
             let query_text := candidate_name +:+ " " +:+ opening_name in
             '(best_idx, best_similarity) ←
                best_match query_text combined_texts;
             if Qle_bool similarity_threshold best_similarity then
               match candidate_map !! best_idx with
               | Some best_candidate =>
                   mret (Some (fst best_candidate), best_similarity, 0)
               | None => mret (None, best_similarity, 0)
               end
             else mret (None, best_similarity, 0))
            (mret (None, 0, 0))
      end
  end.

End Resolvers.

(** ** The candidate listing, in its two versions

    [get_candidates_for_opening] fetches the candidates of an opening,
    keeps those of the requested stage (step 1) and builds one record per
    kept candidate, in order (step 2: CV text, reviews, form data).  Step 2
    is the variable [candidate_info]; the two files differ in what lies
    between the steps. *)

Module Server.
Section Listing.

Variable upstream : Upstream.
Variable scorer : string -> list string -> option (list Q).
Variable set_order : list string -> list string.
Variable Info : Type.
Variable candidate_info : string -> Candidate -> M Info.

(** [int((datetime.now() - timedelta(days=7)).timestamp())] at the clock
    reading [now]: the time stamp of the local wall-clock time seven
    calendar days earlier, which depends on the time zone of the
    process. *)
Variable seven_days_ago : Q -> Z.

(** [filtered_candidates] as step 2 receives it in [server.py]. *)
Definition filtered_candidates (now : Q) (stage_name : option string)
    (candidates : list Candidate) : M (list Candidate) :=
  filtered ← stage_filtered scorer set_order stage_name candidates;
  if (10 <? length filtered)%nat
  then lift_outcome (updated_since (seven_days_ago now) filtered)
  else mret filtered.

Definition get_candidates_for_opening (now : Q) (opening_id api_key : string)
    (start_date end_date stage_name : option string) : M (list Info) :=
  r ← post_candidate_list upstream api_key opening_id start_date end_date;
  match r with
  | RequestError => raise ConnectivityError
  | BadBody => raise JSONDecodeError
  | Body None | Body (Some []) => mret []
  | Body (Some candidates) =>
      filtered ← filtered_candidates now stage_name candidates;
      mapM (candidate_info opening_id) filtered
  end.

End Listing.
End Server.

Module App.
Section Listing.

Variable upstream : Upstream.
Variable scorer : string -> list string -> option (list Q).
Variable set_order : list string -> list string.
Variable Info : Type.
Variable candidate_info : string -> Candidate -> M Info.

(** [filtered_candidates] as step 2 receives it in [app.py]. *)
Definition filtered_candidates (now : Q) (stage_name : option string)
    (candidates : list Candidate) : M (list Candidate) :=
  stage_filtered scorer set_order stage_name candidates.

Definition get_candidates_for_opening (now : Q) (opening_id api_key : string)
    (start_date end_date stage_name : option string) : M (list Info) :=
  r ← post_candidate_list upstream api_key opening_id start_date end_date;
  match r with
  | RequestError => raise ConnectivityError
  | BadBody => raise JSONDecodeError
  | Body None | Body (Some []) => mret []
  | Body (Some candidates) =>
      filtered ← filtered_candidates now stage_name candidates;
      mapM (candidate_info opening_id) filtered
  end.

End Listing.
End App.

(** ** A reference scorer

    The calls [TfidfVectorizer().fit_transform(pool)],
    [vectorizer.transform([query])] and [cosine_similarity(..).flatten()]
    with sklearn's defaults, on ASCII text and in binary64 arithmetic:
    lower-cased tokens of two or more word characters, the vocabulary of
    the pool in sorted order, smoothed inverse document frequencies
    [ln((1 + n) / (1 + df)) + 1], rows scaled to unit length, and the dot
    product of the unit vectors.  The logarithm is a parameter; [ln_series]
    is a series for it that is exact at [1].  This scorer instantiates the
    variable [scorer] in the concrete runs below. *)

Module Tfidf.

Local Open Scope float_scope.

Definition is_word (a : ascii) : bool :=
  let n := nat_of_ascii a in
  (((48 <=? n) && (n <=? 57)) || ((65 <=? n) && (n <=? 90))
   || ((97 <=? n) && (n <=? 122)) || (n =? 95))%nat.

Definition lower (a : ascii) : ascii :=
  let n := nat_of_ascii a in
  if ((65 <=? n) && (n <=? 90))%nat then ascii_of_nat (n + 32) else a.

(** The token under construction is kept reversed in [cur]. *)
Definition flush (cur : string) : list string :=
  if (2 <=? String.length cur)%nat then [String.rev cur] else [].

Fixpoint tokens_go (cur : string) (s : string) : list string :=
  match s with
  | EmptyString => flush cur
  | String a s' =>
      if is_word a then tokens_go (String (lower a) cur) s'
      else flush cur ++ tokens_go EmptyString s'
  end.

(** [re.findall(r"(?u)\b\w\w+\b", s.lower())] *)
Definition tokenize (s : string) : list string := tokens_go EmptyString s.

Fixpoint insert_sorted (t : string) (l : list string) : list string :=
  match l with
  | [] => [t]
  | u :: l' =>
      if String.eqb t u then l
      else if String.ltb t u then t :: l
      else u :: insert_sorted t l'
  end.

(** [sorted(vocabulary)] *)
Definition vocabulary (docs : list (list string)) : list string :=
  List.fold_left (fun v t => insert_sorted t v) (List.concat docs) [].

Definition of_nat (n : nat) : float :=
  PrimFloat.of_uint63 (Uint63.of_Z (Z.of_nat n)).

Definition count_of (t : string) (doc : list string) : nat :=
  length (List.filter (String.eqb t) doc).

Definition doc_freq (t : string) (docs : list (list string)) : nat :=
  length (List.filter (fun d => List.existsb (String.eqb t) d) docs).

Definition sum (l : list float) : float := List.fold_left PrimFloat.add l 0.

Definition dot (x y : list float) : float :=
  sum (List.map (fun p => fst p * snd p) (List.combine x y)).

(** [sklearn.preprocessing.normalize]: a zero row is left as it is. *)
Definition normalize (x : list float) : list float :=
  let norm := PrimFloat.sqrt (dot x x) in
  if PrimFloat.eqb norm 0 then x else List.map (fun v => v / norm) x.

Section WithLog.

Variable ln : float -> float.

Definition idf (docs : list (list string)) (t : string) : float :=
  ln ((1 + of_nat (length docs)) / (1 + of_nat (doc_freq t docs))) + 1.

Definition tfidf_row (vocab : list string) (idfs : list float)
    (doc : list string) : list float :=
  normalize (List.map (fun p => of_nat (count_of (fst p) doc) * snd p)
                      (List.combine vocab idfs)).

(** The similarities as floats; an empty vocabulary makes
    [fit_transform] raise. *)
Definition similarities (query : string) (pool : list string)
  : option (list float) :=
  let docs := List.map tokenize pool in
  let vocab := vocabulary docs in
  if is_empty vocab then None else
  let idfs := List.map (idf docs) vocab in
  let q := normalize (tfidf_row vocab idfs (tokenize query)) in
  Some (List.map (fun d => dot q (normalize (tfidf_row vocab idfs d)))
                 docs).

End WithLog.

(** [2 * (y + y^3/3 + y^5/5 + ..)] with [y = (x-1)/(x+1)], [n] terms from
    the odd power [k]. *)
Fixpoint atanh_terms (n : nat) (k : float) (p y2 : float) : float :=
  match n with
  | O => 0
  | S n' => p / k + atanh_terms n' (k + 2) (p * y2) y2
  end.

(** Halve [x] until it is at most [2], counting the halvings. *)
Fixpoint reduce (fuel : nat) (x : float) (halvings : float) : float * float :=
  match fuel with
  | O => (x, halvings)
  | S fuel' =>
      if PrimFloat.ltb 2 x then reduce fuel' (x / 2) (halvings + 1)
      else (x, halvings)
  end.

Definition ln_series (x : float) : float :=
  let '(r, halvings) := reduce 64 x 0 in
  let y := (r - 1) / (r + 1) in
  halvings * 0x1.62e42fefa39efp-1 + 2 * atanh_terms 40 1 y (y * y).

(** The exact value of a finite float. *)
Definition to_Q (x : float) : option Q :=
  match Prim2SF x with
  | S754_zero _ => Some 0%Q
  | S754_finite s m e =>
      let n := if s then Z.neg m else Z.pos m in
      Some (Qred match e with
                 | Z0 => n # 1
                 | Zpos p => (n * 2 ^ Zpos p) # 1
                 | Zneg p => n # (2 ^ p)
                 end)
  | _ => None
  end.

Fixpoint all_to_Q (l : list float) : option (list Q) :=
  match l with
  | [] => Some []
  | x :: l' =>
      match to_Q x, all_to_Q l' with
      | Some q, Some qs => Some (q :: qs)
      | _, _ => None
      end
  end.

(** The scorer: [None] when sklearn raises. *)
Definition scorer (query : string) (pool : list string) : option (list Q) :=
  match similarities ln_series query pool with
  | Some l => all_to_Q l
  | None => None
  end.

End Tfidf.

(** * Further functions of the two files

    The helpers around the cache layer: the lookup of a job description
    and the tool built on it, the clean-up of markup and the reviews,
    offer letters, interviews and the flat record of a candidate.  The
    functions that call an endpoint outside the cache layer
    ([candidate/messages], [interview/list]) are functions of the answer
    of that endpoint; downloads, the PDF and DOCX readers, the HTML parser
    and the time-zone conversion are section variables. *)

(** ** The job description of a resolved opening *)

Section JobDescriptionLookup.

Variable upstream : Upstream.
Variable get_text : string -> string.

(** [next((jd for jd in jds if jd['id'] == opening_id), None)] *)
Definition jd_with_id (opening_id : string) (jds : list JobDescription)
  : option JobDescription :=
  List.find (fun jd => String.eqb (jd_id jd) opening_id) jds.

(** The lookup that the tools and the endpoints run once an opening is
    resolved: the read-through list first and, when it has no entry with
    this id, the list fetched again with [use_cache=False].  [t1] and
    [t2] are the clock readings of the two calls. *)
Definition lookup_job_description (t1 t2 : Q) (api_key opening_id : string)
  : M (option JobDescription) :=
  jds ← get_job_descriptions upstream get_text t1 api_key true;
  match jd_with_id opening_id jds with
  | Some jd => mret (Some jd)
  | None =>
      jds ← get_job_descriptions upstream get_text t2 api_key false;
      mret (jd_with_id opening_id jds)
  end.

End JobDescriptionLookup.

(** ** The job-description tool *)

(** The four answers of the tool [get_job_description] ([server.py]) and
    of the endpoint [get_job_description_by_opening] ([app.py]). *)
Inductive JobDescriptionAnswer : Type :=
| AllOpenings (openings : list Opening)
| NoOpening (query : string) (similarity_score : Q) (openings : list Opening)
| NoJobDescription (query opening_id : string) (opening_name : option string)
    (similarity_score : Q) (openings : list Opening)
| FoundJobDescription (query opening_id : string)
    (opening_name : option string) (similarity_score : Q)
    (job_description : string) (stages : list string).

Section JobDescriptionTool.

Variable upstream : Upstream.
Variable scorer : string -> list string -> option (list Q).
Variable get_text : string -> string.

(** [os.getenv('BASE_API_KEY')], the empty string when it is not set. *)
Variable BASE_API_KEY : string.

(** [get_opening_stages(opening_id, api_key)] *)
Variable get_opening_stages : string -> string -> M (list string).

(** The body of the tool, without the log line of [server.py]; [t1] to
    [t4] are the clock readings of its four loader calls, and an exception
    is the one that the tool wraps into its error message. *)
Definition get_job_description (t1 t2 t3 t4 : Q)
    (opening_name_or_id : option string) : M JobDescriptionAnswer :=
  openings ← get_base_openings upstream t1 BASE_API_KEY true;
  if negb (truthy opening_name_or_id) then mret (AllOpenings openings) else
  let query := default "" opening_name_or_id in
  '(opening_id, matched_name, similarity_score) ←
     find_opening_id_by_name upstream scorer t2 query BASE_API_KEY (1 # 2);
  if negb (truthy opening_id)
  then mret (NoOpening query similarity_score openings) else
  let opening_id := default "" opening_id in
  jd ← lookup_job_description upstream get_text t3 t4 BASE_API_KEY opening_id;
  match jd with
  | None =>
      mret (NoJobDescription query opening_id matched_name similarity_score
              openings)
  | Some jd =>
      stages ← get_opening_stages opening_id BASE_API_KEY;
      mret (FoundJobDescription query opening_id matched_name
              similarity_score (job_description jd) stages)
  end.

End JobDescriptionTool.

(** ** Strings, continued *)

(** [s.lower()] on ASCII text. *)
Fixpoint str_lower (s : string) : string :=
  match s with
  | EmptyString => EmptyString
  | String a s' => String (Tfidf.lower a) (str_lower s')
  end.

(** [s.split(sep)[0]]: the text before the first [sep]. *)
Fixpoint before (sep : ascii) (s : string) : string :=
  match s with
  | EmptyString => EmptyString
  | String a s' =>
      if Ascii.eqb a sep then EmptyString else String a (before sep s')
  end.

(** [s.split(sep)[-1]]: the text after the last [sep]. *)
Definition after_last (sep : ascii) (s : string) : string :=
  String.rev (before sep (String.rev s)).

(** [s.endswith(suffix)] *)
Definition ends_with (suffix s : string) : bool :=
  String.prefix (String.rev suffix) (String.rev s).

(** [pattern in s] on strings. *)
Fixpoint contains (pattern s : string) : bool :=
  String.prefix pattern s ||
  match s with
  | String _ s' => contains pattern s'
  | EmptyString => false
  end.

(** [x or y] on optional strings. *)
Definition or_else (x y : option string) : option string :=
  if truthy x then x else y.

(** ** Removing markup

    [re.sub(pattern, repl, text)] for a pattern that matches no empty
    string: [matcher s] is the length of the match of the pattern at the
    start of [s]; the scan goes from left to right, and [skip] characters
    of a match are still to be passed over. *)

Fixpoint re_sub (matcher : string -> option nat) (repl : string) (skip : nat)
    (s : string) : string :=
  match s with
  | EmptyString => EmptyString
  | String a s' =>
      match skip with
      | S n => re_sub matcher repl n s'
      | O =>
          match matcher s with
          | Some (S n) => repl +:+ re_sub matcher repl n s'
          | _ => String a (re_sub matcher repl 0 s')
          end
      end
  end.

(** [\s*/?>] at the start of [s], after the [n] bytes that end a white
    space character: the length of its match. *)
Fixpoint br_rest (n : nat) (s : string) : option nat :=
  match s with
  | EmptyString => None
  | String a s' =>
      match n with
      | S k => S <$> br_rest k s'
      | O =>
          match space_width s with
          | S k => S <$> br_rest k s'
          | O =>
              if Ascii.eqb a ">" then Some 1%nat
              else if Ascii.eqb a "/" then
                match s' with
                | String b _ => if Ascii.eqb b ">" then Some 2%nat else None
                | EmptyString => None
                end
              else None
          end
      end
  end.

(** [<br\s*/?>] *)
Definition br_match (s : string) : option nat :=
  match s with
  | String a (String b (String c s')) =>
      if Ascii.eqb a "<" && Ascii.eqb b "b" && Ascii.eqb c "r"
      then (fun n => 3 + n)%nat <$> br_rest 0 s'
      else None
  | _ => None
  end.

(** The position of the first [>] of [s]. *)
Fixpoint until_gt (s : string) : option nat :=
  match s with
  | EmptyString => None
  | String a s' => if Ascii.eqb a ">" then Some 0%nat else S <$> until_gt s'
  end.

(** [<[^>]+>] *)
Definition tag_match (s : string) : option nat :=
  match s with
  | String a s' =>
      if Ascii.eqb a "<" then
        match until_gt s' with
        | Some (S n) => Some (n + 3)%nat
        | _ => None
        end
      else None
  | EmptyString => None
  end.

(** In the run of white space at the start of [s], after the [n] bytes
    that end a white space character: the length up to and with its last
    newline. *)
Fixpoint last_newline (n : nat) (s : string) : option nat :=
  match s with
  | EmptyString => None
  | String a s' =>
      match n with
      | S k => S <$> last_newline k s'
      | O =>
          match space_width s with
          | S k =>
              match last_newline k s' with
              | Some m => Some (S m)
              | None => if Ascii.eqb a "010" then Some 1%nat else None
              end
          | O => None
          end
      end
  end.

(** [\n\s*\n] *)
Definition blank_match (s : string) : option nat :=
  match s with
  | String a s' => if Ascii.eqb a "010" then S <$> last_newline 0 s' else None
  | EmptyString => None
  end.

Definition newline : string := String "010" EmptyString.

Section Markup.

(** [html.unescape] *)
Variable unescape : string -> string.

Definition remove_html_tags (text : string) : string :=
  if falsy text then "" else
  let text := re_sub br_match newline 0 text in
  let text := re_sub tag_match "" 0 text in
  let text := unescape text in
  let text := re_sub blank_match newline 0 text in
  strip text.

End Markup.

(** ** Reviews *)

(** One element of a candidate's [evaluations]; [ev_content] is [None]
    when the key [content] is absent. *)
Record Evaluation := {
  ev_id : option string;
  ev_username : option string;
  ev_content : option string
}.

Record Review := {
  rv_id : option string;
  rv_name : string;
  rv_title : string;
  rv_content : string
}.

Section Reviews.

Variable upstream : Upstream.
Variable ACCOUNT_API_KEY : option string.
Variable unescape : string -> string.

(** The body of the loop of [process_evaluations]. *)
Definition review (username_to_info : gmap string UserInfo)
    (eval_item : Evaluation) : list Review :=
  match ev_content eval_item with
  | None => []
  | Some content =>
      let clean_content := remove_html_tags unescape content in
      let username := ev_username eval_item in
      let user_info :=
        if truthy username then username_to_info !! default "" username
        else None in
      [ {| rv_id := ev_id eval_item;
           rv_name := match user_info with
                      | Some info => ui_name info
                      | None => if truthy username then default "" username
                                else "N/A"
                      end;
           rv_title := match user_info with
                       | Some info => ui_title info
                       | None => ""
                       end;
           rv_content := clean_content |} ]
  end.

(** [evaluations] is [None] when the value is not a list. *)
Definition process_evaluations (current_time : Q)
    (evaluations : option (list Evaluation)) : M (list Review) :=
  match evaluations with
  | None | Some [] => mret []
  | Some evaluations =>
      username_to_info ← get_users_info upstream ACCOUNT_API_KEY current_time true;
      mret (List.flat_map (review username_to_info) evaluations)
  end.

End Reviews.

(** ** Offer letters *)

(** [is_target_file(url, name)] *)
Definition has_target_suffix (s : string) : bool :=
  ends_with ".pdf" s || ends_with ".docx" s || ends_with ".doc" s.

Definition is_target_file (url name : string) : bool :=
  if falsy url || falsy name then false
  else has_target_suffix (before "?" (str_lower url))
       || has_target_suffix (str_lower name).

(** An element of [attachments]; a field is [None] when its key is
    absent. *)
Record Attachment := {
  att_src : option string;
  att_url : option string;
  att_org : option string;
  att_name : option string
}.

(** The value of [has_attachment]: a number ([0] when the key is absent),
    or a value on which [> 0] raises [TypeError]. *)
Inductive Count : Type :=
| Number (n : Z)
| NotANumber.

(** An element of [messages]: [msg_attachments] is the empty list and
    [msg_content] the empty string when the key is absent. *)
Record Message := {
  msg_has_attachment : Count;
  msg_attachments : list Attachment;
  msg_content : string
}.

Record OfferLetter := {
  ol_url : string;
  ol_name : string;
  ol_text : string
}.

Section OfferLetters.

(** The content of a downloaded file. *)
Variable Bytes : Type.

(** [requests.get(url, ..)] with [raise_for_status()]: [None] when it
    raises. *)
Variable download : string -> option Bytes.

(** The text that [pdfplumber] reads from the pages, stripped: [None] when
    it raises or reads nothing. *)
Variable pdf_text : Bytes -> option string.

(** The paragraphs that [python-docx] reads, joined and stripped: [None]
    when it raises. *)
Variable docx_text : Bytes -> option string.

Variable DOCX_AVAILABLE : bool.

(** [(a['href'], a.get_text())] for each [a] of
    [soup.find_all('a', href=True)]. *)
Variable anchors : string -> list (string * string).

Definition download_file_to_bytes (url : string) : option Bytes :=
  if falsy url then None else download url.

(** [extract_text_from_pdf(file_bytes=..)] *)
Definition extract_text_from_pdf (file_bytes : Bytes) : option string :=
  pdf_text file_bytes.

Definition extract_text_from_docx (file_bytes : Bytes) : option string :=
  if negb DOCX_AVAILABLE then None else
  match docx_text file_bytes with
  | Some text => if falsy text then None else Some text
  | None => None
  end.

Definition find_files_in_html (html_content : string)
  : list (string * string) :=
  if falsy html_content then [] else
  List.flat_map
    (fun a =>
       let href := strip (fst a) in
       let name := if falsy (strip (snd a)) then after_last "/" href
                   else strip (snd a) in
       if is_target_file href name then [(href, name)] else [])
    (anchors html_content).

(** The attachments of a message that are kept. *)
Definition priority_file (att : Attachment) : list (string * string) :=
  let url_att := or_else (or_else (att_src att) (att_url att)) (att_org att) in
  let name_att := default "unknown" (att_name att) in
  if truthy url_att && is_target_file (default "" url_att) name_att
  then [(default "" url_att, name_att)] else [].

(** [all_files] of one message; [None] when [has_attachment > 0] raises. *)
Definition all_files (msg : Message) : option (list (string * string)) :=
  match msg_has_attachment msg with
  | NotANumber => None
  | Number n =>
      let priority_files :=
        if (0 <? n)%Z then List.flat_map priority_file (msg_attachments msg)
        else [] in
      let secondary_files :=
        if is_empty priority_files then find_files_in_html (msg_content msg)
        else [] in
      Some (priority_files ++ secondary_files)
  end.

(** The extension that decides how a file is read. *)
Definition file_ext (file_url file_name : string) : string :=
  if contains "." file_name then after_last "." (str_lower file_name)
  else str_lower (before "?" (after_last "." file_url)).

(** One round of the loop over [all_files]: the text of the file when it
    is not empty. *)
Definition file_text (file_url file_name : string) : option string :=
  match download_file_to_bytes file_url with
  | None => None
  | Some file_bytes =>
      let ext := file_ext file_url file_name in
      let text :=
        if contains "pdf" ext then extract_text_from_pdf file_bytes
        else if contains "docx" ext && DOCX_AVAILABLE
             then extract_text_from_docx file_bytes
        else if String.eqb "doc" ext then None
        else None in
      match text with
      | Some t => if falsy t then None else Some t
      | None => None
      end
  end.

Fixpoint first_readable (files : list (string * string)) : option OfferLetter :=
  match files with
  | [] => None
  | (file_url, file_name) :: rest =>
      match file_text file_url file_name with
      | Some text =>
          Some {| ol_url := file_url; ol_name := file_name; ol_text := text |}
      | None => first_readable rest
      end
  end.

(** The loop over the messages; an exception ends it with [None]. *)
Fixpoint scan_messages (messages : list Message) : option OfferLetter :=
  match messages with
  | [] => None
  | msg :: rest =>
      match all_files msg with
      | None => None
      | Some files =>
          match first_readable files with
          | Some letter => Some letter
          | None => scan_messages rest
          end
      end
  end.

(** [get_offer_letter], given the answer of [candidate/messages]. *)
Definition get_offer_letter (candidate_id api_key : string)
    (response : Response (option (list Message))) : option OfferLetter :=
  if falsy candidate_id || falsy api_key then None else
  match response with
  | Body (Some messages) => scan_messages messages
  | _ => None
  end.

End OfferLetters.

(** ** Interviews *)

(** The value of [time]: absent or falsy; a value on which [int(..)]
    raises [ValueError] or [TypeError]; a value that [int(..)] converts. *)
Inductive TimeField : Type :=
| NoTime
| BadTime
| Timestamp (t : Z).

(** One element of [interviews]. *)
Record Interview := {
  iv_id : option string;
  iv_candidate_id : option string;
  iv_candidate_name : option string;
  iv_opening_name : option string;
  iv_opening_id : option string;
  iv_time : TimeField
}.

Record ProcessedInterview := {
  pi_id : option string;
  pi_candidate_id : option string;
  pi_candidate_name : option string;
  pi_opening_name : option string;
  pi_time_dt : option string
}.

(** What [datetime.fromtimestamp(timestamp, tz=UTC).astimezone(hcm_tz)]
    gives: the ISO text and the day (as a day number), an exception that
    the loop catches ([ValueError], [OSError]), or [OverflowError], which
    it does not catch. *)
Inductive Conversion : Type :=
| Converted (iso : string) (day : Z)
| Rejected
| Overflow.

(** A date argument: [None], a [date] object, or a string. *)
Inductive DateArg : Type :=
| NoDate
| DateObject (day : Z)
| DateString (s : string).

Inductive InterviewError : Type :=
| InterviewRequestFailed    (* the request or its status raises *)
| InterviewBodyNotJSON      (* [response.json()] raises *)
| MalformedDate             (* [ValueError] of [strptime] *)
| TimestampOverflow.        (* [OverflowError] of [fromtimestamp] *)

Section Interviews.

Variable to_hcm : Z -> Conversion.

(** [datetime.strptime(s, "%Y-%m-%d").date()]; [None] when it raises. *)
Variable strptime : string -> option Z.

(** [start_date_obj] and [end_date_obj]. *)
Definition date_object (arg : DateArg) : InterviewError + option Z :=
  match arg with
  | NoDate => inr None
  | DateObject d => inr (Some d)
  | DateString s =>
      if falsy s then inr None else
      match strptime s with
      | Some d => inr (Some d)
      | None => inl MalformedDate
      end
  end.

(** [time_dt] and [time_dt_date] of an interview. *)
Definition time_dt (interview : Interview)
  : InterviewError + option (string * Z) :=
  match iv_time interview with
  | NoTime | BadTime => inr None
  | Timestamp t =>
      match to_hcm t with
      | Converted iso day => inr (Some (iso, day))
      | Rejected => inr None
      | Overflow => inl TimestampOverflow
      end
  end.

(** [if d] on a date or [None]. *)
Definition given (d : option Z) : bool :=
  match d with
  | Some _ => true
  | None => false
  end.

(** The date filter of the loop: [false] where the loop says [continue]. *)
Definition passes (filter_date start_date_obj end_date_obj : option Z)
    (time_dt_date : option Z) : bool :=
  match filter_date with
  | Some fd =>
      match time_dt_date with
      | Some d => Z.eqb d fd
      | None => false
      end
  | None =>
      if given start_date_obj || given end_date_obj then
        match time_dt_date with
        | None => false
        | Some d =>
            negb (match start_date_obj with
                  | Some s => (d <? s)%Z
                  | None => false
                  end)
            && negb (match end_date_obj with
                     | Some e => (e <? d)%Z
                     | None => false
                     end)
        end
      else true
  end.

Definition processed (interview : Interview) (t : option (string * Z))
  : ProcessedInterview :=
  {| pi_id := iv_id interview;
     pi_candidate_id := iv_candidate_id interview;
     pi_candidate_name := iv_candidate_name interview;
     pi_opening_name := iv_opening_name interview;
     pi_time_dt := fst <$> t |}.

Fixpoint process_interviews (filter_date start_date_obj end_date_obj : option Z)
    (interviews : list Interview) : InterviewError + list ProcessedInterview :=
  match interviews with
  | [] => inr []
  | interview :: rest =>
      match time_dt interview with
      | inl e => inl e
      | inr t =>
          match process_interviews filter_date start_date_obj end_date_obj
                  rest with
          | inl e => inl e
          | inr l =>
              if passes filter_date start_date_obj end_date_obj (snd <$> t)
              then inr (processed interview t :: l) else inr l
          end
      end
  end.

(** [interview.get('opening_id') == opening_id] *)
Definition of_opening (opening_id : string) (interview : Interview) : bool :=
  match iv_opening_id interview with
  | Some id => String.eqb id opening_id
  | None => false
  end.

(** [get_interviews], given the answer of [interview/list]. *)
Definition get_interviews (response : Response (option (list Interview)))
    (start_date end_date : DateArg) (opening_id : option string)
    (filter_date : option Z) : InterviewError + list ProcessedInterview :=
  match response with
  | RequestError => inl InterviewRequestFailed
  | BadBody => inl InterviewBodyNotJSON
  | Body None | Body (Some []) => inr []
  | Body (Some interviews) =>
      let interviews :=
        if truthy opening_id
        then List.filter (of_opening (default "" opening_id)) interviews
        else interviews in
      match date_object start_date with
      | inl e => inl e
      | inr start_date_obj =>
          match date_object end_date with
          | inl e => inl e
          | inr end_date_obj =>
              process_interviews filter_date start_date_obj end_date_obj
                interviews
          end
      end
  end.

End Interviews.

(** ** The flat record of a candidate *)

Section CandidateDetails.

(** JSON values, with [None]. *)
Variable Value : Type.
Variable null : Value.

(** An element of [fields] or [form]: [fd_id] is [None] when the element
    is not a dictionary with the key [id], [fd_value] is [None] when the
    key [value] is absent. *)
Record Field := { fd_id : option string; fd_value : option Value }.

(** [flatten_fields]; the argument is [None] when it is not a list. *)
Definition flatten_fields (field_list : option (list Field))
  : gmap string Value :=
  match field_list with
  | Some l =>
      List.fold_left
        (fun flat_dict item =>
           match fd_id item with
           | Some k => <[k := default null (fd_value item)]> flat_dict
           | None => flat_dict
           end)
        l ∅
  | None => ∅
  end.

(** [d.update(other)] *)
Definition update (d other : gmap string Value) : gmap string Value :=
  other ∪ d.

(** The last lines of [get_candidate_details]: the dictionary of the main
    fields, updated with [fields], then with [form], then given
    [reviews]. *)
Definition merge_details (refined_data : gmap string Value)
    (fields form : option (list Field)) (reviews : Value)
  : gmap string Value :=
  let field_data := flatten_fields fields in
  let form_data := flatten_fields form in
  <["reviews" := reviews]> (update (update refined_data field_data) form_data).

End CandidateDetails.

Arguments fd_id {Value} f.
Arguments fd_value {Value} f.
Arguments flatten_fields {Value} null field_list.
Arguments update {Value} d other.
Arguments merge_details {Value} null refined_data fields form reviews.

(** * Statements and sample data *)

(** The data that the three loaders make of the answer to the request
    they send in the world [w], when there is a key for the request and
    the answer holds data from which the loader builds its result. *)
Definition fetched_openings (upstream : Upstream) (api_key : string)
    (w : World) : option (list Opening) :=
  if falsy api_key then None else
  match opening_list upstream api_key (length (trace w)) with
  | Body b => Some (filtered_openings (default [] b))
  | _ => None
  end.

Definition fetched_job_descriptions (upstream : Upstream)
    (get_text : string -> string) (api_key : string) (w : World)
  : option (list JobDescription) :=
  if falsy api_key then None else
  match opening_list upstream api_key (length (trace w)) with
  | Body (Some l) =>
      match jd_results get_text l with
      | Returned results => Some results
      | Raised _ => None
      end
  | _ => None
  end.

Definition fetched_users (upstream : Upstream)
    (ACCOUNT_API_KEY : option string) (w : World)
  : option (gmap string UserInfo) :=
  match ACCOUNT_API_KEY with
  | Some key =>
      if falsy key then None else
      match user_list upstream key (length (trace w)) with
      | Body b =>
          match build_directory ∅ (default [] b) with
          | Returned username_to_info => Some username_to_info
          | Raised _ => None
          end
      | _ => None
      end
  | None => None
  end.

(** What it means for a read-through loader [call] (taking the clock
    reading) with cache entry [entry] to respect the TTL, where [fetched w]
    is the data that a request sent in [w] brings.  First, a call at [t0]
    that misses the cache and whose request brings [d] populates the
    cache: it sends one request, returns [d] and leaves [d] in the entry
    with the timestamp [t0].  Second, after a call at [t0] that missed the
    cache, returned [d] and left [d] in the entry with timestamp [t0], the
    fetch ran once; a further call before [t0 + CACHE_TTL] returns [d] and
    sends nothing, so that the two calls sent one request together; a
    further call at or after [t0 + CACHE_TTL] sends a request again. *)
Definition ttl_respected {T} (call : Q -> M T) (entry : Cache -> CacheEntry T)
    (fetched : World -> option T) : Prop :=
  (forall (t0 : Q) (w : World) (d : T),
     cached true t0 (entry (cache w)) = None ->
     fetched w = Some d ->
     exists w1 : World,
       call t0 w = (Returned d, w1) /\
       entry (cache w1) = {| data := Some d; timestamp := t0 |} /\
       fetch_count w1 = S (fetch_count w)) /\
  (forall (t0 : Q) (w w1 : World) (d : T),
     cached true t0 (entry (cache w)) = None ->
     call t0 w = (Returned d, w1) ->
     entry (cache w1) = {| data := Some d; timestamp := t0 |} ->
     fetch_count w1 = S (fetch_count w) /\
     (forall t1 : Q, t1 < t0 + CACHE_TTL ->
        call t1 w1 = (Returned d, w1)) /\
     (forall t1 : Q, t0 + CACHE_TTL <= t1 ->
        fetch_count (snd (call t1 w1)) = S (fetch_count w1))).

(** [i] is the position of the first maximal element of [l], and [best]
    is that element: what [np.argmax] and the lookup after it give. *)
Definition first_max (l : list Q) (i : nat) (best : Q) : Prop :=
  l !! i = Some best /\
  (forall (j : nat) (s : Q), l !! j = Some s -> s <= best) /\
  (forall (j : nat) (s : Q), (j < i)%nat -> l !! j = Some s -> s < best).

(** The world after the scorer ran on [query] and [pool]. *)
Definition scored (query : string) (pool : list string) (w : World) : World :=
  {| cache := cache w; trace := Vectorize query pool :: trace w |}.

(** Two lists of strings have the same elements. *)
Definition same_elements (l1 l2 : list string) : bool :=
  List.forallb (fun x => str_in x l2) l1 && List.forallb (fun x => str_in x l1) l2.

(** A call of the scorer on which sklearn raised. *)
Definition is_failed_call (scorer : string -> list string -> option (list Q))
    (e : Event) : bool :=
  match e with
  | Vectorize query pool =>
      match scorer query pool with
      | None => true
      | Some _ => false
      end
  | Request _ => false
  end.

(** How often sklearn raised so far. *)
Definition vectorizer_errors (scorer : string -> list string -> option (list Q))
    (w : World) : nat :=
  length (List.filter (is_failed_call scorer) (trace w)).

(** The request failed or its body was not JSON. *)
Definition failed {A} (r : Response A) : Prop :=
  match r with
  | RequestError | BadBody => True
  | Body _ => False
  end.

(** An opening matches the query exactly: by id or by name, verbatim. *)
Definition exact (query : string) (op : Opening) : Prop :=
  op_id op = query \/ op_name op = query.

(** The answer of the account API makes [get_users_info] fail: the request
    or its status raises, the body is not JSON, or an element of [users] is
    not an object. *)
Definition users_fetch_fails (r : Response (option (list (option RawUser))))
  : bool :=
  match r with
  | RequestError | BadBody => true
  | Body b =>
      match build_directory ∅ (default [] b) with
      | Raised _ => true
      | Returned _ => false
      end
  end.



(** The entry that the loop of [get_job_descriptions] makes of an opening
    whose content is [html]. *)
Definition entry_of (get_text : string -> string) (o : RawOpening)
    (html : string) : JobDescription :=
  {| jd_id := ro_id o; jd_name := ro_name o;
     job_description := strip (get_text html);
     html_content := html |}.

(** A stand-in for [BeautifulSoup(..).get_text()] on markup made of plain
    text and tags, without entities: the text outside the tags. *)
Fixpoint text_outside_tags (in_tag : bool) (s : string) : string :=
  match s with
  | EmptyString => EmptyString
  | String a s' =>
      if in_tag then text_outside_tags (negb (Ascii.eqb a ">")) s'
      else if Ascii.eqb a "<" then text_outside_tags true s'
      else String a (text_outside_tags false s')
  end.

Definition plain_text (html : string) : string := text_outside_tags false html.

(** [list(set(..))] in the order of first appearance. *)
Definition first_seen (l : list string) : list string :=
  List.fold_left (fun acc x => if str_in x acc then acc else acc ++ [x]) l [].

(** Five openings as the upstream lists them. *)
Definition sample_raw_openings : list RawOpening :=
  [ {| ro_id := "101"; ro_name := "Backend Engineer"; ro_status := Some "10";
       ro_content := KeyValue "<p>Build and run the hiring API.</p>" |};
    {| ro_id := "102"; ro_name := "Senior Backend Engineer";
       ro_status := Some "10"; ro_content := KeyValue "   hi      " |};
    {| ro_id := "103"; ro_name := "Data Analyst"; ro_status := Some "10";
       ro_content := KeyValue "<b>TBD</b>" |};
    {| ro_id := "104"; ro_name := "Designer"; ro_status := Some "10";
       ro_content := KeyAbsent |};
    {| ro_id := "105"; ro_name := "Intern"; ro_status := Some "5";
       ro_content := KeyValue "<p>Summer internship, closed.</p>" |} ].

Definition sample_openings : list Opening :=
  [ {| op_id := "101"; op_name := "Backend Engineer" |};
    {| op_id := "102"; op_name := "Senior Backend Engineer" |};
    {| op_id := "103"; op_name := "Data Analyst" |};
    {| op_id := "104"; op_name := "Designer" |} ].

Definition sample_users : list (option RawUser) :=
  [ Some {| ru_username := Some "hoang"; ru_name := Some "Hoang Tran";
            ru_title := Some "Founder" |};
    Some {| ru_username := Some "lan"; ru_name := Some "Lan Pham";
            ru_title := None |} ].

Definition candidate (id name stage : string) (last_update : Z) : Candidate :=
  {| c_id := Some id; c_name := Some name; c_stage_name := Some stage;
     c_last_update := UpdatedAt last_update |}.

Definition sample_candidates : list Candidate :=
  [ candidate "c1" "Nguyen Van An" "Interview" 1700000000;
    candidate "c2" "Tran Thi Binh" "Offered" 1700000500;
    {| c_id := Some "c3"; c_name := Some "Le Van Cuong";
       c_stage_name := None; c_last_update := NoUpdate |} ].

(** An upstream that always answers with the sample data. *)
Definition sample_upstream : Upstream :=
  {| opening_list := fun _ _ => Body (Some sample_raw_openings);
     candidate_list := fun _ _ _ _ _ => Body (Some sample_candidates);
     user_list := fun _ _ => Body (Some sample_users);
     sheet_read_all := fun _ =>
       Body {| sheet_success := true; sheet_data := None |} |}.

(** The job descriptions that the loader makes of the sample openings. *)
Definition sample_job_descriptions : list JobDescription :=
  [ {| jd_id := "101"; jd_name := "Backend Engineer";
       job_description := "Build and run the hiring API.";
       html_content := "<p>Build and run the hiring API.</p>" |};
    {| jd_id := "102"; jd_name := "Senior Backend Engineer";
       job_description := "hi"; html_content := "   hi      " |} ].

(** The directory that [get_users_info] makes of the sample users. *)
Definition sample_directory : gmap string UserInfo :=
  <["lan" := {| ui_name := "Lan Pham"; ui_title := "" |}]>
    (<["hoang" := {| ui_name := "Hoang Tran"; ui_title := "CEO" |}]> ∅).

(** An active opening whose content is [null]. *)
Definition null_content_opening : RawOpening :=
  {| ro_id := "106"; ro_name := "Recruiter"; ro_status := Some "10";
     ro_content := KeyNull |}.


(** An account API that answers with a JSON body without a list of
    users. *)
Definition listless_upstream : Upstream :=
  {| opening_list := fun _ _ => RequestError;
     candidate_list := fun _ _ _ _ _ => RequestError;
     user_list := fun _ _ => Body None;
     sheet_read_all := fun _ => RequestError |}.

(** An upstream that is down. *)
Definition failing_upstream : Upstream :=
  {| opening_list := fun _ _ => RequestError;
     candidate_list := fun _ _ _ _ _ => RequestError;
     user_list := fun _ _ => RequestError;
     sheet_read_all := fun _ => RequestError |}.

(** * Statements and sample data, continued *)

(** No part of [s] is a tag, that is, a match of [<[^>]+>]. *)
Definition tag_free (s : string) : Prop :=
  forall pre post : string, s = pre +:+ post -> tag_match post = None.

(** [s'] is [s] without some of its bytes, none of them a [>]. *)
Inductive without_some : string -> string -> Prop :=
| ws_nil : without_some "" ""
| ws_keep (a : ascii) (s s' : string) :
    without_some s s' -> without_some (String a s) (String a s')
| ws_drop (a : ascii) (s s' : string) :
    Ascii.eqb a ">" = false -> without_some s s' ->
    without_some (String a s) s'.

(** None of the first [n] bytes of [s] is a [>]. *)
Fixpoint no_gt (n : nat) (s : string) : bool :=
  match n, s with
  | S n', String a s' => negb (Ascii.eqb a ">") && no_gt n' s'
  | _, _ => true
  end.

(** A process whose cached openings and job descriptions date from the
    time [0]. *)
Definition expired_world : World :=
  {| cache :=
       {| openings := {| data := Some sample_openings; timestamp := 0 |};
          job_descriptions := {| data := Some []; timestamp := 0 |};
          users_info := {| data := None; timestamp := 0 |} |};
     trace := [] |}.

(** A process that cached, at the time [900], a list of job descriptions
    without the opening 101. *)
Definition stale_jd_world : World :=
  {| cache :=
       {| openings := {| data := None; timestamp := 0 |};
          job_descriptions :=
            {| data := Some [ {| jd_id := "103"; jd_name := "Data Analyst";
                                 job_description := "Reports and dashboards.";
                                 html_content := "Reports and dashboards." |} ];
               timestamp := 900 |};
          users_info := {| data := None; timestamp := 0 |} |};
     trace := [] |}.

(** An upstream whose opening list comes without the key [openings]. *)
Definition keyless_upstream : Upstream :=
  {| opening_list := fun _ _ => Body None;
     candidate_list := fun _ _ _ _ _ => Body None;
     user_list := fun _ _ => Body None;
     sheet_read_all := fun _ => RequestError |}.

(** Three spreadsheet rows, two of them of the candidate [c1] and one
    whose [candidate_id] is [null]. *)
Definition sample_rows : list SheetRow :=
  [ {| row_candidate_id := KeyValue "c1";
       row_ten_ung_vien := KeyValue "Nguyen Van An";
       row_cong_viec := KeyValue "Backend Engineer" |};
    {| row_candidate_id := KeyNull;
       row_ten_ung_vien := KeyValue "Tran Thi Binh";
       row_cong_viec := KeyValue "Designer" |};
    {| row_candidate_id := KeyValue "c1";
       row_ten_ung_vien := KeyValue "Nguyen Van An";
       row_cong_viec := KeyValue "Intern" |} ].

Definition sheet_upstream : Upstream :=
  {| opening_list := fun _ _ => Body (Some sample_raw_openings);
     candidate_list := fun _ _ _ _ _ => Body (Some sample_candidates);
     user_list := fun _ _ => Body (Some sample_users);
     sheet_read_all := fun _ =>
       Body {| sheet_success := true; sheet_data := Some sample_rows |} |}.

(** A message with an attached PDF and a link in its text, and a
    download and a reader for them; file contents are strings here. *)
Definition sample_message : Message :=
  {| msg_has_attachment := Number 1;
     msg_attachments :=
       [ {| att_src := Some "https://files.example/offer.pdf?token=abc";
            att_url := None; att_org := None; att_name := Some "offer" |} ];
     msg_content := "See https://files.example/contract.docx" |}.

Definition sample_download (url : string) : option string :=
  if String.eqb url "https://files.example/offer.pdf?token=abc"
  then Some "%PDF-1.7" else None.

Definition sample_pdf_text (file_bytes : string) : option string :=
  if String.eqb file_bytes "%PDF-1.7" then Some "Offer for Nguyen Van An"
  else None.

Definition sample_docx_text (file_bytes : string) : option string := None.

Definition sample_anchors (html : string) : list (string * string) :=
  if String.eqb html "See https://files.example/contract.docx"
  then [("https://files.example/contract.docx", "contract")] else [].

(** Three interviews, and the conversion of their times: 1700000000 is
    2023-11-15 05:13:20 in Ho Chi Minh City, day 19676 since 1970-01-01. *)
Definition sample_interviews : list Interview :=
  [ {| iv_id := Some "i1"; iv_candidate_id := Some "c1";
       iv_candidate_name := Some "Nguyen Van An";
       iv_opening_name := Some "Backend Engineer";
       iv_opening_id := Some "101"; iv_time := Timestamp 1700000000 |};
    {| iv_id := Some "i2"; iv_candidate_id := Some "c2";
       iv_candidate_name := Some "Tran Thi Binh";
       iv_opening_name := Some "Backend Engineer";
       iv_opening_id := Some "101"; iv_time := NoTime |};
    {| iv_id := Some "i3"; iv_candidate_id := Some "c3";
       iv_candidate_name := Some "Le Van Cuong";
       iv_opening_name := Some "Designer";
       iv_opening_id := Some "104"; iv_time := Timestamp 1700000000 |} ].

Definition sample_to_hcm (t : Z) : Conversion :=
  if (t =? 1700000000)%Z then Converted "2023-11-15T05:13:20+07:00" 19676
  else Rejected.

Definition sample_strptime (s : string) : option Z :=
  if String.eqb s "2023-11-15" then Some 19676%Z else None.

(** An evaluation with a reviewer and one without. *)
Definition sample_evaluations : list Evaluation :=
  [ {| ev_id := Some "e1"; ev_username := Some "lan";
       ev_content := Some "<p>Strong<br/>hire</p>" |};
    {| ev_id := Some "e2"; ev_username := None; ev_content := Some "ok" |};
    {| ev_id := Some "e3"; ev_username := Some "hoang"; ev_content := None |} ].

(** A stand-in for [get_opening_stages]: two stages for every opening. *)
Definition sample_stages (opening_id api_key : string) : M (list string) :=
  mret ["Applied"; "Interview"].

(** * Properties *)

(** ** Comparisons *)

Lemma Qltb_lt (x y : Q) : Qltb x y = true <-> x < y.
Proof.
  unfold Qltb. rewrite negb_true_iff, <- not_true_iff_false, Qle_bool_iff.
  split; [apply Qnot_le_lt | apply Qlt_not_le].
Qed.

Lemma Qltb_ge (x y : Q) : Qltb x y = false <-> y <= x.
Proof.
  unfold Qltb. rewrite negb_false_iff. apply Qle_bool_iff.
Qed.

(** ** Running computations *)

Ltac run :=
  unfold post_opening_list, post_candidate_list, post_users in *;
  unfold mbind, M_bind, bind, mret, M_ret, ret, raise, try_except,
    lift_outcome, get_cache, put_cache, log, events_so_far in *;
  cbn beta iota zeta delta [cache trace fst snd] in *.

(** ** The cache *)

Section CacheFacts.

Context {T : Type}.

(** A hit needs data younger than the TTL. *)
Lemma cached_Some (use_cache : bool) (now : Q) (e : CacheEntry T) (d : T) :
  cached use_cache now e = Some d <->
  use_cache = true /\ data e = Some d /\ now - timestamp e < CACHE_TTL.
Proof.
  unfold cached. destruct (data e) as [d'|]; [|intuition congruence].
  destruct use_cache; cbn; [|intuition congruence].
  destruct (Qltb (now - timestamp e) CACHE_TTL) eqn:E.
  - apply Qltb_lt in E. intuition congruence.
  - apply Qltb_ge in E. split; [done|].
    intros (_ & _ & Hlt). exfalso. apply (Qlt_not_le _ _ Hlt E).
Qed.

Lemma cached_bypass (now : Q) (e : CacheEntry T) : cached false now e = None.
Proof. unfold cached. by destruct (data e). Qed.

Lemma cached_fresh (t0 t1 : Q) (d : T) :
  t1 < t0 + CACHE_TTL ->
  cached true t1 {| data := Some d; timestamp := t0 |} = Some d.
Proof.
  intros H. apply cached_Some. cbn. repeat split. lra.
Qed.

Lemma cached_expired (t0 t1 : Q) (d : option T) :
  t0 + CACHE_TTL <= t1 ->
  cached true t1 {| data := d; timestamp := t0 |} = None.
Proof.
  intros H. unfold cached. cbn. destruct d; [|done].
  replace (Qltb (t1 - t0) CACHE_TTL) with false; [done|].
  symmetry. apply Qltb_ge. lra.
Qed.

(** A miss stays a miss as time goes on. *)
Lemma cached_miss_later (t0 t1 : Q) (e : CacheEntry T) :
  cached true t0 e = None -> t0 <= t1 -> cached true t1 e = None.
Proof.
  unfold cached. destruct (data e); [|done]. cbn.
  destruct (Qltb (t0 - timestamp e) CACHE_TTL) eqn:E; [done|].
  intros _ Hle. apply Qltb_ge in E.
  replace (Qltb (t1 - timestamp e) CACHE_TTL) with false; [done|].
  symmetry. apply Qltb_ge. lra.
Qed.

End CacheFacts.

(** ** The read-through fetchers and the TTL *)

Section FetcherFacts.

Variable upstream : Upstream.
Variable get_text : string -> string.
Variable ACCOUNT_API_KEY : option string.

Lemma get_base_openings_ttl (api_key : string) :
  ttl_respected (fun t => get_base_openings upstream t api_key true) openings
                (fetched_openings upstream api_key).
Proof.
  split.
  { intros t0 w d Hmiss. unfold fetched_openings, get_base_openings.
    destruct (falsy api_key); [done|]. run. rewrite Hmiss. run.
    destruct (opening_list upstream api_key (length (trace w))) as [| |b];
      [done|done|].
    intros [= <-]. run. by eexists. }
  intros t0 w w1 d Hmiss Hcall Hpop.
  unfold get_base_openings in *.
  destruct (falsy api_key) eqn:Hkey; [by run|].
  split; [|split].
  - run. rewrite Hmiss in Hcall. run.
    destruct (opening_list upstream api_key (length (trace w)));
      run; by simplify_eq.
  - intros t1 Ht1. run. rewrite Hpop, (cached_fresh _ _ _ Ht1). by run.
  - intros t1 Ht1. run. rewrite Hpop, (cached_expired _ _ _ Ht1). run.
    by destruct (opening_list upstream api_key (length (trace w1))).
Qed.

Lemma get_job_descriptions_ttl (api_key : string) :
  ttl_respected (fun t => get_job_descriptions upstream get_text t api_key true)
                job_descriptions
                (fetched_job_descriptions upstream get_text api_key).
Proof.
  split.
  { intros t0 w d Hmiss. unfold fetched_job_descriptions, get_job_descriptions.
    destruct (falsy api_key); [done|]. run. rewrite Hmiss. run.
    destruct (opening_list upstream api_key (length (trace w)))
      as [| |[l|]]; [done|done| |done].
    destruct (jd_results get_text l) as [results|e]; [|done].
    intros [= <-]. run. by eexists. }
  intros t0 w w1 d Hmiss Hcall Hpop.
  unfold get_job_descriptions in *.
  destruct (falsy api_key) eqn:Hkey; [by run|].
  split; [|split].
  - run. rewrite Hmiss in Hcall. run.
    destruct (opening_list upstream api_key (length (trace w))) as [| |[l|]];
      run; try by simplify_eq.
    destruct (jd_results get_text l); run; by simplify_eq.
  - intros t1 Ht1. run. rewrite Hpop, (cached_fresh _ _ _ Ht1). by run.
  - intros t1 Ht1. run. rewrite Hpop, (cached_expired _ _ _ Ht1). run.
    destruct (opening_list upstream api_key (length (trace w1)))
      as [| |[l|]]; run; try done.
    by destruct (jd_results get_text l).
Qed.

(** After the request and its answer, what is left of [get_users_info]
    increases the number of requests by one whatever the answer. *)
Lemma get_users_info_ttl :
  ttl_respected (fun t => get_users_info upstream ACCOUNT_API_KEY t true)
                users_info (fetched_users upstream ACCOUNT_API_KEY).
Proof.
  split.
  { intros t0 w d Hmiss. unfold fetched_users, get_users_info.
    destruct ACCOUNT_API_KEY as [key|]; [|done].
    destruct (falsy key); [done|]. run. rewrite Hmiss. run.
    destruct (user_list upstream key (length (trace w))) as [| |b];
      [done|done|].
    destruct (build_directory ∅ (default [] b)) as [m|e]; [|done].
    intros [= <-]. run. by eexists. }
  intros t0 w w1 d Hmiss Hcall Hpop.
  unfold get_users_info in *.
  destruct ACCOUNT_API_KEY as [key|].
  2:{ run. simplify_eq. rewrite Hpop in Hmiss.
      rewrite cached_fresh in Hmiss; [done|]. unfold CACHE_TTL. lra. }
  destruct (falsy key) eqn:Hkey.
  { run. simplify_eq. rewrite Hpop in Hmiss.
    rewrite cached_fresh in Hmiss; [done|]. unfold CACHE_TTL. lra. }
  split; [|split].
  - run. rewrite Hmiss in Hcall. run.
    destruct (user_list upstream key (length (trace w))) as [| |b];
      run; try by simplify_eq.
    destruct (build_directory ∅ (default [] b)); run; by simplify_eq.
  - intros t1 Ht1. run. rewrite Hpop, (cached_fresh _ _ _ Ht1). by run.
  - intros t1 Ht1. run. rewrite Hpop, (cached_expired _ _ _ Ht1). run.
    destruct (user_list upstream key (length (trace w1))) as [| |b];
      run; try done.
    by destruct (build_directory ∅ (default [] b)).
Qed.

(** C5. For each cache kind (openings, job descriptions, user
    directory): a read-through call at [t0] that misses the cache and
    fetches data populates the cache, that is, it stores what it returns
    with the timestamp [t0]; a call at [t0] that populates the cache,
    followed by a call at any time before [t0 + CACHE_TTL], returns the
    cached data with one request sent by the two calls together; a call
    at or after [t0 + CACHE_TTL] sends a request again. *)
Theorem cache_ttl_respected (api_key : string) :
  ttl_respected (fun t => get_base_openings upstream t api_key true) openings
       (fetched_openings upstream api_key)
  /\ ttl_respected
       (fun t => get_job_descriptions upstream get_text t api_key true)
       job_descriptions (fetched_job_descriptions upstream get_text api_key)
  /\ ttl_respected (fun t => get_users_info upstream ACCOUNT_API_KEY t true)
       users_info (fetched_users upstream ACCOUNT_API_KEY).
Proof.
  split; [|split].
  - apply get_base_openings_ttl.
  - apply get_job_descriptions_ttl.
  - apply get_users_info_ttl.
Qed.

End FetcherFacts.

(** ** Bypassing the cache *)

Section Bypass.

Variable upstream : Upstream.
Variable get_text : string -> string.
Variable ACCOUNT_API_KEY : option string.

Lemma get_base_openings_bypass (now : Q) (api_key : string) (w : World) :
  falsy api_key = false ->
  exists r w1,
    get_base_openings upstream now api_key false w = (r, w1) /\
    fetch_count w1 = S (fetch_count w) /\
    cache w1 = cache w /\
    forall b, opening_list upstream api_key (length (trace w)) = Body b ->
              r = Returned (filtered_openings (default [] b)).
Proof.
  intros Hkey. unfold get_base_openings. rewrite Hkey. run.
  rewrite cached_bypass. run.
  destruct (opening_list upstream api_key (length (trace w))) as [| |b];
    run; eexists _, _; (split; [reflexivity|]); repeat split; try done.
  by intros b' [= <-].
Qed.

Lemma get_job_descriptions_bypass (now : Q) (api_key : string) (w : World) :
  falsy api_key = false ->
  exists r w1,
    get_job_descriptions upstream get_text now api_key false w = (r, w1) /\
    fetch_count w1 = S (fetch_count w) /\
    cache w1 = cache w /\
    forall l, opening_list upstream api_key (length (trace w)) = Body (Some l) ->
              r = jd_results get_text l.
Proof.
  intros Hkey. unfold get_job_descriptions. rewrite Hkey. run.
  rewrite cached_bypass. run.
  destruct (opening_list upstream api_key (length (trace w))) as [| |[l|]];
    run.
  1,2,4: eexists _, _; (split; [reflexivity|]); repeat split; done.
  destruct (jd_results get_text l) as [results|e] eqn:Hl; run;
    eexists _, _; (split; [reflexivity|]); repeat split; try done.
  all: intros l' [= <-]; by rewrite Hl.
Qed.

Lemma get_users_info_bypass (now : Q) (key : string) (w : World) :
  falsy key = false ->
  exists r w1,
    get_users_info upstream (Some key) now false w = (r, w1) /\
    fetch_count w1 = S (fetch_count w) /\
    cache w1 = cache w /\
    forall b m, user_list upstream key (length (trace w)) = Body b ->
                build_directory ∅ (default [] b) = Returned m ->
                r = Returned m.
Proof.
  intros Hkey. unfold get_users_info. rewrite Hkey. run.
  rewrite cached_bypass. run.
  destruct (user_list upstream key (length (trace w))) as [| |b]; run.
  1,2: eexists _, _; (split; [reflexivity|]); repeat split; done.
  destruct (build_directory ∅ (default [] b)) as [m|e] eqn:Hb; run;
    eexists _, _; (split; [reflexivity|]); repeat split; try done.
  all: intros b' m' [= <-]; rewrite Hb; intros ?; by simplify_eq.
Qed.

(** With [use_cache=False] and the keys configured, each loader sends its
    request whatever the cache holds and returns what it fetched, and it
    leaves the cache as it was: the fetched result is not stored. *)
Theorem bypass_refetches_without_storing (now : Q) (api_key account_key : string)
    (w : World) :
  falsy api_key = false ->
  falsy account_key = false ->
  (exists r w1,
     get_base_openings upstream now api_key false w = (r, w1) /\
     fetch_count w1 = S (fetch_count w) /\
     cache w1 = cache w /\
     forall b, opening_list upstream api_key (length (trace w)) = Body b ->
               r = Returned (filtered_openings (default [] b))) /\
  (exists r w1,
     get_job_descriptions upstream get_text now api_key false w = (r, w1) /\
     fetch_count w1 = S (fetch_count w) /\
     cache w1 = cache w /\
     forall l, opening_list upstream api_key (length (trace w)) = Body (Some l) ->
               r = jd_results get_text l) /\
  (exists r w1,
     get_users_info upstream (Some account_key) now false w = (r, w1) /\
     fetch_count w1 = S (fetch_count w) /\
     cache w1 = cache w /\
     forall b m, user_list upstream account_key (length (trace w)) = Body b ->
                 build_directory ∅ (default [] b) = Returned m ->
                 r = Returned m).
Proof.
  intros Hkey Hacct. split; [|split].
  - by apply get_base_openings_bypass.
  - by apply get_job_descriptions_bypass.
  - by apply get_users_info_bypass.
Qed.

End Bypass.

(** ** Failures of the user directory *)

(** C10, amended. When the fetch of the user directory fails by raising
    (the request or its status raises, the body is not JSON, or an entry
    of the list of users is not an object), [get_users_info] returns the
    empty mapping and leaves the cache as it was; a later read-through
    call therefore sends the request again instead of serving the empty
    mapping from the cache. *)
Theorem users_failure_not_cached (upstream : Upstream) (key : string)
    (use_cache : bool) (t0 : Q) (w : World) :
  falsy key = false ->
  cached use_cache t0 (users_info (cache w)) = None ->
  users_fetch_fails (user_list upstream key (length (trace w))) = true ->
  exists w1,
    get_users_info upstream (Some key) t0 use_cache w = (Returned ∅, w1) /\
    fetch_count w1 = S (fetch_count w) /\
    cache w1 = cache w /\
    (cached true t0 (users_info (cache w)) = None ->
     forall t1 : Q, t0 <= t1 ->
       fetch_count (snd (get_users_info upstream (Some key) t1 true w1))
       = S (fetch_count w1)).
Proof.
  intros Hkey Hmiss Hfail.
  assert (Hretry : forall c tr t1,
    cached true t1 (users_info c) = None ->
    fetch_count (snd (get_users_info upstream (Some key) t1 true
                        {| cache := c; trace := tr |}))
    = S (fetch_count {| cache := c; trace := tr |})).
  { intros c tr t1 Hc. unfold get_users_info. rewrite Hkey. run.
    rewrite Hc. run.
    destruct (user_list upstream key (length tr)) as [| |b]; run; try done.
    by destruct (build_directory ∅ (default [] b)). }
  assert (Hfirst : exists tr,
    get_users_info upstream (Some key) t0 use_cache w
    = (Returned ∅, {| cache := cache w; trace := tr |})
    /\ fetch_count {| cache := cache w; trace := tr |} = S (fetch_count w)).
  { unfold get_users_info. rewrite Hkey. run. rewrite Hmiss. run.
    unfold users_fetch_fails in Hfail.
    destruct (user_list upstream key (length (trace w))) as [| |b]; run.
    1,2: by eexists.
    destruct (build_directory ∅ (default [] b)); [done|]. run. by eexists. }
  destruct Hfirst as (tr & -> & Hcount).
  eexists; (split; [reflexivity|]); repeat split; try done.
  intros Hcold t1 Ht1. apply Hretry. by apply (cached_miss_later t0).
Qed.

(** ** [np.argmax] and [next(..)] *)

Lemma argmax_from_first_max (l pre : list Q) (best_idx : nat) (best : Q) :
  first_max pre best_idx best ->
  exists best', first_max (pre ++ l) (argmax_from best_idx best (length pre) l)
                          best'.
Proof.
  revert pre best_idx best.
  induction l as [|x l IH]; intros pre best_idx best Hmax; cbn [argmax_from].
  { exists best. by rewrite app_nil_r. }
  assert (Happ : pre ++ x :: l = (pre ++ [x]) ++ l) by by rewrite <- app_assoc.
  assert (Hlen : S (length pre) = length (pre ++ [x])).
  { rewrite length_app. cbn. lia. }
  rewrite Happ, Hlen.
  destruct Hmax as (Hat & Hall & Hbefore).
  destruct (Qltb best x) eqn:Hcmp.
  - apply Qltb_lt in Hcmp. apply IH. repeat split.
    + rewrite lookup_app_r by lia. by rewrite Nat.sub_diag.
    + intros j s Hj. apply lookup_app_Some in Hj as [Hj|[_ Hj]].
      * apply Qlt_le_weak. eapply Qle_lt_trans; [by eapply Hall|done].
      * apply list_lookup_singleton_Some in Hj as [_ <-]. apply Qle_refl.
    + intros j s Hlt Hj. rewrite lookup_app_l in Hj by done.
      eapply Qle_lt_trans; [by eapply Hall|done].
  - apply Qltb_ge in Hcmp. apply IH.
    assert (Hidx : (best_idx < length pre)%nat) by by eapply lookup_lt_Some.
    repeat split.
    + by rewrite lookup_app_l.
    + intros j s Hj. apply lookup_app_Some in Hj as [Hj|[_ Hj]].
      * by eapply Hall.
      * by apply list_lookup_singleton_Some in Hj as [_ <-].
    + intros j s Hlt Hj. rewrite lookup_app_l in Hj by lia.
      by eapply Hbefore.
Qed.

Lemma argmax_first_max (l : list Q) :
  l <> [] -> exists i best, argmax l = Returned i /\ first_max l i best.
Proof.
  destruct l as [|x l]; [done|]. intros _. cbn [argmax].
  destruct (argmax_from_first_max l [x] 0 x) as [best Hbest].
  - repeat split.
    + intros j s Hj. apply list_lookup_singleton_Some in Hj as [_ <-].
      apply Qle_refl.
    + intros j s Hlt. lia.
  - by exists (argmax_from 0 x 1 l), best.
Qed.

(** [next((x for x in l if f(x)), None)] gives the first element that
    passes the test. *)
Lemma find_first {A} (f : A -> bool) (l : list A) :
  (exists x, In x l /\ f x = true) ->
  exists pre x post,
    l = pre ++ x :: post /\ f x = true /\
    (forall y, In y pre -> f y = false) /\
    List.find f l = Some x.
Proof.
  induction l as [|a l IH]; intros (x & Hin & Hx); [done|].
  destruct (f a) eqn:Ha.
  - exists [], a, l. cbn. rewrite Ha. naive_solver.
  - destruct IH as (pre & y & post & -> & Hy & Hpre & Hfind).
    { destruct Hin as [->|Hin]; [congruence|by exists x]. }
    exists (a :: pre), y, post. cbn. rewrite Ha.
    repeat split; [done| |done].
    intros z [<-|Hz]; [done|by apply Hpre].
Qed.

Lemma find_none {A} (f : A -> bool) (l : list A) :
  (forall x, In x l -> f x = false) -> List.find f l = None.
Proof.
  intros H. destruct (List.find f l) as [x|] eqn:E; [|done].
  apply List.find_some in E as [Hin Hx]. rewrite (H x Hin) in Hx. done.
Qed.

Lemma exact_opening_true (query : string) (op : Opening) :
  exact_opening query op = true <-> exact query op.
Proof.
  unfold exact_opening, exact. rewrite orb_true_iff, !String.eqb_eq. done.
Qed.

(** ** Opening resolution *)

Section OpeningResolution.

Variable upstream : Upstream.
Variable scorer : string -> list string -> option (list Q).

Lemma best_match_returns (query : string) (pool : list string) (sims : list Q)
    (w : World) :
  scorer query pool = Some sims -> sims <> [] ->
  exists i best,
    best_match scorer query pool w = (Returned (i, best), scored query pool w)
    /\ first_max sims i best.
Proof.
  intros Hs Hne. destruct (argmax_first_max sims Hne) as (i & best & Hi & Hmax).
  exists i, best. split; [|done].
  unfold best_match, vectorize. run. rewrite Hs. run. rewrite Hi. run.
  unfold index. destruct Hmax as [-> _]. done.
Qed.

Lemma best_match_raises (query : string) (pool : list string) (w : World) :
  scorer query pool = None ->
  best_match scorer query pool w
  = (Raised VectorizerError, scored query pool w).
Proof.
  intros Hs. unfold best_match, vectorize. run. by rewrite Hs.
Qed.

(** The fetchers never run the scorer. *)
Lemma get_base_openings_scorer_calls (now : Q) (api_key : string)
    (use_cache : bool) (w w1 : World) (r : Outcome (list Opening)) :
  get_base_openings upstream now api_key use_cache w = (r, w1) ->
  scorer_calls w1 = scorer_calls w.
Proof.
  unfold get_base_openings. destruct (falsy api_key); run.
  { by intros [= _ <-]. }
  destruct (cached use_cache now (openings (cache w))); run.
  { by intros [= _ <-]. }
  destruct (opening_list upstream api_key (length (trace w))); run;
    try by intros [= _ <-].
  destruct use_cache; run; by intros [= _ <-].
Qed.

Lemma get_base_openings_vectorizer_errors (now : Q) (api_key : string)
    (use_cache : bool) (w w1 : World) (r : Outcome (list Opening)) :
  get_base_openings upstream now api_key use_cache w = (r, w1) ->
  vectorizer_errors scorer w1 = vectorizer_errors scorer w.
Proof.
  unfold get_base_openings. destruct (falsy api_key); run.
  { by intros [= _ <-]. }
  destruct (cached use_cache now (openings (cache w))); run.
  { by intros [= _ <-]. }
  destruct (opening_list upstream api_key (length (trace w))); run;
    try by intros [= _ <-].
  destruct use_cache; run; by intros [= _ <-].
Qed.

(** A call of the scorer that returned similarities is not an error. *)
Lemma vectorizer_errors_scored (query : string) (pool : list string)
    (sims : list Q) (w : World) :
  scorer query pool = Some sims ->
  vectorizer_errors scorer (scored query pool w) = vectorizer_errors scorer w.
Proof.
  intros Hs. unfold vectorizer_errors, scored. cbn. by rewrite Hs.
Qed.

(** What [find_opening_id_by_name] does once the pool is there. *)
Lemma find_opening_after_fetch (now : Q) (query api_key : string)
    (threshold : Q) (w w1 : World) (pool : list Opening) :
  get_base_openings upstream now api_key true w = (Returned pool, w1) ->
  find_opening_id_by_name upstream scorer now query api_key threshold w
  = (if is_empty pool then mret (None, None, 0) else
     match List.find (exact_opening query) pool with
     | Some exact_match =>
         mret (Some (op_id exact_match), Some (op_name exact_match), 1)
     | None =>
         if is_empty (List.map op_name pool) then mret (None, None, 0) else
         try_except
           ('(best_idx, best_similarity) ←
               best_match scorer query (List.map op_name pool);
            if Qle_bool threshold best_similarity then
              best_opening ← lift_outcome (index pool best_idx);
              mret (Some (op_id best_opening), Some (op_name best_opening),
                    best_similarity)
            else mret (None, None, best_similarity))
           (mret (None, None, 0))
     end) w1.
Proof.
  intros Hfetch. unfold find_opening_id_by_name.
  unfold mbind at 1. unfold M_bind, bind. by rewrite Hfetch.
Qed.

(** C1. If an opening of the pool has the query as its id or as its
    name, verbatim, the resolution returns the id and the name of the
    first such opening in pool order with score 1.0, and the similarity
    scorer is not invoked: nothing happens after the pool was fetched. *)
Theorem exact_match_short_circuits (now : Q) (query api_key : string)
    (threshold : Q) (w w1 : World) (pool : list Opening) :
  get_base_openings upstream now api_key true w = (Returned pool, w1) ->
  (exists op, In op pool /\ exact query op) ->
  exists pre op post,
    pool = pre ++ op :: post /\
    exact query op /\
    (forall o, In o pre -> ~ exact query o) /\
    find_opening_id_by_name upstream scorer now query api_key threshold w
    = (Returned (Some (op_id op), Some (op_name op), 1), w1) /\
    scorer_calls w1 = scorer_calls w.
Proof.
  intros Hfetch (op & Hin & Hop).
  destruct (find_first (exact_opening query) pool) as
    (pre & first & post & Hpool & Hfirst & Hpre & Hfind).
  { exists op. by rewrite exact_opening_true. }
  exists pre, first, post. repeat split.
  - done.
  - by apply exact_opening_true.
  - intros o Ho Hexact. apply exact_opening_true in Hexact.
    rewrite (Hpre o Ho) in Hexact. done.
  - rewrite (find_opening_after_fetch _ _ _ _ _ _ _ Hfetch), Hfind.
    by destruct pool.
  - by eapply get_base_openings_scorer_calls.
Qed.

(** C2. For a non-empty pool without an exact match, with [best] the
    largest cosine similarity over the pool and [i] the first position
    where it is reached: if [best >= threshold] the resolution returns the
    id and the name of the opening at [i] together with [best]; otherwise
    it returns no id and no name, and still reports [best]. *)
Theorem fuzzy_threshold_gate (now : Q) (query api_key : string)
    (threshold : Q) (w w1 : World) (pool : list Opening) (sims : list Q) :
  get_base_openings upstream now api_key true w = (Returned pool, w1) ->
  pool <> [] ->
  (forall op, In op pool -> ~ exact query op) ->
  scorer query (List.map op_name pool) = Some sims ->
  length sims = length pool ->
  exists i best op,
    first_max sims i best /\
    pool !! i = Some op /\
    (threshold <= best ->
     fst (find_opening_id_by_name upstream scorer now query api_key threshold w)
     = Returned (Some (op_id op), Some (op_name op), best)) /\
    (best < threshold ->
     fst (find_opening_id_by_name upstream scorer now query api_key threshold w)
     = Returned (None, None, best)).
Proof.
  intros Hfetch Hne Hnone Hs Hlen.
  assert (Hsims : sims <> []).
  { intros ->. destruct pool; [done|]. cbn in Hlen. lia. }
  destruct (best_match_returns query (List.map op_name pool) sims w1 Hs Hsims)
    as (i & best & Hrun & Hmax).
  assert (Hi : (i < length pool)%nat).
  { rewrite <- Hlen. eapply lookup_lt_Some. apply Hmax. }
  destruct (lookup_lt_is_Some_2 pool i Hi) as [op Hop].
  exists i, best, op. split; [done|]. split; [done|].
  rewrite (find_opening_after_fetch _ _ _ _ _ _ _ Hfetch).
  rewrite find_none.
  2:{ intros o Ho. apply not_true_iff_false. rewrite exact_opening_true.
      by apply Hnone. }
  destruct pool as [|o pool']; [done|]. cbn [is_empty List.map].
  change (op_name o :: List.map op_name pool')
    with (List.map op_name (o :: pool')).
  split; intros Hcmp; unfold try_except; unfold mbind at 1;
    unfold M_bind, bind; rewrite Hrun.
  - apply Qle_bool_iff in Hcmp. rewrite Hcmp. run.
    unfold index. by rewrite Hop.
  - apply Qltb_lt in Hcmp. unfold Qltb in Hcmp.
    apply negb_true_iff in Hcmp. rewrite Hcmp. by run.
Qed.

End OpeningResolution.

(** ** The fuzzy step and its failures *)

Section FuzzyStep.

Variable upstream : Upstream.
Variable scorer : string -> list string -> option (list Q).

(** The [try] block of every resolver: when sklearn raises, or gives no
    similarities at all, the handler runs; otherwise the rest of the block
    runs on the first maximal similarity. *)
Lemma try_best_match {A} (query : string) (pool : list string)
    (k : nat * Q -> M A) (h : M A) (w : World) :
  ((scorer query pool = None \/ scorer query pool = Some []) /\
   try_except (best_match scorer query pool ≫= k) h w
   = h (scored query pool w))
  \/
  (exists sims i best,
     scorer query pool = Some sims /\ first_max sims i best /\
     try_except (best_match scorer query pool ≫= k) h w
     = try_except (k (i, best)) h (scored query pool w)).
Proof.
  destruct (scorer query pool) as [sims|] eqn:Hs.
  - destruct sims as [|s sims'] eqn:Hsims.
    + left. split; [by right|].
      unfold try_except, best_match, vectorize. run. rewrite Hs. by run.
    + right. rewrite <- Hsims in *.
      destruct (best_match_returns scorer query pool sims w Hs)
        as (i & best & Hrun & Hmax); [by subst|].
      exists sims, i, best. split; [done|]. split; [done|].
      unfold try_except. unfold mbind at 1. unfold M_bind, bind.
      by rewrite Hrun.
  - left. split; [by left|].
    unfold try_except. unfold mbind at 1. unfold M_bind, bind.
    by rewrite best_match_raises.
Qed.


End FuzzyStep.

(** ** Errors inside a resolution attempt *)

Section ResolutionErrors.

Variable upstream : Upstream.
Variable scorer : string -> list string -> option (list Q).
Variable sheet_configured : bool.
Variable set_order : list string -> list string.

(** Splits the [try] block of a resolver with [try_best_match]. *)
Ltac fuzzy_step :=
  match goal with
  | |- context [try_except (best_match _ ?q ?p ≫= ?k) ?h ?w] =>
      destruct (try_best_match scorer q p k h w)
        as [[_ ->]|(sims & i & best & Hs & Hmax & ->)]
  end.

(** Closes a branch that returned without an error of the scorer. *)
Ltac returned_with Hs :=
  unfold try_except; run; eexists _, _; (split; [reflexivity|]);
  repeat split; try done;
  try (intros Hne; exfalso; apply Hne;
       by apply (vectorizer_errors_scored _ _ _ _ _ Hs)).

Lemma find_opening_propagates (now : Q) (query api_key : string)
    (threshold : Q) (w w1 : World) (e : Exn) :
  get_base_openings upstream now api_key true w = (Raised e, w1) ->
  find_opening_id_by_name upstream scorer now query api_key threshold w
  = (Raised e, w1).
Proof.
  intros Hfetch. unfold find_opening_id_by_name.
  unfold mbind at 1. unfold M_bind, bind. by rewrite Hfetch.
Qed.

Lemma find_opening_catches (now : Q) (query api_key : string)
    (threshold : Q) (w w1 : World) (pool : list Opening) :
  get_base_openings upstream now api_key true w = (Returned pool, w1) ->
  exists r w2,
    find_opening_id_by_name upstream scorer now query api_key threshold w
    = (Returned r, w2) /\
    (vectorizer_errors scorer w2 <> vectorizer_errors scorer w ->
     r = (None, None, 0)).
Proof.
  intros Hfetch. rewrite (find_opening_after_fetch _ _ _ _ _ _ _ _ _ Hfetch).
  rewrite <- (get_base_openings_vectorizer_errors upstream scorer _ _ _ _ _ _
               Hfetch).
  destruct (is_empty pool); [by exists (None, None, 0), w1|].
  destruct (List.find (exact_opening query) pool) as [m|].
  { eexists _, w1. split; [reflexivity|]. by intros []. }
  destruct (is_empty (List.map op_name pool));
    [by exists (None, None, 0), w1|].
  fuzzy_step; [by eexists _, _|].
  cbn beta iota. destruct (Qle_bool threshold best).
  - unfold index. destruct (pool !! i); returned_with Hs.
  - returned_with Hs.
Qed.

Lemma search_candidates_catches (candidate_name : string) (threshold : Q)
    (candidates : list Candidate) (w : World) :
  exists r w2,
    search_candidates scorer candidate_name threshold candidates w
    = (Returned r, w2) /\
    (vectorizer_errors scorer w2 <> vectorizer_errors scorer w ->
     r = (None, 0)).
Proof.
  unfold search_candidates.
  destruct (is_empty _); [by exists (None, 0), w|].
  destruct (List.find (named candidate_name) candidates) as [m|].
  { eexists _, w. split; [reflexivity|]. by intros []. }
  fuzzy_step; [by eexists _, _|].
  cbn beta iota. destruct (Qle_bool threshold best).
  - destruct (List.filter has_name candidates !! i); returned_with Hs.
  - returned_with Hs.
Qed.

Lemma find_candidate_catches (candidate_name opening_id api_key : string)
    (threshold : Q) (filter_stages : option (list string)) (w : World) :
  candidate_list upstream api_key opening_id None None (length (trace w))
    <> BadBody ->
  exists r w2,
    find_candidate_by_name_in_opening upstream scorer candidate_name
      opening_id api_key threshold filter_stages w = (Returned r, w2) /\
    (candidate_list upstream api_key opening_id None None (length (trace w))
       = RequestError -> r = (None, 0)) /\
    (vectorizer_errors scorer w2 <> vectorizer_errors scorer w ->
     r = (None, 0)).
Proof.
  intros Hbody. unfold find_candidate_by_name_in_opening.
  destruct (falsy candidate_name || falsy opening_id);
    [by exists (None, 0), w|].
  run.
  destruct (candidate_list upstream api_key opening_id None None
              (length (trace w))) as [| |[[|c cs]|]]; run; try done.
  1,2,4: by eexists _, _.
  set (w' := {| cache := cache w; trace := _ :: trace w |}).
  assert (Hsearch : forall l,
    exists r w2,
      search_candidates scorer candidate_name threshold l w'
      = (Returned r, w2) /\
      (vectorizer_errors scorer w2 <> vectorizer_errors scorer w ->
       r = (None, 0))).
  { intros l.
    destruct (search_candidates_catches candidate_name threshold l w')
      as (r & w2 & Hr & Hcatch).
    by exists r, w2. }
  destruct filter_stages as [[|s ss]|].
  - destruct (Hsearch (c :: cs)) as (r & w2 & -> & Hcatch).
    by exists r, w2.
  - destruct (is_empty _); [by eexists _, _|].
    destruct (Hsearch (List.filter (in_stages (s :: ss)) (c :: cs)))
      as (r & w2 & -> & Hcatch).
    by exists r, w2.
  - destruct (Hsearch (c :: cs)) as (r & w2 & -> & Hcatch).
    by exists r, w2.
Qed.

Lemma find_test_catches (test_results : option (list TestRecord))
    (query : string) (threshold : Q) (w : World) :
  exists r w2,
    find_test_by_name scorer test_results query threshold w = (Returned r, w2)
    /\ (vectorizer_errors scorer w2 <> vectorizer_errors scorer w ->
        r = (None, 0)).
Proof.
  unfold find_test_by_name.
  destruct test_results as [[|t ts]|]; try by exists (None, 0), w.
  destruct (falsy query); [by exists (None, 0), w|].
  destruct (List.find _ (t :: ts)) as [m|].
  { eexists _, w. split; [reflexivity|]. by intros []. }
  destruct (is_empty _); [by exists (None, 0), w|].
  fuzzy_step; [by eexists _, _|].
  cbn beta iota. destruct (Qle_bool threshold best).
  - destruct (_ !! i); returned_with Hs.
  - returned_with Hs.
Qed.

Lemma run_bind {A B} (m : M A) (k : A -> M B) (w : World) :
  (m ≫= k) w = match m w with
               | (Returned a, w') => k a w'
               | (Raised e, w') => (Raised e, w')
               end.
Proof. reflexivity. Qed.

Lemma bind_returned {A B} (m : M A) (k : A -> M B) (w w' : World) (a : A) :
  m w = (Returned a, w') -> (m ≫= k) w = k a w'.
Proof. intros H. unfold mbind, M_bind, bind. by rewrite H. Qed.

Lemma get_all_test_results_returns (w : World) :
  exists rows w',
    get_all_test_results_from_google_sheet upstream sheet_configured w
    = (Returned rows, w') /\
    vectorizer_errors scorer w' = vectorizer_errors scorer w /\
    (failed (sheet_read_all upstream (length (trace w))) -> rows = None).
Proof.
  unfold get_all_test_results_from_google_sheet.
  destruct sheet_configured; cbn [negb]; [|by exists None, w].
  run.
  destruct (sheet_read_all upstream (length (trace w))) as [| |result]; run.
  1,2: by eexists _, _.
  destruct (sheet_data result) as [[|row rows]|]; run.
  1,3: by eexists _, _.
  destruct (sheet_success result); run; by eexists _, _.
Qed.

Lemma find_in_sheet_catches (candidate_name opening_name : string)
    (threshold : Q) (w : World) :
  exists r w2,
    find_candidate_id_in_google_sheet upstream scorer sheet_configured
      candidate_name opening_name threshold w = (Returned r, w2) /\
    (failed (sheet_read_all upstream (length (trace w))) -> r = (None, 0, 0))
    /\ (vectorizer_errors scorer w2 <> vectorizer_errors scorer w ->
        r = (None, 0, 0)).
Proof.
  unfold find_candidate_id_in_google_sheet.
  destruct (negb sheet_configured || falsy candidate_name
            || falsy opening_name); [by exists (None, 0, 0), w|].
  destruct (get_all_test_results_returns w)
    as (data & w' & Hdata & Hcalls & Hfailed).
  rewrite (bind_returned _ _ _ _ _ Hdata). rewrite <- Hcalls.
  destruct data as [[|row rows]|]; try by exists (None, 0, 0), w'.
  assert (Hok : failed (sheet_read_all upstream (length (trace w))) -> False).
  { intros H. by specialize (Hfailed H). }
  destruct (is_empty _); [by exists (None, 0, 0), w'|].
  destruct (List.find _ _) as [m|].
  { eexists _, w'. split; [reflexivity|]. split; [done|]. by intros []. }
  cbv zeta. fuzzy_step; [by eexists _, _|].
  cbn beta iota. destruct (Qle_bool threshold best).
  - destruct (_ !! i); returned_with Hs.
  - returned_with Hs.
Qed.

Lemma resolve_stage_catches (stage_name : string)
    (candidates : list Candidate) (w : World) :
  exists r w2,
    resolve_stage scorer set_order stage_name candidates w = (Returned r, w2)
    /\ (vectorizer_errors scorer w2 <> vectorizer_errors scorer w ->
        r = None).
Proof.
  unfold resolve_stage.
  destruct (is_empty _); [by exists None, w|].
  destruct (str_in stage_name _).
  { eexists _, w. split; [reflexivity|]. by intros []. }
  fuzzy_step; [by eexists _, _|].
  cbn beta iota. destruct (Qle_bool stage_threshold best).
  - unfold index. destruct (_ !! i); returned_with Hs.
  - returned_with Hs.
Qed.

(** C4, amended. Inside a resolution attempt an error of the vectorizer
    (the attempt adds a call of the scorer on which sklearn raised) is
    caught: the attempt returns no match with score 0.0 (for a stage name:
    no matching stage). A failed request for the candidates of an opening
    and a failed request to the spreadsheet are turned into the same
    result. An error of the fetch of the openings is not caught by the
    opening resolution: it reaches the caller. *)
Theorem resolution_errors :
  (forall now query api_key threshold w w1 pool,
     get_base_openings upstream now api_key true w = (Returned pool, w1) ->
     exists r w2,
       find_opening_id_by_name upstream scorer now query api_key threshold w
       = (Returned r, w2) /\
       (vectorizer_errors scorer w2 <> vectorizer_errors scorer w ->
        r = (None, None, 0))) /\
  (forall now query api_key threshold w w1 e,
     get_base_openings upstream now api_key true w = (Raised e, w1) ->
     find_opening_id_by_name upstream scorer now query api_key threshold w
     = (Raised e, w1)) /\
  (forall candidate_name opening_id api_key threshold filter_stages w,
     candidate_list upstream api_key opening_id None None (length (trace w))
       <> BadBody ->
     exists r w2,
       find_candidate_by_name_in_opening upstream scorer candidate_name
         opening_id api_key threshold filter_stages w = (Returned r, w2) /\
       (candidate_list upstream api_key opening_id None None (length (trace w))
          = RequestError -> r = (None, 0)) /\
       (vectorizer_errors scorer w2 <> vectorizer_errors scorer w ->
        r = (None, 0))) /\
  (forall test_results query threshold w,
     exists r w2,
       find_test_by_name scorer test_results query threshold w
       = (Returned r, w2) /\
       (vectorizer_errors scorer w2 <> vectorizer_errors scorer w ->
        r = (None, 0))) /\
  (forall candidate_name opening_name threshold w,
     exists r w2,
       find_candidate_id_in_google_sheet upstream scorer sheet_configured
         candidate_name opening_name threshold w = (Returned r, w2) /\
       (failed (sheet_read_all upstream (length (trace w))) ->
        r = (None, 0, 0)) /\
       (vectorizer_errors scorer w2 <> vectorizer_errors scorer w ->
        r = (None, 0, 0))) /\
  (forall stage_name candidates w,
     exists r w2,
       resolve_stage scorer set_order stage_name candidates w
       = (Returned r, w2) /\
       (vectorizer_errors scorer w2 <> vectorizer_errors scorer w ->
        r = None)).
Proof.
  repeat split.
  - intros. by eapply find_opening_catches.
  - intros. by apply find_opening_propagates.
  - intros. by apply find_candidate_catches.
  - intros. apply find_test_catches.
  - intros. apply find_in_sheet_catches.
  - intros. apply resolve_stage_catches.
Qed.

End ResolutionErrors.

(** ** Stage names *)

Lemma str_in_In (x : string) (l : list string) : str_in x l = true <-> In x l.
Proof.
  unfold str_in. rewrite List.existsb_exists. split.
  - intros (y & Hy & Heq). apply String.eqb_eq in Heq. by subst.
  - intros H. exists x. by rewrite String.eqb_refl.
Qed.

Lemma same_elements_In (l1 l2 : list string) :
  same_elements l1 l2 = true -> forall x, In x l1 <-> In x l2.
Proof.
  unfold same_elements. rewrite andb_true_iff, !List.forallb_forall.
  intros [H12 H21] x. split; intros Hx.
  - apply str_in_In. by apply H12.
  - apply str_in_In. by apply H21.
Qed.

Lemma truthy_Some (o : option string) :
  truthy o = true <-> exists s, o = Some s /\ s <> "".
Proof.
  unfold truthy, falsy. destruct o as [s|].
  - rewrite negb_true_iff, String.eqb_neq. split.
    + intros Hne. by exists s.
    + by intros (s' & [= <-] & Hne).
  - split; [done|]. by intros (s' & [=] & _).
Qed.

Lemma carried_stage_names_In (candidates : list Candidate) (s : string) :
  In s (carried_stage_names candidates) <->
  exists c, In c candidates /\ c_stage_name c = Some s /\ s <> "".
Proof.
  unfold carried_stage_names. rewrite List.in_map_iff. split.
  - intros (c & <- & Hc). apply List.filter_In in Hc as [Hin Ht].
    apply truthy_Some in Ht as (s' & Hs' & Hne). exists c. by rewrite Hs'.
  - intros (c & Hin & Hs & Hne). exists c. split; [by rewrite Hs|].
    apply List.filter_In. split; [done|]. apply truthy_Some. by exists s.
Qed.

(** The stage filter on a single name keeps the candidates of that stage. *)
Lemma filter_by_stage_single (name : string) (candidates : list Candidate)
    (c : Candidate) :
  In c (filter_by_stage (Some [name]) candidates) <->
  In c candidates /\ default "" (c_stage_name c) = name.
Proof.
  unfold filter_by_stage. rewrite List.filter_In, str_in_In. cbn.
  intuition congruence.
Qed.

Section StageResolution.

Variable scorer : string -> list string -> option (list Q).
Variable set_order : list string -> list string.


End StageResolution.

(** ** Job descriptions *)

Lemma is_active_true (o : RawOpening) :
  is_active o = true <-> ro_status o = Some "10".
Proof.
  unfold is_active. destruct (ro_status o) as [s|]; [|done].
  rewrite String.eqb_eq. naive_solver.
Qed.

Section JobDescriptions.

Variable get_text : string -> string.

Lemma jd_entry_raised (o : RawOpening) (e : Exn) :
  jd_entry get_text o = Raised e <->
  e = TypeError /\ ro_status o = Some "10" /\ ro_content o = KeyNull.
Proof.
  unfold jd_entry. rewrite <- is_active_true.
  destruct (is_active o); [|naive_solver].
  destruct (ro_content o) as [| |html]; cbn [get_or].
  - destruct (10 <=? _)%nat; (split; [done|by intros (_ & _ & ?)]).
  - split; [by intros [= <-]|by intros (-> & _)].
  - destruct (10 <=? _)%nat; (split; [done|by intros (_ & _ & ?)]).
Qed.

Lemma jd_entry_returned (o : RawOpening) (entry : list JobDescription)
    (jd : JobDescription) :
  jd_entry get_text o = Returned entry ->
  In jd entry <->
  exists html : string,
    ro_status o = Some "10" /\ get_or "" (ro_content o) = Some html /\
    (10 <= py_len (get_text html))%nat /\ jd = entry_of get_text o html.
Proof.
  unfold jd_entry. pose proof (is_active_true o) as Hact.
  destruct (is_active o).
  2:{ intros [= <-]. split; [done|]. intros (html & Hst & _).
      by apply Hact in Hst. }
  assert (Hst : ro_status o = Some "10") by by apply Hact.
  destruct (get_or "" (ro_content o)) as [html|]; [|done].
  destruct (10 <=? py_len (get_text html))%nat eqn:Hlen; intros [= <-].
  - apply Nat.leb_le in Hlen. split.
    + intros [<-|[]]. by exists html.
    + intros (html' & _ & [= <-] & _ & ->). by left.
  - apply Nat.leb_gt in Hlen. split; [done|].
    intros (html' & _ & [= <-] & Hlen' & _). lia.
Qed.

Lemma jd_results_raised (l : list RawOpening) (e : Exn) :
  jd_results get_text l = Raised e <->
  e = TypeError /\
  exists o, In o l /\ ro_status o = Some "10" /\ ro_content o = KeyNull.
Proof.
  induction l as [|o l IH]; cbn [jd_results]; [naive_solver|].
  destruct (jd_entry get_text o) as [entry|e'] eqn:Ho.
  - destruct (jd_results get_text l) as [rest|e''].
    + split; [done|]. intros [-> (o' & [<-|Hin] & Hst & Hnull)].
      * assert (jd_entry get_text o = Raised TypeError) as Hr
          by by apply jd_entry_raised.
        congruence.
      * assert (Returned rest = Raised TypeError) as Hr
          by (apply IH; naive_solver).
        done.
    + split.
      * intros [= ->]. destruct (proj1 IH eq_refl) as [-> (o' & ? & ?)].
        split; [done|]. exists o'. split; [by right|done].
      * intros [-> (o' & [<-|Hin] & Hst & Hnull)].
        -- assert (jd_entry get_text o = Raised TypeError) as Hr
             by by apply jd_entry_raised.
           congruence.
        -- apply IH. naive_solver.
  - apply jd_entry_raised in Ho as (-> & Hst & Hnull). split.
    + intros [= <-]. split; [done|]. exists o. split; [by left|done].
    + by intros [-> _].
Qed.

Lemma jd_results_returned (l : list RawOpening)
    (results : list JobDescription) (jd : JobDescription) :
  jd_results get_text l = Returned results ->
  In jd results <->
  exists (o : RawOpening) (html : string),
    In o l /\ ro_status o = Some "10" /\
    get_or "" (ro_content o) = Some html /\
    (10 <= py_len (get_text html))%nat /\ jd = entry_of get_text o html.
Proof.
  revert results. induction l as [|o l IH]; intros results; cbn [jd_results].
  { intros [= <-]. naive_solver. }
  destruct (jd_entry get_text o) as [entry|e] eqn:Ho; [|done].
  destruct (jd_results get_text l) as [rest|e]; [|done].
  intros [= <-]. rewrite List.in_app_iff, (jd_entry_returned _ _ _ Ho).
  rewrite (IH rest eq_refl). split.
  - intros [(html & ?)|(o' & html & Hin & ?)].
    + exists o, html. split; [by left|done].
    + exists o', html. split; [by right|done].
  - intros (o' & html & [<-|Hin] & ?).
    + left. by exists html.
    + right. by exists o', html.
Qed.

(** C8, amended. The job-description fetcher keeps an opening exactly
    when its status is the active code and its markup-stripped text, before
    the surrounding white space is trimmed, has at least 10 characters; the
    [job_description] it returns is that text trimmed (which may be shorter
    than 10 characters). This holds when no active opening has the content
    [null]; when one has, the fetcher raises. A miss, or a call that
    bypasses the cache, that gets a body with openings ends as this loop
    does. *)
Theorem job_descriptions_kept (upstream : Upstream) (l : list RawOpening) :
  ((forall o, In o l -> ro_status o = Some "10" -> ro_content o <> KeyNull) ->
   exists results : list JobDescription,
     jd_results get_text l = Returned results /\
     forall jd : JobDescription,
       In jd results <->
       exists (o : RawOpening) (html : string),
         In o l /\ ro_status o = Some "10" /\
         get_or "" (ro_content o) = Some html /\
         (10 <= py_len (get_text html))%nat /\
         jd = {| jd_id := ro_id o; jd_name := ro_name o;
                 job_description := strip (get_text html);
                 html_content := html |}) /\
  ((exists o, In o l /\ ro_status o = Some "10" /\ ro_content o = KeyNull) ->
   jd_results get_text l = Raised TypeError) /\
  (forall now api_key use_cache w,
     falsy api_key = false ->
     cached use_cache now (job_descriptions (cache w)) = None ->
     opening_list upstream api_key (length (trace w)) = Body (Some l) ->
     fst (get_job_descriptions upstream get_text now api_key use_cache w)
     = jd_results get_text l).
Proof.
  split; [|split].
  - intros Hcontent.
    destruct (jd_results get_text l) as [results|e] eqn:Hl.
    + exists results. split; [done|]. intros jd.
      by apply jd_results_returned.
    + apply jd_results_raised in Hl as [_ (o & Hin & Hst & Hnull)].
      by destruct (Hcontent o Hin Hst).
  - intros Hnull. by apply jd_results_raised.
  - intros now api_key use_cache w Hkey Hmiss Hbody.
    unfold get_job_descriptions. rewrite Hkey. run. rewrite Hmiss. run.
    rewrite Hbody. destruct (jd_results get_text l); [|done].
    by destruct use_cache.
Qed.

End JobDescriptions.

(** ** The candidate listing *)


(** In both files the listing is: the request, [filtered_candidates], and
    one record per candidate that is left, in order. *)
Lemma server_listing_steps (upstream : Upstream)
    (scorer : string -> list string -> option (list Q))
    (set_order : list string -> list string) (Info : Type)
    (candidate_info : string -> Candidate -> M Info)
    (seven_days_ago : Q -> Z) (now : Q)
    (opening_id api_key : string) (start_date end_date stage_name : option string)
    (w : World) (c : Candidate) (cs : list Candidate) :
  candidate_list upstream api_key opening_id start_date end_date
    (length (trace w)) = Body (Some (c :: cs)) ->
  Server.get_candidates_for_opening upstream scorer set_order Info
    candidate_info seven_days_ago now opening_id api_key start_date end_date
    stage_name w
  = (Server.filtered_candidates scorer set_order seven_days_ago now stage_name
       (c :: cs)
     ≫= mapM (candidate_info opening_id))
      {| cache := cache w;
         trace := Request (CandidateList api_key opening_id start_date end_date)
                  :: trace w |}.
Proof.
  intros Hbody. unfold Server.get_candidates_for_opening.
  rewrite run_bind. unfold post_candidate_list. rewrite !run_bind.
  unfold events_so_far, log. cbn [cache trace]. unfold mret at 1, M_ret, ret.
  by rewrite Hbody.
Qed.

Lemma app_listing_steps (upstream : Upstream)
    (scorer : string -> list string -> option (list Q))
    (set_order : list string -> list string) (Info : Type)
    (candidate_info : string -> Candidate -> M Info) (now : Q)
    (opening_id api_key : string) (start_date end_date stage_name : option string)
    (w : World) (c : Candidate) (cs : list Candidate) :
  candidate_list upstream api_key opening_id start_date end_date
    (length (trace w)) = Body (Some (c :: cs)) ->
  App.get_candidates_for_opening upstream scorer set_order Info
    candidate_info now opening_id api_key start_date end_date stage_name w
  = (App.filtered_candidates scorer set_order now stage_name (c :: cs)
     ≫= mapM (candidate_info opening_id))
      {| cache := cache w;
         trace := Request (CandidateList api_key opening_id start_date end_date)
                  :: trace w |}.
Proof.
  intros Hbody. unfold App.get_candidates_for_opening.
  rewrite run_bind. unfold post_candidate_list. rewrite !run_bind.
  unfold events_so_far, log. cbn [cache trace]. unfold mret at 1, M_ret, ret.
  by rewrite Hbody.
Qed.




(** * The properties on sample runs *)

(** The sample pool holds no opening whose id or name is the query. *)
Lemma sample_no_exact (query : string) :
  List.forallb (fun op => negb (exact_opening query op)) sample_openings = true ->
  forall op, In op sample_openings -> ~ exact query op.
Proof.
  intros Hall op Hin Hexact.
  rewrite List.forallb_forall in Hall. specialize (Hall op Hin).
  apply exact_opening_true in Hexact. rewrite Hexact in Hall. done.
Qed.

Lemma exact_match_short_circuits_witness :
  let w1 := snd (get_base_openings sample_upstream 1000 "key" true
                   initial_world) in
  get_base_openings sample_upstream 1000 "key" true initial_world
  = (Returned sample_openings, w1) /\
  (exists op, In op sample_openings /\ exact "Backend Engineer" op) /\
  (exists pre op post,
     sample_openings = pre ++ op :: post /\
     exact "Backend Engineer" op /\
     (forall o, In o pre -> ~ exact "Backend Engineer" o) /\
     find_opening_id_by_name sample_upstream Tfidf.scorer 1000
       "Backend Engineer" "key" (1 # 2) initial_world
     = (Returned (Some (op_id op), Some (op_name op), 1), w1) /\
     scorer_calls w1 = scorer_calls initial_world).
Proof.
  intros w1.
  assert (H1 : get_base_openings sample_upstream 1000 "key" true initial_world
               = (Returned sample_openings, w1)) by reflexivity.
  assert (H2 : exists op, In op sample_openings /\ exact "Backend Engineer" op).
  { exists {| op_id := "101"; op_name := "Backend Engineer" |}.
    split; [left; reflexivity | right; reflexivity]. }
  split; [exact H1|]. split; [exact H2|].
  exact (exact_match_short_circuits sample_upstream Tfidf.scorer 1000
           "Backend Engineer" "key" (1 # 2) initial_world w1 sample_openings
           H1 H2).
Defined.

Lemma fuzzy_threshold_gate_witness :
  let w1 := snd (get_base_openings sample_upstream 1000 "key" true
                   initial_world) in
  let sims := [6369051672525773 # 9007199254740992;
               4741438629302841 # 9007199254740992; 0; 0] in
  get_base_openings sample_upstream 1000 "key" true initial_world
  = (Returned sample_openings, w1) /\
  sample_openings <> [] /\
  (forall op, In op sample_openings -> ~ exact "Backend Eng" op) /\
  Tfidf.scorer "Backend Eng" (List.map op_name sample_openings) = Some sims /\
  length sims = length sample_openings /\
  (exists i best op,
     first_max sims i best /\
     sample_openings !! i = Some op /\
     (1 # 2 <= best ->
      fst (find_opening_id_by_name sample_upstream Tfidf.scorer 1000
             "Backend Eng" "key" (1 # 2) initial_world)
      = Returned (Some (op_id op), Some (op_name op), best)) /\
     (best < 1 # 2 ->
      fst (find_opening_id_by_name sample_upstream Tfidf.scorer 1000
             "Backend Eng" "key" (1 # 2) initial_world)
      = Returned (None, None, best))).
Proof.
  intros w1 sims.
  assert (H1 : get_base_openings sample_upstream 1000 "key" true initial_world
               = (Returned sample_openings, w1)) by reflexivity.
  assert (H2 : sample_openings <> []) by discriminate.
  assert (H3 : forall op, In op sample_openings -> ~ exact "Backend Eng" op)
    by (apply sample_no_exact; reflexivity).
  assert (H4 : Tfidf.scorer "Backend Eng" (List.map op_name sample_openings)
               = Some sims) by (vm_compute; reflexivity).
  assert (H5 : length sims = length sample_openings) by reflexivity.
  repeat (split; [assumption|]).
  exact (fuzzy_threshold_gate sample_upstream Tfidf.scorer 1000 "Backend Eng"
           "key" (1 # 2) initial_world w1 sample_openings sims
           H1 H2 H3 H4 H5).
Defined.



(** C4 as stated fails: with the upstream down and nothing cached, the
    opening resolution raises. *)
Lemma opening_fetch_error_propagates :
  find_opening_id_by_name failing_upstream Tfidf.scorer 1000
    "Backend Engineer" "key" (1 # 2) initial_world
  = (Raised ConnectivityError,
     {| cache := empty_cache; trace := [Request (OpeningList "key")] |}).
Proof. vm_compute. reflexivity. Qed.

Lemma resolution_errors_witness :
  let w1 := {| cache := empty_cache; trace := [Request (OpeningList "key")] |} in
  let tests := Some [ {| test_name := Some "Q"; test_score := "8" |} ] in
  get_base_openings failing_upstream 1000 "key" true initial_world
  = (Raised ConnectivityError, w1) /\
  find_opening_id_by_name failing_upstream Tfidf.scorer 1000
    "Backend Engineer" "key" (1 # 2) initial_world
  = (Raised ConnectivityError, w1) /\
  candidate_list failing_upstream "key" "101" None None
    (length (trace initial_world)) <> BadBody /\
  (exists r w2,
     find_candidate_by_name_in_opening failing_upstream Tfidf.scorer
       "Nguyen Van An" "101" "key" (1 # 2) None initial_world
     = (Returned r, w2) /\
     (candidate_list failing_upstream "key" "101" None None
        (length (trace initial_world)) = RequestError -> r = (None, 0)) /\
     (vectorizer_errors Tfidf.scorer w2
      <> vectorizer_errors Tfidf.scorer initial_world -> r = (None, 0))) /\
  (exists r w2,
     find_test_by_name Tfidf.scorer tests "IQ" (1 # 2) initial_world
     = (Returned r, w2) /\
     (vectorizer_errors Tfidf.scorer w2
      <> vectorizer_errors Tfidf.scorer initial_world -> r = (None, 0))).
Proof.
  intros w1 tests.
  assert (H1 : get_base_openings failing_upstream 1000 "key" true initial_world
               = (Raised ConnectivityError, w1)) by reflexivity.
  assert (H2 : candidate_list failing_upstream "key" "101" None None
                 (length (trace initial_world)) <> BadBody) by discriminate.
  pose proof (resolution_errors failing_upstream Tfidf.scorer false first_seen)
    as (_ & Hraise & Hcand & Htest & _).
  split; [exact H1|]. split; [|split; [exact H2|split]].
  - exact (Hraise 1000 "Backend Engineer" "key" (1 # 2) initial_world w1
             ConnectivityError H1).
  - exact (Hcand "Nguyen Van An" "101" "key" (1 # 2) None initial_world H2).
  - exact (Htest tests "IQ" (1 # 2) initial_world).
Defined.

Lemma cache_ttl_respected_witness :
  (let w1 := snd (get_base_openings sample_upstream 1000 "key" true
                    initial_world) in
   cached true 1000 (openings (cache initial_world)) = None /\
   fetched_openings sample_upstream "key" initial_world
   = Some sample_openings /\
   (exists w1' : World,
      get_base_openings sample_upstream 1000 "key" true initial_world
      = (Returned sample_openings, w1') /\
      openings (cache w1')
      = {| data := Some sample_openings; timestamp := 1000 |} /\
      fetch_count w1' = S (fetch_count initial_world)) /\
   (forall t1 : Q, t1 < 1000 + CACHE_TTL ->
      get_base_openings sample_upstream t1 "key" true w1
      = (Returned sample_openings, w1)) /\
   (forall t1 : Q, 1000 + CACHE_TTL <= t1 ->
      fetch_count (snd (get_base_openings sample_upstream t1 "key" true w1))
      = S (fetch_count w1))) /\
  (let w1 := snd (get_job_descriptions sample_upstream plain_text 1000 "key"
                    true initial_world) in
   cached true 1000 (job_descriptions (cache initial_world)) = None /\
   fetched_job_descriptions sample_upstream plain_text "key" initial_world
   = Some sample_job_descriptions /\
   (exists w1' : World,
      get_job_descriptions sample_upstream plain_text 1000 "key" true
        initial_world
      = (Returned sample_job_descriptions, w1') /\
      job_descriptions (cache w1')
      = {| data := Some sample_job_descriptions; timestamp := 1000 |} /\
      fetch_count w1' = S (fetch_count initial_world)) /\
   (forall t1 : Q, t1 < 1000 + CACHE_TTL ->
      get_job_descriptions sample_upstream plain_text t1 "key" true w1
      = (Returned sample_job_descriptions, w1)) /\
   (forall t1 : Q, 1000 + CACHE_TTL <= t1 ->
      fetch_count (snd (get_job_descriptions sample_upstream plain_text t1
                          "key" true w1))
      = S (fetch_count w1))) /\
  (let w1 := snd (get_users_info sample_upstream (Some "acct") 1000 true
                    initial_world) in
   cached true 1000 (users_info (cache initial_world)) = None /\
   fetched_users sample_upstream (Some "acct") initial_world
   = Some sample_directory /\
   (exists w1' : World,
      get_users_info sample_upstream (Some "acct") 1000 true initial_world
      = (Returned sample_directory, w1') /\
      users_info (cache w1')
      = {| data := Some sample_directory; timestamp := 1000 |} /\
      fetch_count w1' = S (fetch_count initial_world)) /\
   (forall t1 : Q, t1 < 1000 + CACHE_TTL ->
      get_users_info sample_upstream (Some "acct") t1 true w1
      = (Returned sample_directory, w1)) /\
   (forall t1 : Q, 1000 + CACHE_TTL <= t1 ->
      fetch_count (snd (get_users_info sample_upstream (Some "acct") t1 true
                          w1))
      = S (fetch_count w1))).
Proof.
  destruct (cache_ttl_respected sample_upstream plain_text (Some "acct") "key")
    as ([Hopen1 Hopen2] & [Hjd1 Hjd2] & [Huser1 Huser2]).
  split; [|split].
  - intros w1.
    assert (H1 : cached true 1000 (openings (cache initial_world)) = None)
      by reflexivity.
    assert (H2 : fetched_openings sample_upstream "key" initial_world
                 = Some sample_openings) by reflexivity.
    assert (H3 : get_base_openings sample_upstream 1000 "key" true
                   initial_world = (Returned sample_openings, w1))
      by reflexivity.
    assert (H4 : openings (cache w1)
                 = {| data := Some sample_openings; timestamp := 1000 |})
      by reflexivity.
    split; [exact H1|]. split; [exact H2|].
    split; [exact (Hopen1 1000 initial_world sample_openings H1 H2)|].
    exact (proj2 (Hopen2 1000 initial_world w1 sample_openings H1 H3 H4)).
  - intros w1.
    assert (H1 : cached true 1000 (job_descriptions (cache initial_world))
                 = None) by reflexivity.
    assert (H2 : fetched_job_descriptions sample_upstream plain_text "key"
                   initial_world = Some sample_job_descriptions)
      by (vm_compute; reflexivity).
    assert (H3 : get_job_descriptions sample_upstream plain_text 1000 "key"
                   true initial_world
                 = (Returned sample_job_descriptions, w1))
      by (vm_compute; reflexivity).
    assert (H4 : job_descriptions (cache w1)
                 = {| data := Some sample_job_descriptions;
                      timestamp := 1000 |})
      by (vm_compute; reflexivity).
    split; [exact H1|]. split; [exact H2|].
    split; [exact (Hjd1 1000 initial_world sample_job_descriptions H1 H2)|].
    exact (proj2 (Hjd2 1000 initial_world w1 sample_job_descriptions
                    H1 H3 H4)).
  - intros w1.
    assert (H1 : cached true 1000 (users_info (cache initial_world)) = None)
      by reflexivity.
    assert (H2 : fetched_users sample_upstream (Some "acct") initial_world
                 = Some sample_directory) by (vm_compute; reflexivity).
    assert (H3 : get_users_info sample_upstream (Some "acct") 1000 true
                   initial_world = (Returned sample_directory, w1))
      by (vm_compute; reflexivity).
    assert (H4 : users_info (cache w1)
                 = {| data := Some sample_directory; timestamp := 1000 |})
      by (vm_compute; reflexivity).
    split; [exact H1|]. split; [exact H2|].
    split; [exact (Huser1 1000 initial_world sample_directory H1 H2)|].
    exact (proj2 (Huser2 1000 initial_world w1 sample_directory H1 H3 H4)).
Defined.

(** C6. The calls [get_job_descriptions('key', use_cache=False)] and
    [get_base_openings('key', use_cache=False)] on an empty cache, with
    the upstream listing the sample openings: the request is sent and the
    job descriptions, or the four active openings, are returned, and the
    cache entry is as empty as before the call; nothing was stored. *)
Lemma bypass_does_not_store :
  get_job_descriptions sample_upstream plain_text 1000 "key" false
    initial_world
  = (Returned sample_job_descriptions,
     {| cache := empty_cache; trace := [Request (OpeningList "key")] |}) /\
  get_base_openings sample_upstream 1000 "key" false initial_world
  = (Returned sample_openings,
     {| cache := empty_cache; trace := [Request (OpeningList "key")] |}) /\
  job_descriptions empty_cache = {| data := None; timestamp := 0 |} /\
  openings empty_cache = {| data := None; timestamp := 0 |}.
Proof. repeat split; vm_compute; reflexivity. Qed.

Lemma bypass_refetches_without_storing_witness :
  falsy "key" = false /\
  falsy "acct" = false /\
  (exists r w1,
     get_base_openings sample_upstream 1000 "key" false initial_world = (r, w1)
     /\ fetch_count w1 = S (fetch_count initial_world)
     /\ cache w1 = cache initial_world
     /\ forall b,
          opening_list sample_upstream "key" (length (trace initial_world))
          = Body b ->
          r = Returned (filtered_openings (default [] b))).
Proof.
  assert (H1 : falsy "key" = false) by reflexivity.
  assert (H2 : falsy "acct" = false) by reflexivity.
  split; [exact H1|]. split; [exact H2|].
  exact (proj1 (bypass_refetches_without_storing sample_upstream plain_text
                  1000 "key" "acct" initial_world H1 H2)).
Defined.


(** C8 as stated fails: the opening 102 is kept although the job
    description returned for it, ["hi"], has 2 characters; its text before
    trimming has 11. *)
Lemma short_job_description_kept :
  fst (get_job_descriptions sample_upstream plain_text 1000 "key" true
         initial_world)
  = Returned
      [ {| jd_id := "101"; jd_name := "Backend Engineer";
           job_description := "Build and run the hiring API.";
           html_content := "<p>Build and run the hiring API.</p>" |};
        {| jd_id := "102"; jd_name := "Senior Backend Engineer";
           job_description := "hi"; html_content := "   hi      " |} ] /\
  py_len "hi" = 2%nat /\
  py_len (plain_text "   hi      ") = 11%nat.
Proof. repeat split; vm_compute; reflexivity. Qed.

Lemma job_descriptions_kept_witness :
  jd_results plain_text sample_raw_openings
  = Returned sample_job_descriptions /\
  (exists results : list JobDescription,
     jd_results plain_text sample_raw_openings = Returned results /\
     forall jd : JobDescription,
       In jd results <->
       exists (o : RawOpening) (html : string),
         In o sample_raw_openings /\ ro_status o = Some "10" /\
         get_or "" (ro_content o) = Some html /\
         (10 <= py_len (plain_text html))%nat /\
         jd = {| jd_id := ro_id o; jd_name := ro_name o;
                 job_description := strip (plain_text html);
                 html_content := html |}) /\
  jd_results plain_text (sample_raw_openings ++ [null_content_opening])
  = Raised TypeError.
Proof.
  assert (H1 : forall o, In o sample_raw_openings ->
                         ro_status o = Some "10" -> ro_content o <> KeyNull).
  { intros o Hin _ Hnull.
    repeat (destruct Hin as [<-|Hin]; [discriminate Hnull|]).
    destruct Hin. }
  assert (H2 : exists o, In o (sample_raw_openings ++ [null_content_opening])
                         /\ ro_status o = Some "10"
                         /\ ro_content o = KeyNull).
  { exists null_content_opening.
    split; [apply List.in_or_app; right; left; reflexivity|].
    split; reflexivity. }
  split; [vm_compute; reflexivity|]. split.
  - exact (proj1 (job_descriptions_kept plain_text sample_upstream
                    sample_raw_openings) H1).
  - exact (proj1 (proj2 (job_descriptions_kept plain_text sample_upstream
                           (sample_raw_openings ++ [null_content_opening])))
             H2).
Defined.


(** C10 as stated fails: the account API answers with a JSON body without
    a list of users; [get_users_info] returns the empty mapping and stores
    it, and a call within the TTL serves it from the cache without a
    request. *)
Lemma users_empty_answer_cached :
  let w1 := snd (get_users_info listless_upstream (Some "acct") 1000 true
                   initial_world) in
  get_users_info listless_upstream (Some "acct") 1000 true initial_world
  = (Returned ∅, w1) /\
  users_info (cache initial_world) = {| data := None; timestamp := 0 |} /\
  users_info (cache w1) = {| data := Some ∅; timestamp := 1000 |} /\
  get_users_info listless_upstream (Some "acct") 1001 true w1
  = (Returned ∅, w1) /\
  fetch_count w1 = 1%nat.
Proof. repeat split; vm_compute; reflexivity. Qed.

Lemma users_failure_not_cached_witness :
  falsy "acct" = false /\
  cached true 1000 (users_info (cache initial_world)) = None /\
  users_fetch_fails (user_list failing_upstream "acct"
                       (length (trace initial_world))) = true /\
  (exists w1,
     get_users_info failing_upstream (Some "acct") 1000 true initial_world
     = (Returned ∅, w1) /\
     fetch_count w1 = S (fetch_count initial_world) /\
     cache w1 = cache initial_world /\
     (cached true 1000 (users_info (cache initial_world)) = None ->
      forall t1 : Q, 1000 <= t1 ->
        fetch_count (snd (get_users_info failing_upstream (Some "acct") t1
                            true w1))
        = S (fetch_count w1))).
Proof.
  assert (H1 : falsy "acct" = false) by reflexivity.
  assert (H2 : cached true 1000 (users_info (cache initial_world)) = None)
    by reflexivity.
  assert (H3 : users_fetch_fails (user_list failing_upstream "acct"
                                    (length (trace initial_world))) = true)
    by reflexivity.
  repeat (split; [assumption|]).
  exact (users_failure_not_cached failing_upstream "acct" true 1000
           initial_world H1 H2 H3).
Defined.

(** ** The scenarios of the specification, run on the sample pool *)

Example scenario_exact :
  fst (find_opening_id_by_name sample_upstream Tfidf.scorer 1000
         "Backend Engineer" "key" (1 # 2) initial_world)
  = Returned (Some "101", Some "Backend Engineer", 1).
Proof. vm_compute. reflexivity. Qed.

Example scenario_fuzzy_accepted :
  fst (find_opening_id_by_name sample_upstream Tfidf.scorer 1000
         "Backend Eng" "key" (1 # 2) initial_world)
  = Returned (Some "101", Some "Backend Engineer",
              6369051672525773 # 9007199254740992).
Proof. vm_compute. reflexivity. Qed.

Example scenario_fuzzy_rejected :
  fst (find_opening_id_by_name sample_upstream Tfidf.scorer 1000
         "Backend Eng" "key" (95 # 100) initial_world)
  = Returned (None, None, 6369051672525773 # 9007199254740992).
Proof. vm_compute. reflexivity. Qed.

Example scenario_vectorizer_error :
  find_test_by_name Tfidf.scorer
    (Some [ {| test_name := Some "Q"; test_score := "8" |} ]) "IQ" (1 # 2)
    initial_world
  = (Returned (None, 0),
     {| cache := empty_cache; trace := [Vectorize "IQ" ["Q"]] |}).
Proof. vm_compute. reflexivity. Qed.

Example scenario_users :
  fst (get_users_info sample_upstream (Some "acct") 1000 true initial_world)
  = Returned (<["lan" := {| ui_name := "Lan Pham"; ui_title := "" |}]>
              (<["hoang" := {| ui_name := "Hoang Tran"; ui_title := "CEO" |}]>
               ∅)).
Proof. vm_compute. reflexivity. Qed.

(** * Further properties of the code *)

(** ** The resolvers *)

Lemma get_base_openings_effects (upstream : Upstream) (now : Q)
    (api_key : string) (use_cache : bool) (w : World) :
  let w1 := snd (get_base_openings upstream now api_key use_cache w) in
  job_descriptions (cache w1) = job_descriptions (cache w) /\
  users_info (cache w1) = users_info (cache w) /\
  (trace w1 = trace w \/
   trace w1 = Request (OpeningList api_key) :: trace w).
Proof.
  cbv zeta. unfold get_base_openings.
  destruct (falsy api_key); [run; tauto|]. run.
  destruct (cached use_cache now (openings (cache w))); [run; tauto|]. run.
  destruct (opening_list upstream api_key (length (trace w)));
    [run; tauto..|].
  destruct use_cache; run; tauto.
Qed.

Section FurtherResolution.

Variable upstream : Upstream.
Variable scorer : string -> list string -> option (list Q).

(** X1. Lowering the similarity threshold never loses a match of
    [find_opening_id_by_name]: when a query resolves to an opening at the
    threshold [t2], it resolves to the same opening, with the same name and
    score and the same effects, at every threshold [t1 <= t2]. *)
Theorem opening_match_survives_lower_threshold (now : Q)
    (query api_key : string) (t1 t2 : Q) (w : World) (id : string)
    (name : option string) (score : Q) :
  t1 <= t2 ->
  fst (find_opening_id_by_name upstream scorer now query api_key t2 w)
  = Returned (Some id, name, score) ->
  find_opening_id_by_name upstream scorer now query api_key t1 w
  = find_opening_id_by_name upstream scorer now query api_key t2 w.
Proof.
  intros Hle.
  destruct (get_base_openings upstream now api_key true w) as [[pool|e] w1]
    eqn:Hfetch.
  2:{ by rewrite !(find_opening_propagates _ _ _ _ _ _ _ _ _ Hfetch). }
  rewrite !(find_opening_after_fetch _ _ _ _ _ _ _ _ _ Hfetch).
  destruct (is_empty pool); [done|].
  destruct (List.find (exact_opening query) pool); [done|].
  destruct (is_empty (List.map op_name pool)); [done|].
  unfold try_except. rewrite !run_bind.
  destruct (best_match scorer query (List.map op_name pool) w1)
    as [[[i best]|e] w2]; [|done].
  destruct (Qle_bool t2 best) eqn:E2.
  - assert (Qle_bool t1 best = true) as ->; [|done].
    apply Qle_bool_iff. apply Qle_bool_iff in E2. lra.
  - by run.
Qed.

(** What [search_candidates] returns is the id of one of the candidates it
    was given, and that candidate has a name. *)
Lemma search_candidates_member (candidate_name : string) (threshold : Q)
    (candidates : list Candidate) (w : World) (id : string) (score : Q) :
  falsy candidate_name = false ->
  fst (search_candidates scorer candidate_name threshold candidates w)
  = Returned (Some id, score) ->
  exists c, In c candidates /\ c_id c = Some id /\ has_name c = true.
Proof.
  intros Hname. unfold search_candidates. cbv zeta.
  destruct (is_empty _); [by run|].
  destruct (List.find (named candidate_name) candidates) as [c|] eqn:Hfind.
  { run. intros [= Hid _]. apply List.find_some in Hfind as [Hin Hc].
    exists c. split; [done|]. split; [done|].
    unfold named in Hc. unfold has_name, truthy.
    destruct (c_name c) as [n|]; [|done].
    apply String.eqb_eq in Hc as ->. by rewrite Hname. }
  unfold try_except. rewrite run_bind.
  destruct (best_match scorer candidate_name _ w) as [[[i best]|e] w2];
    [|by run].
  destruct (Qle_bool threshold best); [|by run].
  destruct (List.filter has_name candidates !! i) as [c|] eqn:Hi; [|by run].
  run. intros [= Hid _]. exists c.
  apply list_elem_of_lookup_2, list_elem_of_In, List.filter_In in Hi.
  by destruct Hi.
Qed.

(** X2. With a non-empty list of allowed stages,
    [find_candidate_by_name_in_opening] only ever returns a candidate of
    the opening whose stage is one of the allowed ones, and who has a
    name; candidates in other stages or without a stage are never
    returned, whatever their names. *)
Theorem candidate_within_allowed_stages
    (candidate_name opening_id api_key : string) (threshold : Q)
    (s : string) (ss : list string) (w : World) (id : string) (score : Q) :
  fst (find_candidate_by_name_in_opening upstream scorer candidate_name
         opening_id api_key threshold (Some (s :: ss)) w)
  = Returned (Some id, score) ->
  exists candidates c stage,
    candidate_list upstream api_key opening_id None None (length (trace w))
    = Body (Some candidates) /\
    In c candidates /\ c_id c = Some id /\ has_name c = true /\
    c_stage_name c = Some stage /\ In stage (s :: ss).
Proof.
  unfold find_candidate_by_name_in_opening.
  destruct (falsy candidate_name) eqn:Hname; [by run|].
  destruct (falsy opening_id); [by run|]. cbn [orb].
  unfold post_candidate_list. rewrite !run_bind. unfold events_so_far.
  rewrite run_bind. unfold log. cbn [trace cache]. run.
  destruct (candidate_list upstream api_key opening_id None None
              (length (trace w))) as [| |[[|c0 cs]|]] eqn:Hlist; try done.
  destruct (is_empty _); [done|].
  intros H. apply search_candidates_member in H as (c & Hin & Hid & Hn);
    [|done].
  apply List.filter_In in Hin as [Hin Hstage].
  unfold in_stages in Hstage. apply andb_prop in Hstage as [Ht Hs].
  apply truthy_Some in Ht as (stage & Hst & _).
  rewrite Hst in Hs. apply str_in_In in Hs.
  by exists (c0 :: cs), c, stage.
Qed.

(** X3. The fuzzy step of the candidate search scores the names of the
    candidates that have one, and reads the best position in that same
    sub-list: when no candidate carries the queried name, the id returned
    is the one of the named candidate at the first maximal similarity if
    that similarity reaches the threshold, and no id otherwise; the
    similarity is reported in both cases. *)
Theorem candidate_fuzzy_gate (candidate_name : string) (threshold : Q)
    (candidates : list Candidate) (sims : list Q) (w : World) :
  let with_names := List.filter has_name candidates in
  with_names <> [] ->
  (forall c, In c candidates -> c_name c <> Some candidate_name) ->
  scorer candidate_name (List.map (fun c => default "" (c_name c)) with_names)
  = Some sims ->
  length sims = length with_names ->
  exists i best c,
    first_max sims i best /\
    with_names !! i = Some c /\
    (threshold <= best ->
     fst (search_candidates scorer candidate_name threshold candidates w)
     = Returned (c_id c, best)) /\
    (best < threshold ->
     fst (search_candidates scorer candidate_name threshold candidates w)
     = Returned (None, best)).
Proof.
  intros with_names Hne Hnone Hs Hlen.
  assert (sims <> []) as Hsims.
  { intros ->. destruct with_names; [done|discriminate]. }
  destruct (best_match_returns scorer _ _ _ w Hs Hsims)
    as (i & best & Hbest & Hmax).
  assert (is_Some (with_names !! i)) as [c Hc].
  { apply lookup_lt_is_Some. rewrite <- Hlen.
    destruct Hmax as (Hi & _). by apply lookup_lt_Some in Hi. }
  exists i, best, c. split; [done|]. split; [done|].
  assert (List.find (named candidate_name) candidates = None) as Hfind.
  { apply find_none. intros x Hx. specialize (Hnone x Hx).
    unfold named. destruct (c_name x) as [n|]; [|done].
    apply String.eqb_neq. congruence. }
  unfold search_candidates. cbv zeta. fold with_names.
  replace (is_empty (List.map (fun c => default "" (c_name c)) with_names))
    with false by (by destruct with_names).
  rewrite Hfind. unfold try_except. rewrite run_bind, Hbest.
  split.
  - intros Hge. apply Qle_bool_iff in Hge. rewrite Hge, Hc. by run.
  - intros Hlt. apply Qltb_lt in Hlt. unfold Qltb in Hlt.
    apply negb_true_iff in Hlt. rewrite Hlt. by run.
Qed.

(** X4. A test found by [find_test_by_name] is one of the listed test
    results and has a non-empty name; results without a name can only be
    skipped. *)
Theorem found_test_is_listed (test_results : option (list TestRecord))
    (query : string) (threshold : Q) (w : World) (t : TestRecord)
    (score : Q) :
  fst (find_test_by_name scorer test_results query threshold w)
  = Returned (Some t, score) ->
  exists tests,
    test_results = Some tests /\ In t tests /\ truthy (test_name t) = true.
Proof.
  unfold find_test_by_name.
  destruct test_results as [[|t0 ts]|]; [by run| |by run].
  destruct (falsy query) eqn:Hq; [by run|].
  intros H. exists (t0 :: ts). split; [done|]. revert H.
  generalize (t0 :: ts) as tests. intros tests.
  destruct (List.find _ tests) as [x|] eqn:Hfind.
  { run. intros [= -> _]. apply List.find_some in Hfind as [Hin Hx].
    split; [done|]. unfold truthy. destruct (test_name t) as [n|]; [|done].
    apply String.eqb_eq in Hx as ->. by rewrite Hq. }
  cbv zeta. destruct (is_empty _); [by run|].
  unfold try_except. rewrite run_bind.
  destruct (best_match scorer query _ w) as [[[i best]|e] w2]; [|by run].
  destruct (Qle_bool threshold best); [|by run].
  destruct (List.filter _ tests !! i) as [x|] eqn:Hi; [|by run].
  run. intros [= -> _].
  apply list_elem_of_lookup_2, list_elem_of_In, List.filter_In in Hi.
  by destruct Hi.
Qed.

(** What the fuzzy step of a resolver does to the world: one call of the
    scorer, nothing else. *)
Lemma fuzzy_step_effects {A} (query : string) (pool : list string)
    (k : nat * Q -> M A) (h : M A) (w : World) :
  (forall x w', snd (k x w') = w') -> (forall w', snd (h w') = w') ->
  snd (try_except (best_match scorer query pool ≫= k) h w)
  = scored query pool w.
Proof.
  intros Hk Hh.
  destruct (try_best_match scorer query pool k h w)
    as [[_ ->]|(sims & i & best & _ & _ & ->)]; [apply Hh|].
  unfold try_except. specialize (Hk (i, best) (scored query pool w)).
  destruct (k (i, best) (scored query pool w)) as [[a|e] w']; cbn in *;
    [done|]. subst w'. apply Hh.
Qed.

Lemma search_candidates_effects (candidate_name : string) (threshold : Q)
    (candidates : list Candidate) (w : World) :
  let w1 := snd (search_candidates scorer candidate_name threshold candidates
                   w) in
  w1 = w \/ exists pool, w1 = scored candidate_name pool w.
Proof.
  cbv zeta. unfold search_candidates. cbv zeta.
  destruct (is_empty _); [by left|].
  destruct (List.find _ candidates); [by left|].
  right. eexists. apply fuzzy_step_effects; [|done].
  intros [i best] w'. destruct (Qle_bool threshold best); [|done].
  by destruct (List.filter has_name candidates !! i).
Qed.

(** X5. What a resolution costs: [find_opening_id_by_name] sends one
    request at most and runs the scorer once at most, and it leaves the
    cached job descriptions and the cached user directory alone;
    [find_candidate_by_name_in_opening] sends one request at most, runs
    the scorer once at most and leaves the whole cache alone. *)
Theorem resolution_cost :
  (forall now query api_key threshold w,
     let w2 := snd (find_opening_id_by_name upstream scorer now query api_key
                      threshold w) in
     (fetch_count w2 <= S (fetch_count w))%nat /\
     (scorer_calls w2 <= S (scorer_calls w))%nat /\
     job_descriptions (cache w2) = job_descriptions (cache w) /\
     users_info (cache w2) = users_info (cache w)) /\
  (forall candidate_name opening_id api_key threshold filter_stages w,
     let w2 := snd (find_candidate_by_name_in_opening upstream scorer
                      candidate_name opening_id api_key threshold
                      filter_stages w) in
     (fetch_count w2 <= S (fetch_count w))%nat /\
     (scorer_calls w2 <= S (scorer_calls w))%nat /\
     cache w2 = cache w).
Proof.
  split.
  - intros now query api_key threshold w. cbv zeta.
    pose proof (get_base_openings_effects upstream now api_key true w) as Heff.
    cbv zeta in Heff.
    destruct (get_base_openings upstream now api_key true w) as [[pool|e] w1]
      eqn:Hfetch; cbn [snd] in Heff;
      pose proof (get_base_openings_scorer_calls _ _ _ _ _ _ _ Hfetch)
        as Hcalls;
      destruct Heff as (Hjd & Hus & Htrace).
    2:{ rewrite (find_opening_propagates _ _ _ _ _ _ _ _ _ Hfetch). cbn [snd].
        rewrite Hjd, Hus, Hcalls. unfold fetch_count.
        destruct Htrace as [->| ->]; cbn; repeat split; lia. }
    assert ((fetch_count w1 <= S (fetch_count w))%nat) as Hfetches.
    { unfold fetch_count. destruct Htrace as [->| ->]; cbn; lia. }
    rewrite (find_opening_after_fetch _ _ _ _ _ _ _ _ _ Hfetch).
    destruct (is_empty pool);
      [cbn; rewrite Hjd, Hus, Hcalls; repeat split; (done || lia)|].
    destruct (List.find (exact_opening query) pool);
      [cbn; rewrite Hjd, Hus, Hcalls; repeat split; (done || lia)|].
    destruct (is_empty (List.map op_name pool));
      [cbn; rewrite Hjd, Hus, Hcalls; repeat split; (done || lia)|].
    rewrite fuzzy_step_effects; [|intros [i best] w'|done].
    + unfold scored, fetch_count, scorer_calls in *. cbn.
      rewrite Hjd, Hus. repeat split; (done || lia).
    + destruct (Qle_bool threshold best); [|done].
      unfold index. by destruct (pool !! i).
  - intros candidate_name opening_id api_key threshold filter_stages w.
    cbv zeta. unfold find_candidate_by_name_in_opening.
    destruct (falsy candidate_name || falsy opening_id);
      [cbn; repeat split; (done || lia)|].
    run.
    set (w1 := {| cache := cache w;
                  trace := Request (CandidateList api_key opening_id None None)
                           :: trace w |}).
    assert (forall candidates,
              let w2 := snd (search_candidates scorer candidate_name threshold
                               candidates w1) in
              (fetch_count w2 <= S (fetch_count w))%nat /\
              (scorer_calls w2 <= S (scorer_calls w))%nat /\
              cache w2 = cache w) as Hsearch.
    { intros candidates.
      destruct (search_candidates_effects candidate_name threshold candidates
                  w1) as [->|[pool ->]];
        unfold fetch_count, scorer_calls; cbn; repeat split; (done || lia). }
    destruct (candidate_list upstream api_key opening_id None None
                (length (trace w))) as [| |[[|c cs]|]];
      try (unfold fetch_count, scorer_calls; cbn; repeat split; (done || lia)).
    destruct filter_stages as [[|s ss]|]; try apply Hsearch.
    destruct (is_empty _); [|apply Hsearch].
    unfold fetch_count, scorer_calls; cbn; repeat split; (done || lia).
Qed.

End FurtherResolution.

(** ** The candidate map of the spreadsheet resolver *)

Lemma add_row_keys (rows : list SheetRow)
    (acc : list (string * (option string * option string))) :
  NoDup (List.map fst acc) ->
  (forall e, In e acc -> fst e <> "") ->
  let result := List.fold_left add_row rows acc in
  NoDup (List.map fst result) /\
  (forall e, In e acc -> In e result) /\
  (forall e, In e result ->
     fst e <> "" /\
     (In e acc \/ exists row, In row rows /\ candidate_id_of row = fst e)).
Proof.
  revert acc. induction rows as [|row rows IH]; intros acc Hnd Hne; cbn.
  { split; [done|]. split; [done|]. intros e He. split; [by apply Hne|].
    by left. }
  assert (NoDup (List.map fst (add_row acc row)) /\
          (forall e, In e (add_row acc row) -> fst e <> "") /\
          (forall e, In e acc -> In e (add_row acc row)) /\
          (forall e, In e (add_row acc row) ->
             In e acc \/ candidate_id_of row = fst e))
    as (Hnd' & Hne' & Hkeep & Hnew).
  { unfold add_row. cbv zeta.
    destruct (falsy (candidate_id_of row)) eqn:Hf.
    { repeat split; try done. by left. }
    destruct (str_in _ (List.map fst acc)) eqn:Hin.
    { repeat split; try done. by left. }
    assert (candidate_id_of row <> "") as Hid.
    { unfold falsy in Hf. by apply String.eqb_neq in Hf. }
    split; [|split; [|split]].
    - rewrite List.map_app. cbn. apply NoDup_app. split; [done|].
      split; [|apply NoDup_singleton].
      intros x Hx Hx'. apply list_elem_of_In in Hx.
      apply list_elem_of_singleton in Hx'. subst x.
      apply str_in_In in Hx. congruence.
    - intros e He. apply List.in_app_or in He as [He|[<-|[]]]; [by apply Hne|].
      done.
    - intros e He. apply List.in_or_app. by left.
    - intros e He. apply List.in_app_or in He as [He|[<-|[]]]; [by left|].
      by right. }
  destruct (IH _ Hnd' Hne') as (H1 & H2 & H3).
  split; [done|]. split; [by intros e He; apply H2, Hkeep|].
  intros e He. destruct (H3 e He) as [Hk [Hacc|(r & Hr & Hid)]].
  - split; [done|]. destruct (Hnew e Hacc) as [?|Hid]; [by left|].
    right. exists row. split; [by left|done].
  - split; [done|]. right. exists r. split; [by right|done].
Qed.

(** Rows with another id, or none, leave an id out of the map. *)
Lemma add_row_other (pre : list SheetRow)
    (acc : list (string * (option string * option string))) (id : string) :
  (forall r, In r pre -> candidate_id_of r <> id) ->
  ~ In id (List.map fst acc) ->
  ~ In id (List.map fst (List.fold_left add_row pre acc)).
Proof.
  revert acc. induction pre as [|r pre IH]; intros acc Hpre Hacc; [done|].
  cbn. apply IH; [by intros r' Hr'; apply Hpre; right|].
  unfold add_row. cbv zeta.
  destruct (falsy _); [done|]. destruct (str_in _ _); [done|].
  rewrite List.map_app. cbn. intros Hin.
  apply List.in_app_or in Hin as [Hin|[Heq|[]]]; [done|].
  apply (Hpre r); [by left|done].
Qed.

(** X6. The candidate map that [find_candidate_id_in_google_sheet] builds
    from the spreadsheet rows has one entry per candidate id, the id of a
    row being the text that [str] makes of its [candidate_id] (["None"]
    for [null], empty without the key): ids are distinct and non-empty,
    every entry comes from a row with that id, and for each id it is the
    first row with the id that gives the name and the job; later rows of
    the same candidate are ignored. *)
Theorem candidate_map_first_row_wins (rows : list SheetRow) :
  let candidate_map := List.fold_left add_row rows [] in
  NoDup (List.map fst candidate_map) /\
  (forall e, In e candidate_map ->
     fst e <> "" /\
     exists row, In row rows /\ candidate_id_of row = fst e) /\
  (forall pre row post id,
     rows = pre ++ row :: post ->
     candidate_id_of row = id -> id <> "" ->
     (forall r, In r pre -> candidate_id_of r <> id) ->
     In (id, (get_or "" (row_ten_ung_vien row),
              get_or "" (row_cong_viec row))) candidate_map).
Proof.
  intros candidate_map. subst candidate_map.
  destruct (add_row_keys rows [] NoDup_nil_2) as (Hnd & _ & Hsrc);
    [by intros e []|].
  split; [done|]. split.
  { intros e He. destruct (Hsrc e He) as [Hne [[]|Hrow]]. done. }
  intros pre row post id -> Hid Hne Hpre.
  rewrite List.fold_left_app. cbn.
  pose proof (add_row_other pre [] id Hpre (fun H => H)) as Hout.
  set (acc := List.fold_left add_row pre []) in *.
  assert (NoDup (List.map fst acc) /\ forall e, In e acc -> fst e <> "")
    as [Hnd_acc Hne_acc].
  { destruct (add_row_keys pre [] NoDup_nil_2) as (H1 & _ & H3);
      [by intros e []|].
    split; [done|]. intros e He. by destruct (H3 e He). }
  assert (In (id, (get_or "" (row_ten_ung_vien row),
                   get_or "" (row_cong_viec row))) (add_row acc row))
    as Hin.
  { unfold add_row. cbv zeta. rewrite Hid.
    replace (falsy id) with false
      by (symmetry; by apply String.eqb_neq).
    replace (str_in id (List.map fst acc)) with false.
    - apply List.in_or_app. right. by left.
    - symmetry. apply not_true_iff_false. by rewrite str_in_In. }
  assert (NoDup (List.map fst (add_row acc row)) /\
          forall e, In e (add_row acc row) -> fst e <> "") as [Hnd1 Hne1].
  { destruct (add_row_keys [row] acc Hnd_acc Hne_acc) as (H1 & _ & H3).
    split; [done|]. intros e He. by destruct (H3 e He). }
  destruct (add_row_keys post _ Hnd1 Hne1) as (_ & Hkeep & _).
  by apply Hkeep.
Qed.

Section SheetResolution.

Variable upstream : Upstream.
Variable scorer : string -> list string -> option (list Q).
Variable sheet_configured : bool.

Lemma get_all_test_results_rows (w w' : World) (rows : list SheetRow) :
  get_all_test_results_from_google_sheet upstream sheet_configured w
  = (Returned (Some rows), w') ->
  rows = [] \/
  exists result,
    sheet_read_all upstream (length (trace w)) = Body result /\
    sheet_success result = true /\ sheet_data result = Some rows.
Proof.
  unfold get_all_test_results_from_google_sheet.
  destruct (negb sheet_configured); [by run|]. run.
  destruct (sheet_read_all upstream (length (trace w))) as [| |result];
    [done..|].
  destruct (sheet_data result) as [[|r rs]|] eqn:Hdata;
    [intros [= <- _]; by left| |intros [= <- _]; by left].
  destruct (sheet_success result) eqn:Hok; [|intros [= <- _]; by left].
  intros [= <- _]. right. by exists result.
Qed.

(** X7. An id that [find_candidate_id_in_google_sheet] returns is never
    empty and is the [candidate_id], as [str] renders it, of a row that
    the spreadsheet script returned with [success] (the id ["None"] stands
    for a row whose [candidate_id] is [null]); without such rows no id is
    returned. *)
Theorem sheet_candidate_id_is_listed (candidate_name opening_name : string)
    (threshold : Q) (w : World) (id : string) (s1 s2 : Q) :
  fst (find_candidate_id_in_google_sheet upstream scorer sheet_configured
         candidate_name opening_name threshold w)
  = Returned (Some id, s1, s2) ->
  id <> "" /\
  exists result rows row,
    sheet_read_all upstream (length (trace w)) = Body result /\
    sheet_success result = true /\ sheet_data result = Some rows /\
    In row rows /\ candidate_id_of row = id.
Proof.
  unfold find_candidate_id_in_google_sheet.
  destruct (negb sheet_configured || falsy candidate_name
            || falsy opening_name); [by run|].
  rewrite run_bind.
  destruct (get_all_test_results_from_google_sheet upstream sheet_configured w)
    as [[[rows|]|e] w'] eqn:Hall; [|by run..].
  apply get_all_test_results_rows in Hall as [->|(result & Hbody & Hok & Hdata)];
    [by run|].
  assert (forall e, In e (List.fold_left add_row rows []) ->
            fst e <> "" /\
            exists row, In row rows /\ candidate_id_of row = fst e)
    as Hmap.
  { destruct (add_row_keys rows [] NoDup_nil_2) as (_ & _ & Hsrc);
      [by intros e []|].
    intros e He. by destruct (Hsrc e He) as [Hne [[]|Hrow]]. }
  assert (forall e, In e (List.fold_left add_row rows []) -> fst e = id ->
            id <> "" /\
            exists result rows row,
              sheet_read_all upstream (length (trace w)) = Body result /\
              sheet_success result = true /\ sheet_data result = Some rows /\
              In row rows /\ candidate_id_of row = id) as Hdone.
  { intros e He <-. destruct (Hmap e He) as [Hne (row & Hrow & Hid)].
    split; [done|]. by exists result, rows, row. }
  destruct rows as [|r rows]; [by run|].
  revert Hmap Hdone. generalize (r :: rows) as rs. clear r rows Hdata.
  intros rs Hmap Hdone. cbv zeta.
  destruct (is_empty _); [by run|].
  destruct (List.find _ (List.fold_left add_row rs [])) as [x|] eqn:Hfind.
  { run. intros [= Hid _ _]. apply List.find_some in Hfind as [Hin _].
    by apply (Hdone x). }
  unfold try_except. rewrite run_bind.
  destruct (best_match scorer _ _ w') as [[[i best]|e] w2]; [|by run].
  destruct (Qle_bool threshold best); [|by run].
  destruct (List.fold_left add_row rs [] !! i) as [x|] eqn:Hi; [|by run].
  run. intros [= Hid _ _].
  apply list_elem_of_lookup_2, list_elem_of_In in Hi. by apply (Hdone x).
Qed.

End SheetResolution.

(** ** The loaders and the cache *)

Section LoaderFacts.

Variable upstream : Upstream.
Variable get_text : string -> string.
Variable ACCOUNT_API_KEY : option string.

(** X8. Each loader touches its own cache entry only and sends one
    request at most: [get_base_openings] leaves the job descriptions and
    the user directory of the cache alone, [get_job_descriptions] the
    openings and the directory, [get_users_info] the openings and the job
    descriptions; and after a call the trace is the one before, or has
    the loader's request in front of it. *)
Theorem loaders_keep_other_entries (now : Q) (api_key : string)
    (use_cache : bool) (w : World) :
  let w1 := snd (get_base_openings upstream now api_key use_cache w) in
  let w2 := snd (get_job_descriptions upstream get_text now api_key
                   use_cache w) in
  let w3 := snd (get_users_info upstream ACCOUNT_API_KEY now use_cache w) in
  (job_descriptions (cache w1) = job_descriptions (cache w) /\
   users_info (cache w1) = users_info (cache w) /\
   (trace w1 = trace w \/
    trace w1 = Request (OpeningList api_key) :: trace w)) /\
  (openings (cache w2) = openings (cache w) /\
   users_info (cache w2) = users_info (cache w) /\
   (trace w2 = trace w \/
    trace w2 = Request (OpeningList api_key) :: trace w)) /\
  (openings (cache w3) = openings (cache w) /\
   job_descriptions (cache w3) = job_descriptions (cache w) /\
   (trace w3 = trace w \/
    exists key, ACCOUNT_API_KEY = Some key /\
                trace w3 = Request (UserDirectory key) :: trace w)).
Proof.
  cbv zeta. split; [|split].
  - unfold get_base_openings. destruct (falsy api_key); [run; tauto|]. run.
    destruct (cached use_cache now (openings (cache w))); [run; tauto|]. run.
    destruct (opening_list upstream api_key (length (trace w)));
      [run; tauto..|].
    destruct use_cache; run; tauto.
  - unfold get_job_descriptions. destruct (falsy api_key); [run; tauto|]. run.
    destruct (cached use_cache now (job_descriptions (cache w)));
      [run; tauto|]. run.
    destruct (opening_list upstream api_key (length (trace w))) as [| |[l|]];
      [run; tauto..| |run; tauto].
    run. destruct (jd_results get_text l); [|run; tauto].
    destruct use_cache; run; tauto.
  - unfold get_users_info. destruct ACCOUNT_API_KEY as [key|]; [|run; tauto].
    destruct (falsy key); [run; tauto|]. run.
    destruct (cached use_cache now (users_info (cache w))); [run; tauto|]. run.
    destruct (user_list upstream key (length (trace w))) as [| |b]; run;
      try (split; [done|]; split; [done|]; right; by exists key).
    destruct (build_directory ∅ (default [] b)); run;
      [|split; [done|]; split; [done|]; right; by exists key].
    destruct use_cache; run; (split; [done|]; split; [done|]; right;
      by exists key).
Qed.

(** X9. When the opening list cannot be fetched (the request fails or the
    body is not JSON) and the cache has no fresh entry, [get_base_openings]
    and [get_job_descriptions] raise after their one request and leave the
    cache as it was: data that has expired is neither served nor dropped. *)
Theorem opening_fetch_failure_raises (now : Q) (api_key : string)
    (use_cache : bool) (w : World) :
  falsy api_key = false ->
  failed (opening_list upstream api_key (length (trace w))) ->
  let w1 := {| cache := cache w;
               trace := Request (OpeningList api_key) :: trace w |} in
  (cached use_cache now (openings (cache w)) = None ->
   exists e,
     get_base_openings upstream now api_key use_cache w = (Raised e, w1) /\
     (e = ConnectivityError \/ e = JSONDecodeError)) /\
  (cached use_cache now (job_descriptions (cache w)) = None ->
   exists e,
     get_job_descriptions upstream get_text now api_key use_cache w
     = (Raised e, w1) /\
     (e = ConnectivityError \/ e = JSONDecodeError)).
Proof.
  intros Hkey Hfail. cbv zeta. split; intros Hmiss.
  - unfold get_base_openings. rewrite Hkey. run. rewrite Hmiss. run.
    destruct (opening_list upstream api_key (length (trace w))); [..|done];
      run; eexists; (split; [reflexivity|]); tauto.
  - unfold get_job_descriptions. rewrite Hkey. run. rewrite Hmiss. run.
    destruct (opening_list upstream api_key (length (trace w))); [..|done];
      run; eexists; (split; [reflexivity|]); tauto.
Qed.

(** X10. A body without the key [openings] is handled differently by the
    two loaders of the opening list.  [get_base_openings] returns the
    empty list and caches it, so that until the entry expires it answers
    with the empty list without a request; [get_job_descriptions] returns
    the empty list as well but caches nothing, so that its next call
    sends the request again. *)
Theorem missing_openings_key (now : Q) (api_key : string) (w : World) :
  falsy api_key = false ->
  opening_list upstream api_key (length (trace w)) = Body None ->
  let sent := Request (OpeningList api_key) :: trace w in
  let w1 := {| cache := set_openings (cache w)
                          {| data := Some []; timestamp := now |};
               trace := sent |} in
  let w2 := {| cache := cache w; trace := sent |} in
  (cached true now (openings (cache w)) = None ->
   get_base_openings upstream now api_key true w = (Returned [], w1) /\
   forall t1, t1 < now + CACHE_TTL ->
     get_base_openings upstream t1 api_key true w1 = (Returned [], w1)) /\
  (cached true now (job_descriptions (cache w)) = None ->
   get_job_descriptions upstream get_text now api_key true w
   = (Returned [], w2) /\
   forall t1, now <= t1 ->
     fetch_count (snd (get_job_descriptions upstream get_text t1 api_key
                         true w2))
     = S (fetch_count w2)).
Proof.
  intros Hkey Hbody. cbv zeta. split; intros Hmiss.
  - split.
    + unfold get_base_openings. rewrite Hkey. run. rewrite Hmiss. run.
      rewrite Hbody. by run.
    + intros t1 Ht1. unfold get_base_openings. rewrite Hkey. run.
      unfold set_openings. cbn [openings].
      rewrite (cached_fresh _ _ _ Ht1). by run.
  - split.
    + unfold get_job_descriptions. rewrite Hkey. run. rewrite Hmiss. run.
      rewrite Hbody. by run.
    + intros t1 Ht1. unfold get_job_descriptions. rewrite Hkey. run.
      rewrite (cached_miss_later _ _ _ Hmiss Ht1). run.
      destruct (opening_list upstream api_key
                  (length (Request (OpeningList api_key) :: trace w)))
        as [| |[l|]]; run; try done.
      by destruct (jd_results get_text l).
Qed.

End LoaderFacts.

(** ** The user directory *)








(** ** The stage filter of the listing *)

Lemma filter_sublist {A} (f : A -> bool) (l : list A) :
  List.filter f l `sublist_of` l.
Proof.
  induction l as [|x l IH]; cbn; [constructor|].
  destruct (f x); by constructor.
Qed.

Lemma filter_by_stage_sublist (names : option (list string))
    (candidates : list Candidate) :
  filter_by_stage names candidates `sublist_of` candidates.
Proof. destruct names; cbn; [apply filter_sublist|done]. Qed.

Section StageFilter.

Variable scorer : string -> list string -> option (list Q).
Variable set_order : list string -> list string.

Lemma resolve_stage_names (stage_name : string) (candidates : list Candidate)
    (w : World) :
  exists names w1,
    resolve_stage scorer set_order stage_name candidates w
    = (Returned names, w1) /\
    cache w1 = cache w /\
    (names = None \/
     exists name, names = Some [name] /\
                  In name (all_stage_names set_order candidates)).
Proof.
  unfold resolve_stage. cbv zeta.
  destruct (is_empty _); [run; eexists _, _; split; [done|]; by auto|].
  destruct (str_in stage_name _) eqn:Hin.
  { run. eexists _, _. split; [done|]. split; [done|]. right.
    exists stage_name. split; [done|]. by apply str_in_In. }
  match goal with
  | |- context [try_except (best_match _ ?q ?p ≫= ?k) ?h ?w] =>
      destruct (try_best_match scorer q p k h w)
        as [[_ ->]|(sims & i & best & Hs & Hmax & ->)]
  end.
  { run. eexists _, _. split; [done|]. by auto. }
  destruct (Qle_bool stage_threshold best).
  2:{ unfold try_except. run. eexists _, _. split; [done|]. by auto. }
  unfold index.
  destruct (all_stage_names set_order candidates !! i) as [name|] eqn:Hi.
  - unfold try_except. run. eexists _, _. split; [done|]. split; [done|].
    right. exists name. split; [done|].
    by apply list_elem_of_lookup_2, list_elem_of_In in Hi.
  - unfold try_except. run. eexists _, _. split; [done|]. by auto.
Qed.

(** X12. The stage filter of the candidate listing never empties a list:
    given at least one candidate, [stage_filtered] returns a non-empty
    sub-list of the candidates, in their order, whatever stage name is
    asked for (an unknown stage gives all candidates back), and it leaves
    the cache alone. *)
Theorem stage_filter_keeps_someone (stage_name : option string)
    (candidates : list Candidate) (w : World) :
  same_elements (set_order (carried_stage_names candidates))
                (carried_stage_names candidates) = true ->
  candidates <> [] ->
  exists kept w1,
    stage_filtered scorer set_order stage_name candidates w
    = (Returned kept, w1) /\
    kept <> [] /\
    kept `sublist_of` candidates /\
    cache w1 = cache w.
Proof.
  intros Hset Hne. unfold stage_filtered.
  destruct stage_name as [s|].
  2:{ run. by eexists _, _. }
  destruct (resolve_stage_names s candidates w)
    as (names & w1 & Hres & Hcache & Hnames).
  rewrite (bind_returned _ _ _ _ _ Hres). run.
  eexists _, _. split; [done|].
  split; [|split; [apply filter_by_stage_sublist|done]].
  destruct Hnames as [->|(name & -> & Hin)]; [done|].
  apply (same_elements_In _ _ Hset), carried_stage_names_In in Hin
    as (c & Hc & Hstage & _).
  assert (In c (filter_by_stage (Some [name]) candidates)) as Hkept.
  { apply filter_by_stage_single. split; [done|]. by rewrite Hstage. }
  intros Hnil. by rewrite Hnil in Hkept.
Qed.

End StageFilter.

(** ** The job description of a resolved opening *)

(** X13. When the cached list of job descriptions is fresh but has no
    entry for the opening, the lookup of the tools fetches the opening
    list again and answers from the fetched list; the cache keeps the list
    without the entry, so that the same lookup sends the request again
    each time until the cached list expires. *)
Theorem stale_job_descriptions_are_refetched (upstream : Upstream)
    (get_text : string -> string) (t1 t2 : Q) (api_key opening_id : string)
    (w : World) (stale : list JobDescription) (l : list RawOpening) :
  falsy api_key = false ->
  cached true t1 (job_descriptions (cache w)) = Some stale ->
  jd_with_id opening_id stale = None ->
  opening_list upstream api_key (length (trace w)) = Body (Some l) ->
  let w1 := {| cache := cache w;
               trace := Request (OpeningList api_key) :: trace w |} in
  lookup_job_description upstream get_text t1 t2 api_key opening_id w
  = (match jd_results get_text l with
     | Returned results => Returned (jd_with_id opening_id results)
     | Raised e => Raised e
     end, w1) /\
  (forall t3 t4, t3 - timestamp (job_descriptions (cache w)) < CACHE_TTL ->
     fetch_count
       (snd (lookup_job_description upstream get_text t3 t4 api_key
               opening_id w1))
     = S (fetch_count w1)).
Proof.
  intros Hkey Hhit Hmiss Hbody. cbv zeta.
  assert (forall t w', cache w' = cache w ->
            t - timestamp (job_descriptions (cache w)) < CACHE_TTL ->
            get_job_descriptions upstream get_text t api_key true w'
            = (Returned stale, w')) as Hcached.
  { intros t w' Hc Ht. unfold get_job_descriptions. rewrite Hkey. run.
    rewrite Hc. apply cached_Some in Hhit as (_ & Hdata & _).
    assert (cached true t (job_descriptions (cache w)) = Some stale) as ->;
      [|done].
    by apply cached_Some. }
  assert (forall t w',
            exists r, get_job_descriptions upstream get_text t api_key false w'
                      = (r, {| cache := cache w';
                               trace := Request (OpeningList api_key)
                                        :: trace w' |}) /\
                      forall l', opening_list upstream api_key
                                   (length (trace w')) = Body (Some l') ->
                                 r = jd_results get_text l')
    as Hbypass.
  { intros t w'. unfold get_job_descriptions. rewrite Hkey. run.
    rewrite cached_bypass. run.
    destruct (opening_list upstream api_key (length (trace w')))
      as [| |[l'|]]; run.
    1,2,4: eexists; (split; [reflexivity|]); done.
    destruct (jd_results get_text l') as [results|e] eqn:Hl'; run;
      eexists; (split; [reflexivity|]); intros l'' [= <-]; by rewrite Hl'. }
  split.
  - unfold lookup_job_description.
    rewrite (bind_returned _ _ _ _ _ (Hcached t1 w eq_refl
               (proj2 (proj2 (proj1 (cached_Some _ _ _ _) Hhit))))).
    rewrite Hmiss.
    destruct (Hbypass t2 w) as (r & Hr & Hl). rewrite run_bind, Hr.
    rewrite (Hl l Hbody). by destruct (jd_results get_text l).
  - intros t3 t4 Ht3. unfold lookup_job_description.
    rewrite (bind_returned _ _ _ _ _
               (Hcached t3 {| cache := cache w;
                              trace := Request (OpeningList api_key)
                                       :: trace w |} eq_refl Ht3)).
    rewrite Hmiss.
    match goal with |- context [(_ ≫= _) ?w'] =>
      destruct (Hbypass t4 w') as (r & Hr & _) end.
    rewrite run_bind, Hr. by destruct r.
Qed.

(** ** The job-description tool *)

Section JobDescriptionToolFacts.

Variable upstream : Upstream.
Variable scorer : string -> list string -> option (list Q).
Variable get_text : string -> string.
Variable BASE_API_KEY : string.
Variable get_opening_stages : string -> string -> M (list string).

(** An opening that the resolver accepts is one of the pool, and its score
    reaches the threshold. *)
Lemma find_opening_sound (now : Q) (query api_key : string) (threshold : Q)
    (w : World) (id : string) (name : option string) (score : Q) :
  threshold <= 1 ->
  fst (find_opening_id_by_name upstream scorer now query api_key threshold w)
  = Returned (Some id, name, score) ->
  threshold <= score /\
  exists pool op,
    fst (get_base_openings upstream now api_key true w) = Returned pool /\
    In op pool /\ op_id op = id /\ name = Some (op_name op).
Proof.
  intros Hthr.
  destruct (get_base_openings upstream now api_key true w) as [[pool|e] w1]
    eqn:Hfetch.
  2:{ by rewrite (find_opening_propagates _ _ _ _ _ _ _ _ _ Hfetch). }
  rewrite (find_opening_after_fetch _ _ _ _ _ _ _ _ _ Hfetch).
  destruct (is_empty pool); [by run|].
  destruct (List.find (exact_opening query) pool) as [op|] eqn:Hfind.
  { run. intros [= <- <- <-]. apply List.find_some in Hfind as [Hin _].
    split; [done|]. by exists pool, op. }
  destruct (is_empty (List.map op_name pool)); [by run|].
  unfold try_except. rewrite run_bind.
  destruct (best_match scorer query (List.map op_name pool) w1)
    as [[[i best]|e] w2]; [|by run].
  destruct (Qle_bool threshold best) eqn:Hbest; [|by run].
  unfold index. destruct (pool !! i) as [op|] eqn:Hi; [|by run].
  run. intros [= <- <- <-]. split; [by apply Qle_bool_iff|].
  exists pool, op. split; [done|]. split; [|done].
  by apply list_elem_of_lookup_2, list_elem_of_In in Hi.
Qed.

Lemma lookup_job_description_id (t1 t2 : Q) (api_key opening_id : string)
    (w : World) (jd : JobDescription) :
  fst (lookup_job_description upstream get_text t1 t2 api_key opening_id w)
  = Returned (Some jd) ->
  jd_id jd = opening_id.
Proof.
  unfold lookup_job_description. rewrite run_bind.
  destruct (get_job_descriptions upstream get_text t1 api_key true w)
    as [[jds|e] w1]; [|done].
  destruct (jd_with_id opening_id jds) as [x|] eqn:Hfind.
  { run. intros [= <-]. apply List.find_some in Hfind as [_ Hid].
    by apply String.eqb_eq in Hid. }
  rewrite run_bind.
  destruct (get_job_descriptions upstream get_text t2 api_key false w1)
    as [[jds'|e] w2]; [|done].
  run. intros [= Hfind']. apply List.find_some in Hfind' as [_ Hid].
  by apply String.eqb_eq in Hid.
Qed.

(** X14. When the job-description tool answers with a job description,
    the query was not empty, the opening it names has a non-empty id, was
    in the list of active openings that the resolver searched and matched
    the query with a score of 0.5 at least, and the text is the one of the
    entry, stored under the id of that opening, that the lookup of the
    job description returns after the resolution. *)
Theorem job_description_answer_is_sound (t1 t2 t3 t4 : Q)
    (opening_name_or_id : option string) (w : World) (query id : string)
    (name : option string) (score : Q) (text : string)
    (stages : list string) :
  fst (get_job_description upstream scorer get_text BASE_API_KEY
         get_opening_stages t1 t2 t3 t4 opening_name_or_id w)
  = Returned (FoundJobDescription query id name score text stages) ->
  let w1 := snd (get_base_openings upstream t1 BASE_API_KEY true w) in
  let w2 := snd (find_opening_id_by_name upstream scorer t2 query BASE_API_KEY
                   (1 # 2) w1) in
  opening_name_or_id = Some query /\ query <> "" /\ id <> "" /\
  1 # 2 <= score /\
  (exists pool op,
     fst (get_base_openings upstream t2 BASE_API_KEY true w1) = Returned pool
     /\ In op pool /\ op_id op = id /\ name = Some (op_name op)) /\
  (exists jd,
     fst (lookup_job_description upstream get_text t3 t4 BASE_API_KEY id w2)
     = Returned (Some jd) /\
     jd_id jd = id /\ job_description jd = text).
Proof.
  unfold get_job_description. rewrite run_bind.
  destruct (get_base_openings upstream t1 BASE_API_KEY true w)
    as [[openings|e] w1]; [|done].
  destruct (truthy opening_name_or_id) eqn:Hquery; [|by run].
  apply truthy_Some in Hquery as (q & -> & Hq). cbn [negb]. cbv zeta.
  change (default "" (Some q)) with q.
  rewrite run_bind.
  destruct (find_opening_id_by_name upstream scorer t2 q BASE_API_KEY
              (1 # 2) w1) as [[[[oid nm] sc]|e] w2] eqn:Hfind; [|done].
  destruct (truthy oid) eqn:Hoid; [|by run].
  apply truthy_Some in Hoid as (id' & -> & Hid'). cbn [negb].
  change (default "" (Some id')) with id'.
  rewrite run_bind.
  destruct (lookup_job_description upstream get_text t3 t4 BASE_API_KEY id' w2)
    as [[[jd|]|e] w3] eqn:Hjd; [|by run|done].
  rewrite run_bind.
  destruct (get_opening_stages id' BASE_API_KEY w3) as [[st|e] w4]; [|done].
  run. intros [= <- <- <- <- <- <-].
  destruct (find_opening_sound t2 q BASE_API_KEY (1 # 2) w1 id' nm sc)
    as [Hscore Hpool]; [by compute|by rewrite Hfind|].
  cbn [snd]. rewrite Hfind. cbn [snd].
  repeat (split; [done|]).
  exists jd. rewrite Hjd. split; [done|]. split; [|done].
  apply (lookup_job_description_id t3 t4 BASE_API_KEY id' w2). by rewrite Hjd.
Qed.

End JobDescriptionToolFacts.

(** ** Files *)

Lemma lower_eqb_question (a : ascii) :
  Ascii.eqb (Tfidf.lower a) "?" = Ascii.eqb a "?".
Proof. by destruct a as [[] [] [] [] [] [] [] []]. Qed.

Lemma before_lower (s : string) :
  before "?" (str_lower s) = str_lower (before "?" s).
Proof.
  induction s as [|a s IH]; [done|]. cbn. rewrite lower_eqb_question.
  destruct (Ascii.eqb a "?"); [done|]. cbn. by rewrite IH.
Qed.

Lemma before_idem (sep : ascii) (s : string) :
  before sep (before sep s) = before sep s.
Proof.
  induction s as [|a s IH]; [done|]. cbn.
  destruct (Ascii.eqb a sep) eqn:E; [done|]. cbn. by rewrite E, IH.
Qed.

(** X15. [is_target_file] looks at the part of the URL before its first
    question mark only: a query string, whatever it holds, changes
    nothing, so a signed link to a PDF is recognised and a link whose
    query alone ends in [.pdf] is not. *)
Theorem target_file_ignores_query (url name : string) :
  before "?" url <> "" ->
  is_target_file url name = is_target_file (before "?" url) name.
Proof.
  intros Hne. unfold is_target_file.
  assert (falsy url = false) as ->.
  { destruct url; [done|]. done. }
  assert (falsy (before "?" url) = false) as ->.
  { by destruct (before "?" url). }
  by rewrite !before_lower, before_idem.
Qed.

(** ** Offer letters *)

Section OfferLetterFacts.

Variable Bytes : Type.
Variable download : string -> option Bytes.
Variable pdf_text : Bytes -> option string.
Variable docx_text : Bytes -> option string.
Variable DOCX_AVAILABLE : bool.
Variable anchors : string -> list (string * string).

Lemma first_readable_Some (files : list (string * string))
    (letter : OfferLetter) :
  first_readable Bytes download pdf_text docx_text DOCX_AVAILABLE files
  = Some letter ->
  In (ol_url letter, ol_name letter) files /\
  file_text Bytes download pdf_text docx_text DOCX_AVAILABLE
    (ol_url letter) (ol_name letter) = Some (ol_text letter).
Proof.
  induction files as [|[u n] files IH]; [done|]. cbn.
  destruct (file_text _ _ _ _ _ u n) as [t|] eqn:Ht.
  - intros [= <-]. cbn. split; [by left|done].
  - intros H. destruct (IH H) as [Hin Htext]. split; [by right|done].
Qed.

Lemma all_files_targets (msg : Message) (files : list (string * string))
    (u n : string) :
  all_files anchors msg = Some files -> In (u, n) files ->
  is_target_file u n = true.
Proof.
  unfold all_files. destruct (msg_has_attachment msg) as [k|]; [|done].
  cbv zeta. intros [= <-] Hin.
  apply List.in_app_or in Hin as [Hin|Hin].
  - destruct (0 <? k)%Z; [|done].
    apply List.in_flat_map in Hin as (att & _ & Hatt).
    unfold priority_file in Hatt. cbv zeta in Hatt.
    destruct (truthy _ && is_target_file _ _) eqn:E; [|done].
    destruct Hatt as [[= <- <-]|[]]. by apply andb_prop in E as [_ E].
  - destruct (is_empty _); [|done]. unfold find_files_in_html in Hin.
    destruct (falsy (msg_content msg)); [done|].
    apply List.in_flat_map in Hin as (a & _ & Ha). cbv zeta in Ha.
    destruct (is_target_file _ _) eqn:E; [|done].
    by destruct Ha as [[= <- <-]|[]].
Qed.

Lemma scan_messages_Some (messages : list Message) (letter : OfferLetter) :
  scan_messages Bytes download pdf_text docx_text DOCX_AVAILABLE anchors
    messages = Some letter ->
  exists msg files,
    In msg messages /\ all_files anchors msg = Some files /\
    first_readable Bytes download pdf_text docx_text DOCX_AVAILABLE files
    = Some letter.
Proof.
  induction messages as [|msg messages IH]; [done|]. cbn.
  destruct (all_files anchors msg) as [files|] eqn:Hfiles; [|done].
  destruct (first_readable _ _ _ _ _ files) as [l|] eqn:Hfirst.
  - intros [= <-]. exists msg, files. split; [by left|done].
  - intros H. destruct (IH H) as (m & f & Hin & Hf & Hr).
    exists m, f. split; [by right|done].
Qed.

(** X16. An offer letter that [get_offer_letter] returns comes from a
    file of one of the candidate's messages that [is_target_file]
    accepts, that could be downloaded, and whose text is not empty; the
    text was read as PDF when the extension contains [pdf], and as DOCX
    when it contains [docx] and the DOCX reader is available.  A legacy
    [.doc] file, although accepted as a target, never gives a letter. *)
Theorem offer_letter_is_readable_target (candidate_id api_key : string)
    (response : Response (option (list Message))) (letter : OfferLetter) :
  get_offer_letter Bytes download pdf_text docx_text DOCX_AVAILABLE anchors
    candidate_id api_key response = Some letter ->
  let ext := file_ext (ol_url letter) (ol_name letter) in
  exists messages msg files file_bytes,
    response = Body (Some messages) /\ In msg messages /\
    all_files anchors msg = Some files /\
    In (ol_url letter, ol_name letter) files /\
    is_target_file (ol_url letter) (ol_name letter) = true /\
    download (ol_url letter) = Some file_bytes /\
    ol_text letter <> "" /\
    ext <> "doc" /\
    ((contains "pdf" ext = true /\
      pdf_text file_bytes = Some (ol_text letter)) \/
     (contains "pdf" ext = false /\ contains "docx" ext = true /\
      DOCX_AVAILABLE = true /\
      docx_text file_bytes = Some (ol_text letter))).
Proof.
  unfold get_offer_letter.
  destruct (falsy candidate_id || falsy api_key); [done|].
  destruct response as [| |[messages|]]; try done.
  intros H. apply scan_messages_Some in H as (msg & files & Hmsg & Hfiles & H).
  apply first_readable_Some in H as [Hin Htext].
  cbv zeta. exists messages, msg, files.
  unfold file_text, download_file_to_bytes in Htext.
  destruct (falsy (ol_url letter)); [done|].
  destruct (download (ol_url letter)) as [file_bytes|]; [|done].
  exists file_bytes. split; [done|]. split; [done|]. split; [done|].
  split; [done|]. split; [by apply (all_files_targets msg files)|].
  split; [done|]. cbv zeta in Htext.
  set (ext := file_ext (ol_url letter) (ol_name letter)) in *.
  assert (ol_text letter <> "" /\
          ((contains "pdf" ext = true /\
            pdf_text file_bytes = Some (ol_text letter)) \/
           (contains "pdf" ext = false /\ contains "docx" ext = true /\
            DOCX_AVAILABLE = true /\
            docx_text file_bytes = Some (ol_text letter)))) as [Hne Hread].
  { destruct (contains "pdf" ext) eqn:Hpdf.
    - unfold extract_text_from_pdf in Htext.
      destruct (pdf_text file_bytes) as [t|]; [|done].
      destruct (falsy t) eqn:Ht; [done|]. injection Htext as <-.
      split; [by apply String.eqb_neq in Ht|]. by left.
    - destruct (contains "docx" ext) eqn:Hdocx;
        [|by destruct (String.eqb "doc" ext)].
      destruct DOCX_AVAILABLE eqn:Hav; cbn [andb] in Htext;
        [|by destruct (String.eqb "doc" ext)].
      unfold extract_text_from_docx in Htext. cbn [negb] in Htext.
      destruct (docx_text file_bytes) as [t|]; [|done].
      destruct (falsy t) eqn:Ht; [done|]. rewrite Ht in Htext.
      injection Htext as <-.
      split; [by apply String.eqb_neq in Ht|]. by right. }
  split; [done|]. split; [|done].
  intros Hdoc. rewrite Hdoc in Hread.
  by destruct Hread as [[? _]|(_ & ? & _)].
Qed.

(** X17. The links in the text of a message are looked at only when the
    message has no attachment that is a target file: when it has one,
    [get_offer_letter] gives the same answer whatever the text of that
    message is, also when none of the attachments can be read. *)
Theorem attachments_hide_links (candidate_id api_key : string)
    (pre post : list Message) (msg : Message) (n : Z) (content' : string) :
  msg_has_attachment msg = Number n ->
  (0 < n)%Z ->
  List.flat_map priority_file (msg_attachments msg) <> [] ->
  let msg' := {| msg_has_attachment := msg_has_attachment msg;
                 msg_attachments := msg_attachments msg;
                 msg_content := content' |} in
  get_offer_letter Bytes download pdf_text docx_text DOCX_AVAILABLE anchors
    candidate_id api_key (Body (Some (pre ++ msg' :: post)))
  = get_offer_letter Bytes download pdf_text docx_text DOCX_AVAILABLE anchors
      candidate_id api_key (Body (Some (pre ++ msg :: post))).
Proof.
  intros Hn Hpos Hatt. cbv zeta. unfold get_offer_letter.
  destruct (falsy candidate_id || falsy api_key); [done|].
  induction pre as [|m pre IH]; cbn.
  - unfold all_files. cbn [msg_has_attachment msg_attachments msg_content].
    rewrite Hn. cbv zeta.
    replace (0 <? n)%Z with true by (symmetry; by apply Z.ltb_lt).
    by destruct (List.flat_map priority_file (msg_attachments msg)).
  - destruct (all_files anchors m); [|done].
    by destruct (first_readable _ _ _ _ _ _).
Qed.

End OfferLetterFacts.

(** ** Interviews *)

Section InterviewFacts.

Variable to_hcm : Z -> Conversion.
Variable strptime : string -> option Z.

Lemma process_interviews_In (filter_date s e : option Z)
    (interviews : list Interview) (l : list ProcessedInterview) :
  process_interviews to_hcm filter_date s e interviews = inr l ->
  forall p,
    In p l <->
    exists iv t,
      In iv interviews /\ time_dt to_hcm iv = inr t /\
      passes filter_date s e (snd <$> t) = true /\ p = processed iv t.
Proof.
  revert l. induction interviews as [|iv ivs IH]; intros l; cbn.
  { intros [= <-] p. split; [done|]. by intros (? & ? & [] & _). }
  destruct (time_dt to_hcm iv) as [err|t] eqn:Ht; [done|].
  destruct (process_interviews to_hcm filter_date s e ivs) as [err|l'];
    [done|].
  specialize (IH l' eq_refl).
  destruct (passes filter_date s e (snd <$> t)) eqn:Hp; intros [= <-] p.
  - cbn. rewrite IH. split.
    + intros [<-|(iv' & t' & Hin & H)]; [by exists iv, t; auto|].
      exists iv', t'. by auto.
    + intros (iv' & t' & [<-|Hin] & Ht' & Hp' & ->).
      * left. congruence.
      * right. by exists iv', t'.
  - rewrite IH. split.
    + intros (iv' & t' & Hin & H). exists iv', t'. by auto.
    + intros (iv' & t' & [<-|Hin] & Ht' & Hp' & ->).
      * congruence.
      * by exists iv', t'.
Qed.

(** X18. With a start or an end date and no [filter_date],
    [get_interviews] returns exactly the interviews (of the opening, when
    one is asked for) whose time converts to a day of the range, both ends
    included; interviews without a usable time are dropped. *)
Theorem interviews_within_range (iv0 : Interview) (ivs : list Interview)
    (start_date end_date : DateArg) (opening_id : option string)
    (s e : option Z) (l : list ProcessedInterview) :
  date_object strptime start_date = inr s ->
  date_object strptime end_date = inr e ->
  given s || given e = true ->
  get_interviews to_hcm strptime (Body (Some (iv0 :: ivs))) start_date
    end_date opening_id None = inr l ->
  forall p,
    In p l <->
    exists iv t iso day,
      In iv (iv0 :: ivs) /\
      (truthy opening_id = true -> iv_opening_id iv = opening_id) /\
      iv_time iv = Timestamp t /\ to_hcm t = Converted iso day /\
      (forall x, s = Some x -> (x <= day)%Z) /\
      (forall x, e = Some x -> (day <= x)%Z) /\
      p = processed iv (Some (iso, day)).
Proof.
  intros Hs He Hgiven. unfold get_interviews. rewrite Hs, He. cbv zeta.
  intros Hl p. rewrite (process_interviews_In _ _ _ _ _ Hl). clear Hl.
  unfold passes. rewrite Hgiven. split.
  - intros (iv & t & Hin & Ht & Hp & ->).
    destruct t as [[iso day]|]; [|done]. cbn in Hp.
    apply andb_prop in Hp as [Hp1 Hp2].
    unfold time_dt in Ht.
    destruct (iv_time iv) as [| |ts] eqn:Htime; try done.
    destruct (to_hcm ts) as [iso' day'| |] eqn:Hconv; try done.
    injection Ht as -> ->.
    exists iv, ts, iso, day.
    split; [|split; [|split; [done|split; [done|split; [|split; [|done]]]]]].
    + destruct (truthy opening_id) eqn:Hid; [|done].
      apply List.filter_In in Hin. by destruct Hin.
    + intros Hid. rewrite Hid in Hin. apply List.filter_In in Hin as [_ Hin].
      unfold of_opening in Hin. apply truthy_Some in Hid as (id & -> & _).
      destruct (iv_opening_id iv) as [id'|]; [|done].
      by apply String.eqb_eq in Hin as ->.
    + intros x ->. apply negb_true_iff, Z.ltb_ge in Hp1. done.
    + intros x ->. apply negb_true_iff, Z.ltb_ge in Hp2. done.
  - intros (iv & t & iso & day & Hin & Hid & Htime & Hconv & Hlo & Hhi & ->).
    exists iv, (Some (iso, day)). split; [|split; [|split; [|done]]].
    + destruct (truthy opening_id) eqn:Ho; [|done].
      apply List.filter_In. split; [done|]. unfold of_opening.
      rewrite (Hid eq_refl). apply truthy_Some in Ho as (id & -> & _).
      apply String.eqb_refl.
    + unfold time_dt. by rewrite Htime, Hconv.
    + cbn. apply andb_true_intro. split; apply negb_true_iff.
      * destruct s as [x|]; [|done]. apply Z.ltb_ge. by apply Hlo.
      * destruct e as [x|]; [|done]. apply Z.ltb_ge. by apply Hhi.
Qed.

(** X19. With [filter_date], the start and the end date are not used for
    filtering: the answer is the one of the call without them.  They are
    still parsed, though, once the upstream lists an interview: a
    malformed date string then raises [ValueError], and only then. *)
Theorem filter_date_overrides_range
    (response : Response (option (list Interview)))
    (start_date end_date : DateArg) (opening_id : option string)
    (filter_date : Z) :
  let result := get_interviews to_hcm strptime response start_date end_date
                  opening_id (Some filter_date) in
  (result = inl MalformedDate \/
   result = get_interviews to_hcm strptime response NoDate NoDate opening_id
              (Some filter_date)) /\
  (result = inl MalformedDate <->
   (exists iv ivs, response = Body (Some (iv :: ivs))) /\
   (date_object strptime start_date = inl MalformedDate \/
    date_object strptime end_date = inl MalformedDate)).
Proof.
  assert (forall arg, date_object strptime arg = inl MalformedDate \/
                      exists d, date_object strptime arg = inr d) as Hdate.
  { intros [|d|str]; cbn; [by eauto..|].
    destruct (falsy str); [by eauto|]. destruct (strptime str); by eauto. }
  assert (forall s e ivs,
            process_interviews to_hcm (Some filter_date) s e ivs
            = process_interviews to_hcm (Some filter_date) None None ivs)
    as Hsame.
  { intros s e ivs. induction ivs as [|iv ivs IH]; [done|].
    cbn -[time_dt]. by rewrite IH. }
  assert (forall s e ivs,
            process_interviews to_hcm (Some filter_date) s e ivs
            <> inl MalformedDate) as Hloop.
  { intros s e ivs. induction ivs as [|iv ivs IH]; [done|].
    cbn -[time_dt passes].
    destruct (time_dt to_hcm iv) as [err|t] eqn:Ht.
    { unfold time_dt in Ht. destruct (iv_time iv) as [| |ts]; try done.
      destruct (to_hcm ts); try done. congruence. }
    destruct (process_interviews to_hcm (Some filter_date) s e ivs);
      [done|].
    by destruct (passes (Some filter_date) s e (snd <$> t)). }
  cbv zeta. unfold get_interviews.
  destruct response as [| |[[|iv ivs]|]].
  1-3,5: split; [by right|]; split; [done|]; by intros [(? & ? & ?) _].
  cbv zeta.
  destruct (Hdate start_date) as [Hs|[s Hs]]; rewrite Hs.
  { split; [by left|]. split; [|done]. intros _. split; [by eauto|by left]. }
  destruct (Hdate end_date) as [He|[e He]]; rewrite He.
  { split; [by left|]. split; [|done]. intros _. split; [by eauto|by right]. }
  cbn [date_object]. split; [right; apply Hsame|].
  split; [by intros H%Hloop|]. intros [_ [?|?]]; congruence.
Qed.

End InterviewFacts.

(** ** The flat record of a candidate *)

Section CandidateDetailsFacts.

Context {Value : Type}.
Variable null : Value.

Lemma flatten_other (l : list (Field Value)) (acc : gmap string Value)
    (k : string) :
  (forall x, In x l -> fd_id x <> Some k) ->
  List.fold_left
    (fun flat_dict item =>
       match fd_id item with
       | Some k => <[k := default null (fd_value item)]> flat_dict
       | None => flat_dict
       end) l acc !! k = acc !! k.
Proof.
  revert acc. induction l as [|x l IH]; intros acc Hl; [done|]. cbn.
  rewrite IH; [|by intros y Hy; apply Hl; right].
  assert (fd_id x <> Some k) as Hx by (apply Hl; by left).
  destruct (fd_id x) as [j|]; [|done].
  apply lookup_insert_ne. congruence.
Qed.

Lemma flatten_fields_other (field_list : option (list (Field Value)))
    (k : string) :
  (forall x, In x (default [] field_list) -> fd_id x <> Some k) ->
  flatten_fields null field_list !! k = None.
Proof.
  intros Hl. destruct field_list as [l|]; [|done]. cbn.
  by rewrite flatten_other.
Qed.

Lemma flatten_fields_last (pre post : list (Field Value)) (item : Field Value)
    (k : string) :
  fd_id item = Some k ->
  (forall x, In x post -> fd_id x <> Some k) ->
  flatten_fields null (Some (pre ++ item :: post)) !! k
  = Some (default null (fd_value item)).
Proof.
  intros Hk Hpost. cbn. rewrite List.fold_left_app. cbn.
  rewrite flatten_other; [|done]. rewrite Hk. apply lookup_insert_eq.
Qed.

(** X20. In the flat record of [get_candidate_details] a key of the
    custom data wins over a main field of the same name, [form] wins over
    [fields], within each list the last element with the key wins, and
    nothing overrides [reviews]: a custom field with the id [email] or
    [id] replaces the candidate's own value. *)
Theorem details_merge_order (refined_data : gmap string Value)
    (fields form : option (list (Field Value))) (reviews : Value) :
  let merged := merge_details null refined_data fields form reviews in
  merged !! "reviews" = Some reviews /\
  (forall k pre item post,
     k <> "reviews" ->
     form = Some (pre ++ item :: post) -> fd_id item = Some k ->
     (forall x, In x post -> fd_id x <> Some k) ->
     merged !! k = Some (default null (fd_value item))) /\
  (forall k pre item post,
     k <> "reviews" ->
     (forall x, In x (default [] form) -> fd_id x <> Some k) ->
     fields = Some (pre ++ item :: post) -> fd_id item = Some k ->
     (forall x, In x post -> fd_id x <> Some k) ->
     merged !! k = Some (default null (fd_value item))) /\
  (forall k,
     k <> "reviews" ->
     (forall x, In x (default [] form) -> fd_id x <> Some k) ->
     (forall x, In x (default [] fields) -> fd_id x <> Some k) ->
     merged !! k = refined_data !! k).
Proof.
  cbv zeta. unfold merge_details, update. cbv zeta.
  split; [apply lookup_insert_eq|]. split; [|split].
  - intros k pre item post Hk -> Hid Hpost.
    rewrite lookup_insert_ne; [|done].
    apply lookup_union_Some_l. by apply flatten_fields_last.
  - intros k pre item post Hk Hform -> Hid Hpost.
    rewrite lookup_insert_ne; [|done].
    rewrite lookup_union_r; [|by apply flatten_fields_other].
    apply lookup_union_Some_l. by apply flatten_fields_last.
  - intros k Hk Hform Hfields.
    rewrite lookup_insert_ne; [|done].
    rewrite lookup_union_r; [|by apply flatten_fields_other].
    by rewrite lookup_union_r; [|by apply flatten_fields_other].
Qed.

End CandidateDetailsFacts.

(** ** Reviews *)

Lemma get_users_info_failure (upstream : Upstream) (key : string)
    (use_cache : bool) (now : Q) (w : World) :
  falsy key = false ->
  cached use_cache now (users_info (cache w)) = None ->
  users_fetch_fails (user_list upstream key (length (trace w))) = true ->
  get_users_info upstream (Some key) now use_cache w
  = (Returned ∅, {| cache := cache w;
                    trace := Request (UserDirectory key) :: trace w |}).
Proof.
  intros Hkey Hmiss Hfail. unfold get_users_info. rewrite Hkey. run.
  rewrite Hmiss. run. unfold users_fetch_fails in Hfail.
  destruct (user_list upstream key (length (trace w))) as [| |b]; run;
    [done..|].
  destruct (build_directory ∅ (default [] b)); [done|]. by run.
Qed.

(** X21. The reviews of a candidate do not depend on the user directory
    being reachable: when its fetch fails, [process_evaluations] still
    returns one review for each evaluation that has a content, after one
    request and with the cache as it was; each review then has an empty
    title and carries the reviewer's username as the name, or [N/A] when
    the evaluation has none. *)
Theorem reviews_survive_directory_failure (upstream : Upstream)
    (key : string) (unescape : string -> string) (now : Q)
    (ev : Evaluation) (evs : list Evaluation) (w : World) :
  falsy key = false ->
  cached true now (users_info (cache w)) = None ->
  users_fetch_fails (user_list upstream key (length (trace w))) = true ->
  exists reviews,
    process_evaluations upstream (Some key) unescape now (Some (ev :: evs)) w
    = (Returned reviews,
       {| cache := cache w;
          trace := Request (UserDirectory key) :: trace w |}) /\
    length reviews
    = length (List.filter (fun e => bool_decide (ev_content e <> None))
                          (ev :: evs)) /\
    forall r, In r reviews ->
      rv_title r = "" /\
      exists e content,
        In e (ev :: evs) /\ ev_content e = Some content /\
        rv_id r = ev_id e /\
        rv_content r = remove_html_tags unescape content /\
        rv_name r = (if truthy (ev_username e)
                     then default "" (ev_username e) else "N/A").
Proof.
  intros Hkey Hmiss Hfail.
  exists (List.flat_map (review unescape ∅) (ev :: evs)).
  split; [|split].
  - unfold process_evaluations.
    by rewrite (bind_returned _ _ _ _ _
                  (get_users_info_failure _ _ _ _ _ Hkey Hmiss Hfail)).
  - generalize (ev :: evs) as l. intros l.
    induction l as [|e l IH]; [done|]. cbn -[review].
    rewrite List.length_app, IH. unfold review at 1.
    by destruct (ev_content e).
  - intros r Hr. apply List.in_flat_map in Hr as (e & He & Hr).
    unfold review in Hr. destruct (ev_content e) as [content|] eqn:Hc; [|done].
    cbv zeta in Hr.
    assert ((if truthy (ev_username e)
             then (∅ : gmap string UserInfo) !! default "" (ev_username e)
             else None) = None) as Hnone.
    { by destruct (truthy (ev_username e)). }
    rewrite Hnone in Hr. destruct Hr as [<-|[]]. cbn.
    split; [done|]. by exists e, content.
Qed.

(** ** Removing markup *)

Lemma append_nil (s : string) : "" +:+ s = s.
Proof. reflexivity. Qed.

Lemma append_cons (a : ascii) (s1 s2 : string) :
  String a s1 +:+ s2 = String a (s1 +:+ s2).
Proof. reflexivity. Qed.

Lemma tag_free_nil : tag_free "".
Proof.
  intros [|a pre] post; [rewrite append_nil|rewrite append_cons];
    [by intros <-|done].
Qed.

Lemma tag_free_cons (a : ascii) (s : string) :
  tag_free (String a s) <-> tag_match (String a s) = None /\ tag_free s.
Proof.
  split.
  - intros H. split; [by apply (H "")|].
    intros pre post ->. by apply (H (String a pre)).
  - intros [Hhere Hrest] [|b pre] post.
    + rewrite append_nil. by intros <-.
    + rewrite append_cons. intros [= <- ->]. by apply (Hrest pre).
Qed.

Lemma until_gt_None (a : ascii) (s : string) :
  until_gt (String a s) = None <->
  Ascii.eqb a ">" = false /\ until_gt s = None.
Proof.
  cbn. destruct (Ascii.eqb a ">"); [by intuition|].
  destruct (until_gt s); by intuition.
Qed.

Lemma until_gt_0 (a : ascii) (s : string) :
  until_gt (String a s) = Some 0%nat <-> Ascii.eqb a ">" = true.
Proof.
  cbn. destruct (Ascii.eqb a ">"); [done|].
  destruct (until_gt s); by intuition.
Qed.

(** A [<] starts no tag when it is followed by [>] at once or by no [>]
    at all. *)
Lemma tag_match_None (a : ascii) (s : string) :
  tag_match (String a s) = None <->
  Ascii.eqb a "<" = false \/ until_gt s = None \/ until_gt s = Some 0%nat.
Proof.
  cbn. destruct (Ascii.eqb a "<"); [|by intuition].
  destruct (until_gt s) as [[|n]|]; intuition congruence.
Qed.

Lemma until_gt_re_sub (s : string) (n : nat) :
  until_gt s = None -> until_gt (re_sub tag_match "" n s) = None.
Proof.
  revert n. induction s as [|a s IH]; intros n; [done|].
  intros [Ha Hs]%until_gt_None. destruct n as [|n]; cbn -[tag_match].
  - assert (tag_match (String a s) = None) as ->.
    { apply tag_match_None. by auto. }
    apply until_gt_None. by auto.
  - by apply IH.
Qed.

Lemma re_sub_tag_free (s : string) (n : nat) :
  tag_free (re_sub tag_match "" n s).
Proof.
  revert n. induction s as [|a s IH]; intros n; [apply tag_free_nil|].
  destruct n as [|n]; cbn -[tag_match]; [|apply IH].
  destruct (tag_match (String a s)) as [[|m]|] eqn:E; [|apply IH|].
  { exfalso. cbn in E. destruct (Ascii.eqb a "<"); [|done].
    destruct (until_gt s) as [[|k]|]; try done. injection E. lia. }
  apply tag_free_cons. split; [|apply IH].
  apply tag_match_None. apply tag_match_None in E as [E|[E|E]]; [by left| |].
  - right. left. by apply until_gt_re_sub.
  - right. right. destruct s as [|b s]; [done|].
    apply until_gt_0 in E. cbn -[tag_match].
    assert (tag_match (String b s) = None) as ->.
    { apply tag_match_None. left. apply Ascii.eqb_eq in E as ->. done. }
    by apply until_gt_0.
Qed.

Lemma without_some_refl (s : string) : without_some s s.
Proof. induction s; by constructor. Qed.

Lemma without_some_trans (s1 s2 s3 : string) :
  without_some s1 s2 -> without_some s2 s3 -> without_some s1 s3.
Proof.
  intros H. revert s3. induction H as [|a s s' H IH|a s s' Ha H IH];
    intros s3 H23; [done| |].
  - inversion H23; subst; [apply ws_keep|apply ws_drop; [done|]]; by apply IH.
  - apply ws_drop; [done|]. by apply IH.
Qed.

(** No byte of a white space character is a [>]. *)
Lemma space_width_no_gt (s : string) (k : nat) :
  space_width s = S k -> no_gt (S k) s = true.
Proof.
  destruct s as [|a s]; [done|]. cbn [space_width].
  destruct (py_isspace a) eqn:Ha.
  { intros [= <-]. cbn. by destruct (Ascii.eqb_spec a ">") as [->|]. }
  destruct s as [|b s]; [done|].
  destruct (Ascii.eqb_spec a "194") as [->|_].
  { destruct (Ascii.eqb b "133" || Ascii.eqb b "160") eqn:Hb; [|done].
    intros [= <-]. cbn. by destruct (Ascii.eqb_spec b ">") as [->|]. }
  destruct s as [|c s]; [done|]. cbv zeta.
  destruct (Ascii.eqb_spec a "225") as [->|_].
  { destruct (Ascii.eqb_spec b "154") as [->|_]; [|done].
    destruct (Ascii.eqb_spec c "128") as [->|_]; [|done].
    by intros [= <-]. }
  destruct (Ascii.eqb_spec a "226") as [->|_].
  { destruct (Ascii.eqb_spec b "128") as [->|_].
    - cbn [andb orb].
      destruct (_ || Ascii.eqb c "175" || _) eqn:Hc; [|done].
      intros [= <-]. cbn -[Nat.leb nat_of_ascii] in *.
      by destruct (Ascii.eqb_spec c ">") as [->|].
    - cbn [andb orb].
      destruct (Ascii.eqb_spec b "129") as [->|_]; [|done].
      destruct (Ascii.eqb_spec c "159") as [->|_]; [|done].
      by intros [= <-]. }
  destruct (Ascii.eqb_spec a "227") as [->|_]; [|done].
  destruct (Ascii.eqb_spec b "128") as [->|_]; [|done].
  destruct (Ascii.eqb_spec c "128") as [->|_]; [|done].
  by intros [= <-].
Qed.

Lemma lstrip_from_without_some (s : string) (n : nat) :
  no_gt n s = true -> without_some s (lstrip_from n s).
Proof.
  revert n. induction s as [|a s IH]; intros n Hn; [constructor|].
  cbn [lstrip_from]. destruct n as [|n].
  - destruct (space_width (String a s)) as [|k] eqn:Hk;
      [apply without_some_refl|].
    apply space_width_no_gt in Hk. cbn [no_gt] in Hk.
    apply andb_prop in Hk as [Ha Hs]. apply negb_true_iff in Ha.
    apply ws_drop; [done|]. by apply IH.
  - cbn [no_gt] in Hn. apply andb_prop in Hn as [Ha Hs].
    apply negb_true_iff in Ha. apply ws_drop; [done|]. by apply IH.
Qed.

Lemma blank_from_without_some (s : string) (n : nat) :
  no_gt n s = true -> blank_from n s = true -> without_some s "".
Proof.
  revert n. induction s as [|a s IH]; intros n Hn; [constructor|].
  cbn [blank_from]. destruct n as [|n].
  - destruct (space_width (String a s)) as [|k] eqn:Hk; [done|].
    apply space_width_no_gt in Hk. cbn [no_gt] in Hk.
    apply andb_prop in Hk as [Ha Hs]. apply negb_true_iff in Ha.
    intros Hblank. apply ws_drop; [done|]. by apply (IH k).
  - cbn [no_gt] in Hn. apply andb_prop in Hn as [Ha Hs].
    apply negb_true_iff in Ha.
    intros Hblank. apply ws_drop; [done|]. by apply (IH n).
Qed.

Lemma rstrip_without_some (s : string) : without_some s (rstrip s).
Proof.
  induction s as [|a s IH]; [constructor|]. cbn [rstrip].
  destruct (blank_from 0 (String a s)) eqn:Hblank.
  - by apply (blank_from_without_some _ 0%nat).
  - by apply ws_keep.
Qed.

Lemma strip_without_some (s : string) : without_some s (strip s).
Proof.
  unfold strip. apply (without_some_trans _ (lstrip s)).
  - by apply lstrip_from_without_some.
  - apply rstrip_without_some.
Qed.

Lemma last_newline_no_gt (s : string) (n m : nat) :
  no_gt n s = true -> last_newline n s = Some m -> no_gt m s = true.
Proof.
  revert n m. induction s as [|a s IH]; intros n m Hn; [done|].
  cbn [last_newline]. destruct n as [|n].
  - destruct (space_width (String a s)) as [|k] eqn:Hk; [done|].
    apply space_width_no_gt in Hk. cbn [no_gt] in Hk.
    apply andb_prop in Hk as [Ha Hs].
    destruct (last_newline k s) as [m'|] eqn:Hm.
    + intros [= <-]. cbn [no_gt]. rewrite Ha. by apply (IH k).
    + destruct (Ascii.eqb a "010"); [|done]. intros [= <-]. cbn [no_gt].
      by rewrite Ha.
  - cbn [no_gt] in Hn. apply andb_prop in Hn as [Ha Hs].
    destruct (last_newline n s) as [m'|] eqn:Hm; [|done].
    intros [= <-]. cbn [no_gt]. rewrite Ha. by apply (IH n).
Qed.

Lemma re_sub_blank_without_some (s : string) (n : nat) :
  no_gt n s = true ->
  without_some s (re_sub blank_match newline n s).
Proof.
  revert n. induction s as [|a s IH]; intros n Hn; [constructor|].
  destruct n as [|n]; cbn -[blank_match].
  2:{ cbn in Hn. apply andb_prop in Hn as [Ha Hn].
      apply negb_true_iff in Ha. apply ws_drop; [done|]. by apply IH. }
  destruct (blank_match (String a s)) as [[|m]|] eqn:E;
    [by apply ws_keep, IH| |by apply ws_keep, IH].
  cbn in E. destruct (Ascii.eqb a "010") eqn:Ha; [|done].
  apply Ascii.eqb_eq in Ha as ->.
  destruct (last_newline 0 s) as [k|] eqn:Hk; [|done]. injection E as ->.
  apply ws_keep, IH. by apply (last_newline_no_gt _ 0%nat).
Qed.

Lemma until_gt_without_some (s s' : string) :
  without_some s s' ->
  (until_gt s = None -> until_gt s' = None) /\
  (until_gt s = Some 0%nat -> until_gt s' = Some 0%nat).
Proof.
  induction 1 as [|a s s' H [IH1 IH2]|a s s' Ha H [IH1 IH2]]; [done| |].
  - split.
    + intros [Hgt Hs]%until_gt_None. apply until_gt_None. by auto.
    + intros Hgt%until_gt_0. by apply until_gt_0.
  - split.
    + intros [_ Hs]%until_gt_None. by apply IH1.
    + intros Hgt%until_gt_0. congruence.
Qed.

Lemma tag_free_without_some (s s' : string) :
  without_some s s' -> tag_free s -> tag_free s'.
Proof.
  induction 1 as [|a s s' H IH|a s s' Ha H IH]; [done| |].
  - intros [Hhere Hrest]%tag_free_cons. apply tag_free_cons.
    split; [|by apply IH].
    apply tag_match_None. apply tag_match_None in Hhere as [E|[E|E]];
      [by left| |].
    + right. left. by apply (until_gt_without_some s s').
    + right. right. by apply (until_gt_without_some s s').
  - intros [_ Hrest]%tag_free_cons. by apply IH.
Qed.

(** X22. What [remove_html_tags] returns holds no tag, whatever the
    text, as long as decoding the entities changes nothing in the text
    from which the tags were removed; tags can only come back from
    entities that decode to angle brackets. *)
Theorem no_tag_survives (unescape : string -> string) (text : string) :
  let without_tags :=
    re_sub tag_match "" 0 (re_sub br_match newline 0 text) in
  unescape without_tags = without_tags ->
  tag_free (remove_html_tags unescape text).
Proof.
  cbv zeta. intros Hplain. unfold remove_html_tags.
  destruct (falsy text); [apply tag_free_nil|]. cbv zeta. rewrite Hplain.
  eapply tag_free_without_some; [apply strip_without_some|].
  eapply tag_free_without_some;
    [by apply re_sub_blank_without_some|].
  apply re_sub_tag_free.
Qed.

(** * The further properties on sample runs *)

Lemma opening_match_survives_lower_threshold_witness :
  let score := 6369051672525773 # 9007199254740992 in
  1 # 4 <= 1 # 2 /\
  fst (find_opening_id_by_name sample_upstream Tfidf.scorer 1000 "Backend Eng"
         "key" (1 # 2) initial_world)
  = Returned (Some "101", Some "Backend Engineer", score) /\
  find_opening_id_by_name sample_upstream Tfidf.scorer 1000 "Backend Eng"
    "key" (1 # 4) initial_world
  = find_opening_id_by_name sample_upstream Tfidf.scorer 1000 "Backend Eng"
      "key" (1 # 2) initial_world.
Proof.
  intros score.
  assert (H1 : 1 # 4 <= 1 # 2) by (unfold Qle; simpl; lia).
  assert (H2 : fst (find_opening_id_by_name sample_upstream Tfidf.scorer 1000
                      "Backend Eng" "key" (1 # 2) initial_world)
               = Returned (Some "101", Some "Backend Engineer", score))
    by (vm_compute; reflexivity).
  split; [exact H1|]. split; [exact H2|].
  exact (opening_match_survives_lower_threshold sample_upstream Tfidf.scorer
           1000 "Backend Eng" "key" (1 # 4) (1 # 2) initial_world "101"
           (Some "Backend Engineer") score H1 H2).
Defined.

Lemma candidate_within_allowed_stages_witness :
  fst (find_candidate_by_name_in_opening sample_upstream Tfidf.scorer
         "Tran Thi Binh" "101" "key" (1 # 2) (Some ["Offered"]) initial_world)
  = Returned (Some "c2", 1) /\
  exists candidates c stage,
    candidate_list sample_upstream "key" "101" None None
      (length (trace initial_world)) = Body (Some candidates) /\
    In c candidates /\ c_id c = Some "c2" /\ has_name c = true /\
    c_stage_name c = Some stage /\ In stage ["Offered"].
Proof.
  assert (H1 : fst (find_candidate_by_name_in_opening sample_upstream
                      Tfidf.scorer "Tran Thi Binh" "101" "key" (1 # 2)
                      (Some ["Offered"]) initial_world)
               = Returned (Some "c2", 1)) by (vm_compute; reflexivity).
  split; [exact H1|].
  exact (candidate_within_allowed_stages sample_upstream Tfidf.scorer
           "Tran Thi Binh" "101" "key" (1 # 2) "Offered" [] initial_world
           "c2" 1 H1).
Defined.

Lemma candidate_fuzzy_gate_witness :
  let with_names := List.filter has_name sample_candidates in
  let sims := [1983214441891203 # 2251799813685248; 0; 0] in
  with_names <> [] /\
  (forall c, In c sample_candidates -> c_name c <> Some "Nguyen An") /\
  Tfidf.scorer "Nguyen An"
    (List.map (fun c => default "" (c_name c)) with_names) = Some sims /\
  length sims = length with_names /\
  exists i best c,
    first_max sims i best /\
    with_names !! i = Some c /\
    (1 # 2 <= best ->
     fst (search_candidates Tfidf.scorer "Nguyen An" (1 # 2) sample_candidates
            initial_world)
     = Returned (c_id c, best)) /\
    (best < 1 # 2 ->
     fst (search_candidates Tfidf.scorer "Nguyen An" (1 # 2) sample_candidates
            initial_world)
     = Returned (None, best)).
Proof.
  intros with_names sims.
  assert (H1 : with_names <> []) by discriminate.
  assert (H2 : forall c, In c sample_candidates ->
                         c_name c <> Some "Nguyen An").
  { intros c [<-|[<-|[<-|[]]]]; discriminate. }
  assert (H3 : Tfidf.scorer "Nguyen An"
                 (List.map (fun c => default "" (c_name c)) with_names)
               = Some sims) by (vm_compute; reflexivity).
  assert (H4 : length sims = length with_names) by reflexivity.
  repeat (split; [assumption|]).
  exact (candidate_fuzzy_gate Tfidf.scorer "Nguyen An" (1 # 2)
           sample_candidates sims initial_world H1 H2 H3 H4).
Defined.

Lemma found_test_is_listed_witness :
  let iq := {| test_name := Some "IQ test"; test_score := "8" |} in
  let tests := Some [ {| test_name := None; test_score := "5" |}; iq ] in
  fst (find_test_by_name Tfidf.scorer tests "IQ test" (1 # 2) initial_world)
  = Returned (Some iq, 1) /\
  exists l, tests = Some l /\ In iq l /\ truthy (test_name iq) = true.
Proof.
  intros iq tests.
  assert (H1 : fst (find_test_by_name Tfidf.scorer tests "IQ test" (1 # 2)
                      initial_world) = Returned (Some iq, 1))
    by (vm_compute; reflexivity).
  split; [exact H1|].
  exact (found_test_is_listed Tfidf.scorer tests "IQ test" (1 # 2)
           initial_world iq 1 H1).
Defined.

Lemma sheet_candidate_id_is_listed_witness :
  (fst (find_candidate_id_in_google_sheet sheet_upstream Tfidf.scorer true
          "Nguyen Van An" "Backend Engineer" (1 # 2) initial_world)
   = Returned (Some "c1", 1, 1) /\
   "c1" <> "" /\
   exists result rows row,
     sheet_read_all sheet_upstream (length (trace initial_world)) = Body result
     /\ sheet_success result = true /\ sheet_data result = Some rows /\
     In row rows /\ candidate_id_of row = "c1") /\
  (fst (find_candidate_id_in_google_sheet sheet_upstream Tfidf.scorer true
          "Tran Thi Binh" "Designer" (1 # 2) initial_world)
   = Returned (Some "None", 1, 1) /\
   "None" <> "" /\
   exists result rows row,
     sheet_read_all sheet_upstream (length (trace initial_world)) = Body result
     /\ sheet_success result = true /\ sheet_data result = Some rows /\
     In row rows /\ candidate_id_of row = "None").
Proof.
  assert (H1 : fst (find_candidate_id_in_google_sheet sheet_upstream
                      Tfidf.scorer true "Nguyen Van An" "Backend Engineer"
                      (1 # 2) initial_world)
               = Returned (Some "c1", 1, 1)) by (vm_compute; reflexivity).
  assert (H2 : fst (find_candidate_id_in_google_sheet sheet_upstream
                      Tfidf.scorer true "Tran Thi Binh" "Designer"
                      (1 # 2) initial_world)
               = Returned (Some "None", 1, 1)) by (vm_compute; reflexivity).
  split.
  - split; [exact H1|].
    exact (sheet_candidate_id_is_listed sheet_upstream Tfidf.scorer true
             "Nguyen Van An" "Backend Engineer" (1 # 2) initial_world "c1"
             1 1 H1).
  - split; [exact H2|].
    exact (sheet_candidate_id_is_listed sheet_upstream Tfidf.scorer true
             "Tran Thi Binh" "Designer" (1 # 2) initial_world "None"
             1 1 H2).
Defined.

Lemma opening_fetch_failure_raises_witness :
  let w1 := {| cache := cache expired_world;
               trace := [Request (OpeningList "key")] |} in
  falsy "key" = false /\
  failed (opening_list failing_upstream "key" (length (trace expired_world)))
  /\
  (cached true 1000 (openings (cache expired_world)) = None ->
   exists e,
     get_base_openings failing_upstream 1000 "key" true expired_world
     = (Raised e, w1) /\
     (e = ConnectivityError \/ e = JSONDecodeError)) /\
  (cached true 1000 (job_descriptions (cache expired_world)) = None ->
   exists e,
     get_job_descriptions failing_upstream plain_text 1000 "key" true
       expired_world = (Raised e, w1) /\
     (e = ConnectivityError \/ e = JSONDecodeError)).
Proof.
  intros w1.
  assert (H1 : falsy "key" = false) by reflexivity.
  assert (H2 : failed (opening_list failing_upstream "key"
                         (length (trace expired_world)))) by exact I.
  split; [exact H1|]. split; [exact H2|].
  exact (opening_fetch_failure_raises failing_upstream plain_text 1000 "key"
           true expired_world H1 H2).
Defined.

Lemma missing_openings_key_witness :
  let sent := [Request (OpeningList "key")] in
  let w1 := {| cache := set_openings empty_cache
                          {| data := Some []; timestamp := 1000 |};
               trace := sent |} in
  falsy "key" = false /\
  opening_list keyless_upstream "key" (length (trace initial_world))
  = Body None /\
  get_base_openings keyless_upstream 1000 "key" true initial_world
  = (Returned [], w1) /\
  get_job_descriptions keyless_upstream plain_text 1000 "key" true
    initial_world
  = (Returned [], {| cache := empty_cache; trace := sent |}).
Proof.
  intros sent w1.
  assert (H1 : falsy "key" = false) by reflexivity.
  assert (H2 : opening_list keyless_upstream "key"
                 (length (trace initial_world)) = Body None) by reflexivity.
  split; [exact H1|]. split; [exact H2|].
  pose proof (missing_openings_key keyless_upstream plain_text 1000 "key"
                initial_world H1 H2) as [Hopenings Hjds].
  split.
  - exact (proj1 (Hopenings eq_refl)).
  - exact (proj1 (Hjds eq_refl)).
Defined.

Lemma stage_filter_keeps_someone_witness :
  same_elements (first_seen (carried_stage_names sample_candidates))
                (carried_stage_names sample_candidates) = true /\
  sample_candidates <> [] /\
  exists kept w1,
    stage_filtered Tfidf.scorer first_seen (Some "Hired") sample_candidates
      initial_world = (Returned kept, w1) /\
    kept <> [] /\
    kept `sublist_of` sample_candidates /\
    cache w1 = cache initial_world.
Proof.
  assert (H1 : same_elements (first_seen (carried_stage_names sample_candidates))
                 (carried_stage_names sample_candidates) = true)
    by reflexivity.
  assert (H2 : sample_candidates <> []) by discriminate.
  split; [exact H1|]. split; [exact H2|].
  exact (stage_filter_keeps_someone Tfidf.scorer first_seen (Some "Hired")
           sample_candidates initial_world H1 H2).
Defined.

Lemma stale_job_descriptions_are_refetched_witness :
  let stale := [ {| jd_id := "103"; jd_name := "Data Analyst";
                    job_description := "Reports and dashboards.";
                    html_content := "Reports and dashboards." |} ] in
  let w1 := {| cache := cache stale_jd_world;
               trace := [Request (OpeningList "key")] |} in
  falsy "key" = false /\
  cached true 1000 (job_descriptions (cache stale_jd_world)) = Some stale /\
  jd_with_id "101" stale = None /\
  opening_list sample_upstream "key" (length (trace stale_jd_world))
  = Body (Some sample_raw_openings) /\
  lookup_job_description sample_upstream plain_text 1000 1001 "key" "101"
    stale_jd_world
  = (match jd_results plain_text sample_raw_openings with
     | Returned results => Returned (jd_with_id "101" results)
     | Raised e => Raised e
     end, w1) /\
  jd_results plain_text sample_raw_openings
  = Returned sample_job_descriptions /\
  jd_with_id "101" sample_job_descriptions
  = Some {| jd_id := "101"; jd_name := "Backend Engineer";
            job_description := "Build and run the hiring API.";
            html_content := "<p>Build and run the hiring API.</p>" |}.
Proof.
  intros stale w1.
  assert (H1 : falsy "key" = false) by reflexivity.
  assert (H2 : cached true 1000 (job_descriptions (cache stale_jd_world))
               = Some stale) by reflexivity.
  assert (H3 : jd_with_id "101" stale = None) by reflexivity.
  assert (H4 : opening_list sample_upstream "key"
                 (length (trace stale_jd_world))
               = Body (Some sample_raw_openings)) by reflexivity.
  repeat (split; [assumption|]).
  split; [|split; vm_compute; reflexivity].
  exact (proj1 (stale_job_descriptions_are_refetched sample_upstream
                  plain_text 1000 1001 "key" "101" stale_jd_world stale
                  sample_raw_openings H1 H2 H3 H4)).
Defined.

Lemma job_description_answer_is_sound_witness :
  let w1 := snd (get_base_openings sample_upstream 1000 "key" true
                   initial_world) in
  let w2 := snd (find_opening_id_by_name sample_upstream Tfidf.scorer 1001
                   "Backend Engineer" "key" (1 # 2) w1) in
  fst (get_job_description sample_upstream Tfidf.scorer plain_text "key"
         sample_stages 1000 1001 1002 1003 (Some "Backend Engineer")
         initial_world)
  = Returned (FoundJobDescription "Backend Engineer" "101"
                (Some "Backend Engineer") 1 "Build and run the hiring API."
                ["Applied"; "Interview"]) /\
  Some "Backend Engineer" = Some "Backend Engineer" /\
  "Backend Engineer" <> "" /\ "101" <> "" /\ 1 # 2 <= 1 /\
  (exists pool op,
     fst (get_base_openings sample_upstream 1001 "key" true w1)
     = Returned pool /\
     In op pool /\ op_id op = "101" /\
     Some "Backend Engineer" = Some (op_name op)) /\
  (exists jd,
     fst (lookup_job_description sample_upstream plain_text 1002 1003 "key"
            "101" w2) = Returned (Some jd) /\
     jd_id jd = "101" /\
     job_description jd = "Build and run the hiring API.").
Proof.
  intros w1 w2.
  assert (H1 : fst (get_job_description sample_upstream Tfidf.scorer
                      plain_text "key" sample_stages 1000 1001 1002 1003
                      (Some "Backend Engineer") initial_world)
               = Returned (FoundJobDescription "Backend Engineer" "101"
                             (Some "Backend Engineer") 1
                             "Build and run the hiring API."
                             ["Applied"; "Interview"]))
    by (vm_compute; reflexivity).
  split; [exact H1|].
  exact (job_description_answer_is_sound sample_upstream Tfidf.scorer
           plain_text "key" sample_stages 1000 1001 1002 1003
           (Some "Backend Engineer") initial_world "Backend Engineer" "101"
           (Some "Backend Engineer") 1 "Build and run the hiring API."
           ["Applied"; "Interview"] H1).
Defined.

Lemma target_file_ignores_query_witness :
  before "?" "https://files.example/offer.pdf?token=abc" <> "" /\
  before "?" "https://files.example/offer.pdf?token=abc"
  = "https://files.example/offer.pdf" /\
  is_target_file "https://files.example/offer.pdf?token=abc" "offer"
  = is_target_file "https://files.example/offer.pdf" "offer" /\
  is_target_file "https://files.example/offer.pdf" "offer" = true.
Proof.
  assert (H1 : before "?" "https://files.example/offer.pdf?token=abc" <> "")
    by discriminate.
  split; [exact H1|]. split; [reflexivity|]. split; [|reflexivity].
  exact (target_file_ignores_query "https://files.example/offer.pdf?token=abc"
           "offer" H1).
Defined.

Lemma offer_letter_is_readable_target_witness :
  let letter := {| ol_url := "https://files.example/offer.pdf?token=abc";
                   ol_name := "offer";
                   ol_text := "Offer for Nguyen Van An" |} in
  let ext := file_ext (ol_url letter) (ol_name letter) in
  get_offer_letter string sample_download sample_pdf_text sample_docx_text
    true sample_anchors "c1" "key" (Body (Some [sample_message]))
  = Some letter /\
  exists messages msg files file_bytes,
    Body (Some [sample_message]) = Body (Some messages) /\ In msg messages /\
    all_files sample_anchors msg = Some files /\
    In (ol_url letter, ol_name letter) files /\
    is_target_file (ol_url letter) (ol_name letter) = true /\
    sample_download (ol_url letter) = Some file_bytes /\
    ol_text letter <> "" /\
    ext <> "doc" /\
    ((contains "pdf" ext = true /\
      sample_pdf_text file_bytes = Some (ol_text letter)) \/
     (contains "pdf" ext = false /\ contains "docx" ext = true /\
      true = true /\
      sample_docx_text file_bytes = Some (ol_text letter))).
Proof.
  intros letter ext.
  assert (H1 : get_offer_letter string sample_download sample_pdf_text
                 sample_docx_text true sample_anchors "c1" "key"
                 (Body (Some [sample_message])) = Some letter)
    by reflexivity.
  split; [exact H1|].
  exact (offer_letter_is_readable_target string sample_download
           sample_pdf_text sample_docx_text true sample_anchors "c1" "key"
           (Body (Some [sample_message])) letter H1).
Defined.

Lemma attachments_hide_links_witness :
  let msg' := {| msg_has_attachment := msg_has_attachment sample_message;
                 msg_attachments := msg_attachments sample_message;
                 msg_content := "" |} in
  msg_has_attachment sample_message = Number 1 /\
  (0 < 1)%Z /\
  List.flat_map priority_file (msg_attachments sample_message) <> [] /\
  get_offer_letter string sample_download sample_pdf_text sample_docx_text
    true sample_anchors "c1" "key" (Body (Some ([] ++ msg' :: [])))
  = get_offer_letter string sample_download sample_pdf_text sample_docx_text
      true sample_anchors "c1" "key"
      (Body (Some ([] ++ sample_message :: []))).
Proof.
  intros msg'.
  assert (H1 : msg_has_attachment sample_message = Number 1) by reflexivity.
  assert (H2 : (0 < 1)%Z) by lia.
  assert (H3 : List.flat_map priority_file (msg_attachments sample_message)
               <> []) by (vm_compute; discriminate).
  repeat (split; [assumption|]).
  exact (attachments_hide_links string sample_download sample_pdf_text
           sample_docx_text true sample_anchors "c1" "key" [] []
           sample_message 1 "" H1 H2 H3).
Defined.

Lemma interviews_within_range_witness :
  let first := {| pi_id := Some "i1"; pi_candidate_id := Some "c1";
                  pi_candidate_name := Some "Nguyen Van An";
                  pi_opening_name := Some "Backend Engineer";
                  pi_time_dt := Some "2023-11-15T05:13:20+07:00" |} in
  date_object sample_strptime (DateString "2023-11-15") = inr (Some 19676%Z)
  /\ date_object sample_strptime NoDate = inr None /\
  given (Some 19676%Z) || given None = true /\
  get_interviews sample_to_hcm sample_strptime (Body (Some sample_interviews))
    (DateString "2023-11-15") NoDate (Some "101") None = inr [first] /\
  forall p,
    In p [first] <->
    exists iv t iso day,
      In iv sample_interviews /\
      (truthy (Some "101") = true -> iv_opening_id iv = Some "101") /\
      iv_time iv = Timestamp t /\ sample_to_hcm t = Converted iso day /\
      (forall x, Some 19676%Z = Some x -> (x <= day)%Z) /\
      (forall x, None = Some x -> (day <= x)%Z) /\
      p = processed iv (Some (iso, day)).
Proof.
  intros first.
  assert (H1 : date_object sample_strptime (DateString "2023-11-15")
               = inr (Some 19676%Z)) by reflexivity.
  assert (H2 : date_object sample_strptime NoDate = inr None) by reflexivity.
  assert (H3 : given (Some 19676%Z) || given None = true) by reflexivity.
  assert (H4 : get_interviews sample_to_hcm sample_strptime
                 (Body (Some sample_interviews)) (DateString "2023-11-15")
                 NoDate (Some "101") None = inr [first]) by reflexivity.
  repeat (split; [assumption|]).
  exact (interviews_within_range sample_to_hcm sample_strptime _ _
           (DateString "2023-11-15") NoDate (Some "101") (Some 19676%Z) None
           [first] H1 H2 H3 H4).
Defined.

Lemma reviews_survive_directory_failure_witness :
  falsy "acct" = false /\
  cached true 1000 (users_info (cache initial_world)) = None /\
  users_fetch_fails (user_list failing_upstream "acct"
                       (length (trace initial_world))) = true /\
  flat_map (review (fun s => s) ∅) sample_evaluations
  = [ {| rv_id := Some "e1"; rv_name := "lan"; rv_title := "";
         rv_content := "Strong" +:+ newline +:+ "hire" |};
      {| rv_id := Some "e2"; rv_name := "N/A"; rv_title := "";
         rv_content := "ok" |} ] /\
  exists reviews,
    process_evaluations failing_upstream (Some "acct") (fun s => s) 1000
      (Some sample_evaluations) initial_world
    = (Returned reviews,
       {| cache := cache initial_world;
          trace := Request (UserDirectory "acct") :: trace initial_world |}) /\
    length reviews
    = length (List.filter (fun e => bool_decide (ev_content e <> None))
                          sample_evaluations) /\
    forall r, In r reviews ->
      rv_title r = "" /\
      exists e content,
        In e sample_evaluations /\ ev_content e = Some content /\
        rv_id r = ev_id e /\
        rv_content r = remove_html_tags (fun s => s) content /\
        rv_name r = (if truthy (ev_username e)
                     then default "" (ev_username e) else "N/A").
Proof.
  assert (H1 : falsy "acct" = false) by reflexivity.
  assert (H2 : cached true 1000 (users_info (cache initial_world)) = None)
    by reflexivity.
  assert (H3 : users_fetch_fails (user_list failing_upstream "acct"
                                    (length (trace initial_world))) = true)
    by reflexivity.
  repeat (split; [assumption|]). split; [vm_compute; reflexivity|].
  exact (reviews_survive_directory_failure failing_upstream "acct"
           (fun s => s) 1000
           {| ev_id := Some "e1"; ev_username := Some "lan";
              ev_content := Some "<p>Strong<br/>hire</p>" |}
           [ {| ev_id := Some "e2"; ev_username := None;
                ev_content := Some "ok" |};
             {| ev_id := Some "e3"; ev_username := Some "hoang";
                ev_content := None |} ]
           initial_world H1 H2 H3).
Defined.

Lemma no_tag_survives_witness :
  let text := "<p>Strong<br/>hire</p><" in
  let without_tags :=
    re_sub tag_match "" 0 (re_sub br_match newline 0 text) in
  (fun s : string => s) without_tags = without_tags /\
  remove_html_tags (fun s => s) text = "Strong" +:+ newline +:+ "hire<" /\
  tag_free (remove_html_tags (fun s => s) text).
Proof.
  intros text without_tags.
  assert (H1 : (fun s : string => s) without_tags = without_tags)
    by reflexivity.
  split; [exact H1|]. split; [reflexivity|].
  exact (no_tag_survives (fun s => s) text H1).
Defined.
